(** * llm-readiness: crawler, check suite, scorer and CLI

    A shallow embedding of the Python package [llm_seo] (crawler.py,
    checks.py, content_analysis.py, scoring.py, llm_scraper.py,
    llm_analysis.py, cli.py), of the audit route of web-app/app.py, and
    the properties its specification states about them.

    Conventions.
    - Python [str] values are [string]s; a character is a code point
      below 256.
    - Python [int] values are [Z].
    - A Python call that may raise is a value of [result A]: [inl e] is
      the exception [e] (its [str(e)] text), [inr a] is the returned value.
    - The network and the HTML parser are collaborators outside the
      package: they are the fields of the classes [Web], [Html] and
      [Text] below.  The functions of [urllib.parse] that the crawler
      calls are embedded from the library's source (module [Url]). *)

From Stdlib Require Import ZArith Lia Bool Ascii String.
From stdpp Require Import base list strings gmap pretty sorting.
From Equations Require Import Equations.

Local Open Scope Z_scope.

(** ** Exceptions *)

Definition exn := string.
Definition result (A : Type) : Type := (exn + A)%type.

Definition ret {A} (a : A) : result A := inr a.
Definition raise {A} (e : exn) : result A := inl e.
Definition bind {A B} (m : result A) (k : A -> result B) : result B :=
  match m with
  | inl e => inl e
  | inr a => k a
  end.

Declare Scope result_scope.
Delimit Scope result_scope with result.
Notation "'let!' x ':=' m 'in' k" := (bind m (fun x => k))
  (at level 10, x pattern, m at level 100, k at level 200) : result_scope.
Local Open Scope result_scope.

(** ** The [str] methods the package calls *)

Module Py.

Definition code (c : ascii) : N := N_of_ascii c.

(** [c.isspace()] *)
Definition is_space (c : ascii) : bool :=
  let n := code c in
  ((9 <=? n) && (n <=? 13) || (28 <=? n) && (n <=? 32)
   || (n =? 133) || (n =? 160))%N.

Definition lower_char (c : ascii) : ascii :=
  let n := code c in
  if ((65 <=? n) && (n <=? 90)
      || (192 <=? n) && (n <=? 222) && negb (n =? 215))%N
  then ascii_of_N (n + 32)
  else c.

(** [s.lower()] *)
Fixpoint lower (s : string) : string :=
  match s with
  | EmptyString => EmptyString
  | String c rest => String (lower_char c) (lower rest)
  end.

(** [s.lstrip()] *)
Fixpoint lstrip (s : string) : string :=
  match s with
  | EmptyString => EmptyString
  | String c rest => if is_space c then lstrip rest else s
  end.

(** [s.rstrip()] *)
Fixpoint rstrip (s : string) : string :=
  match s with
  | EmptyString => EmptyString
  | String c rest =>
      match rstrip rest with
      | EmptyString => if is_space c then EmptyString else String c EmptyString
      | kept => String c kept
      end
  end.

(** [s.strip()] *)
Definition strip (s : string) : string := rstrip (lstrip s).

(** [s.split(sep)] for a one-character separator *)
Fixpoint split (sep : ascii) (s : string) : list string :=
  match s with
  | EmptyString => [EmptyString]
  | String c rest =>
      if Ascii.eqb c sep then EmptyString :: split sep rest
      else
        match split sep rest with
        | [] => [String c EmptyString]
        | piece :: pieces => String c piece :: pieces
        end
  end.

(** [s.split(sep, 1)[1]], which is an IndexError without a separator *)
Fixpoint after_first (sep : ascii) (s : string) : result string :=
  match s with
  | EmptyString => raise "IndexError: list index out of range"
  | String c rest => if Ascii.eqb c sep then ret rest else after_first sep rest
  end.

(** [s.startswith(p)] *)
Definition startswith (s p : string) : bool := String.prefix p s.

(** [sub in s] *)
Fixpoint contains (sub s : string) : bool :=
  String.prefix sub s ||
  match s with
  | EmptyString => false
  | String _ rest => contains sub rest
  end.

(** [len(s.split())]: the number of maximal runs of non-space
    characters; [in_word] tells whether the previous character was one. *)
Fixpoint count_words (in_word : bool) (s : string) : Z :=
  match s with
  | EmptyString => 0
  | String c rest =>
      if is_space c then count_words false rest
      else (if in_word then 0 else 1) + count_words true rest
  end.

(** [s[:n]] *)
Definition take (n : nat) (s : string) : string := String.substring 0 n s.

(** [len(s)] *)
Definition len (s : string) : Z := Z.of_nat (String.length s).

(** [str(n)] *)
Definition str (n : Z) : string := pretty n.

(** [round(a / b)] for integers [a >= 0] and [b > 0]: the quotient
    rounded to the nearest integer, a tie going to the even one.  [a / b]
    is the double nearest to the quotient, and [round] of that double is
    this integer whenever [a <= 100 * b] and [b < 2^45]: the quotient is
    then a half-integer or at least [1 / (2 * b)] away from one, more
    than the distance of two doubles below 128. *)
Definition round_div (a b : Z) : Z :=
  let q := a / b in
  let r := a mod b in
  if 2 * r <? b then q
  else if b <? 2 * r then q + 1
  else if Z.even q then q else q + 1.

End Py.

(** ** urllib.parse

    The functions of [urllib/parse.py] (CPython 3.11.2) that the package
    calls, on [str] arguments, with the checks of [ipaddress] behind
    them.  A [ValueError] is an [inl]; its text is the library's except
    for the [repr] of a host name. *)

Module Url.

(** [c in s] *)
Fixpoint has_char (c : ascii) (s : string) : bool :=
  match s with
  | EmptyString => false
  | String x rest => Ascii.eqb x c || has_char c rest
  end.

(** [s.partition(c)]: the text before the first [c] and, when there is
    one, the text after it *)
Fixpoint partition (c : ascii) (s : string) : string * option string :=
  match s with
  | EmptyString => (EmptyString, None)
  | String x rest =>
      if Ascii.eqb x c then (EmptyString, Some rest)
      else let '(before, after) := partition c rest in (String x before, after)
  end.

(** [s.rpartition(c)[2]] *)
Fixpoint after_last (c : ascii) (s : string) : string :=
  match s with
  | EmptyString => EmptyString
  | String x rest =>
      if has_char c rest then after_last c rest
      else if Ascii.eqb x c then rest else s
  end.

(** [s.rpartition(c)[0]], for a [c] that occurs in [s] *)
Fixpoint before_last (c : ascii) (s : string) : string :=
  match s with
  | EmptyString => EmptyString
  | String x rest =>
      if has_char c rest then String x (before_last c rest) else EmptyString
  end.

Fixpoint take_until (stop : ascii -> bool) (s : string) : string :=
  match s with
  | EmptyString => EmptyString
  | String c rest => if stop c then EmptyString else String c (take_until stop rest)
  end.

Fixpoint drop_until (stop : ascii -> bool) (s : string) : string :=
  match s with
  | EmptyString => EmptyString
  | String c rest => if stop c then s else drop_until stop rest
  end.

Fixpoint all_chars (test : ascii -> bool) (s : string) : bool :=
  match s with
  | EmptyString => true
  | String c rest => test c && all_chars test rest
  end.

Fixpoint remove_chars (test : ascii -> bool) (s : string) : string :=
  match s with
  | EmptyString => EmptyString
  | String c rest =>
      if test c then remove_chars test rest else String c (remove_chars test rest)
  end.

Fixpoint lstrip_chars (test : ascii -> bool) (s : string) : string :=
  match s with
  | EmptyString => EmptyString
  | String c rest => if test c then lstrip_chars test rest else s
  end.

Definition between (lo hi : N) (c : ascii) : bool :=
  ((lo <=? Py.code c) && (Py.code c <=? hi))%N.

Definition is_digit (c : ascii) : bool := between 48 57 c.
Definition is_alpha (c : ascii) : bool := between 65 90 c || between 97 122 c.
Definition is_hex_digit (c : ascii) : bool :=
  is_digit c || between 65 70 c || between 97 102 c.

(** [_WHATWG_C0_CONTROL_OR_SPACE] *)
Definition is_c0_control_or_space (c : ascii) : bool := (Py.code c <=? 32)%N.

(** [_UNSAFE_URL_BYTES_TO_REMOVE] *)
Definition is_unsafe_url_byte (c : ascii) : bool :=
  Ascii.eqb c "009" || Ascii.eqb c "013" || Ascii.eqb c "010".

(** [scheme_chars] *)
Definition is_scheme_char (c : ascii) : bool :=
  is_alpha c || is_digit c || Ascii.eqb c "+" || Ascii.eqb c "-" || Ascii.eqb c ".".

Definition uses_relative : list string :=
  [ ""; "ftp"; "http"; "gopher"; "nntp"; "imap"; "wais"; "file"; "https"; "shttp";
    "mms"; "prospero"; "rtsp"; "rtspu"; "sftp"; "svn"; "svn+ssh"; "ws"; "wss" ].

Definition uses_netloc : list string :=
  [ ""; "ftp"; "http"; "gopher"; "nntp"; "telnet"; "imap"; "wais"; "file"; "mms";
    "https"; "shttp"; "snews"; "prospero"; "rtsp"; "rtspu"; "rsync"; "svn";
    "svn+ssh"; "sftp"; "nfs"; "git"; "git+ssh"; "ws"; "wss" ].

Definition uses_params : list string :=
  [ ""; "ftp"; "hdl"; "prospero"; "http"; "imap"; "https"; "shttp"; "rtsp"; "rtspu";
    "sip"; "sips"; "mms"; "sftp"; "tel" ].

Definition one_of (names : list string) (name : string) : bool :=
  bool_decide (name ∈ names).

(** *** ipaddress: whether a text is an address *)

(** [int(octet, 10)] *)
Definition decimal_value (octet : string) : N :=
  fold_left (fun acc c => (acc * 10 + (Py.code c - 48))%N)
    (list_ascii_of_string octet) 0%N.

(** [IPv4Address._parse_octet] returns *)
Definition octet_valid (octet : string) : bool :=
  negb (bool_decide (octet = ""))
  && all_chars is_digit octet
  && (String.length octet <=? 3)%nat
  && (bool_decide (octet = "0") || negb (String.prefix "0" octet))
  && (decimal_value octet <=? 255)%N.

(** [IPv4Address(text)] returns *)
Definition ipv4_valid (text : string) : bool :=
  negb (has_char "/" text)
  && negb (bool_decide (text = ""))
  && (let octets := Py.split "." text in
      bool_decide (length octets = 4%nat) && forallb octet_valid octets).

(** [IPv6Address._parse_hextet] returns *)
Definition hextet_valid (hextet : string) : bool :=
  all_chars is_hex_digit hextet
  && (String.length hextet <=? 4)%nat
  && negb (bool_decide (hextet = "")).

(** [IPv6Address._split_scope_id]: the address, when the scope id is
    well formed *)
Definition split_scope_id (text : string) : option string :=
  match partition "%" text with
  | (addr, None) => Some addr
  | (addr, Some scope_id) =>
      if bool_decide (scope_id = "") || has_char "%" scope_id then None else Some addr
  end.

(** The indices [i] with [1 <= i < len(parts) - 1] and [parts[i]] empty *)
Definition skip_indices (parts : list string) : list nat :=
  filter (fun i => (1 <= i /\ i + 1 < length parts)%nat /\ parts !! i = Some "")
         (seq 0 (length parts)).

(** [IPv6Address._ip_int_from_string] returns *)
Definition ipv6_parts_valid (ip_str : string) : bool :=
  if bool_decide (ip_str = "") then false
  else
    let parts := Py.split ":" ip_str in
    if (length parts <? 3)%nat then false
    else
      let last_part := default "" (last parts) in
      let suffix_ok := negb (has_char "." last_part) || ipv4_valid last_part in
      let parts :=
        if has_char "." last_part
        then take (length parts - 1) parts ++ ["0"; "0"]
        else parts in
      if negb suffix_ok then false
      else if (9 <? length parts)%nat then false
      else
        let first_empty := bool_decide (head parts = Some "") in
        let last_empty := bool_decide (last parts = Some "") in
        match skip_indices parts with
        | _ :: _ :: _ => false
        | [skip_index] =>
            let parts_hi := skip_index in
            let parts_lo := (length parts - skip_index - 1)%nat in
            let parts_hi := if first_empty then (parts_hi - 1)%nat else parts_hi in
            let parts_lo := if last_empty then (parts_lo - 1)%nat else parts_lo in
            if first_empty && negb (parts_hi =? 0)%nat then false
            else if last_empty && negb (parts_lo =? 0)%nat then false
            else if (8 <=? parts_hi + parts_lo)%nat then false
            else
              forallb hextet_valid (take parts_hi parts)
              && forallb hextet_valid (drop (length parts - parts_lo) parts)
        | [] =>
            if negb (length parts =? 8)%nat then false
            else if first_empty then false
            else if last_empty then false
            else forallb hextet_valid parts
        end.

(** [IPv6Address(text)] returns *)
Definition ipv6_valid (text : string) : bool :=
  negb (has_char "/" text)
  && match split_scope_id text with
     | Some addr => ipv6_parts_valid addr
     | None => false
     end.

(** *** The authority in brackets *)

(** [re.match(r"\Av[a-fA-F0-9]+\..+\Z", hostname)] on a host name
    without line breaks *)
Definition ipvfuture_valid (hostname : string) : bool :=
  match hostname with
  | String "v" rest =>
      let digits := take_until (fun c => negb (is_hex_digit c)) rest in
      let tail := drop_until (fun c => negb (is_hex_digit c)) rest in
      negb (bool_decide (digits = ""))
      && match tail with
         | String "." (String _ _) => true
         | _ => false
         end
  | _ => false
  end.

Definition quote : string := "'".

Definition check_bracketed_host (hostname : string) : result unit :=
  if String.prefix "v" hostname then
    if ipvfuture_valid hostname then ret tt else raise "IPvFuture address is invalid"
  else if ipv4_valid hostname then raise "An IPv4 address cannot be in brackets"
  else if ipv6_valid hostname then ret tt
  else raise (quote +:+ hostname +:+ quote
              +:+ " does not appear to be an IPv4 or IPv6 address").

Definition check_bracketed_netloc (netloc : string) : result unit :=
  let hostname_and_port := after_last "@" netloc in
  match partition "[" hostname_and_port with
  | (before_bracket, Some bracketed) =>
      if negb (bool_decide (before_bracket = "")) then raise "Invalid IPv6 URL"
      else
        let '(hostname, port) := partition "]" bracketed in
        let port := default "" port in
        if negb (bool_decide (port = "")) && negb (String.prefix ":" port)
        then raise "Invalid IPv6 URL"
        else check_bracketed_host hostname
  | (_, None) =>
      check_bracketed_host (fst (partition ":" hostname_and_port))
  end.

(** *** urlsplit and urlparse *)

Record split_result := SplitResult {
  us_scheme : string;
  us_netloc : string;
  us_path : string;
  us_query : string;
  us_fragment : string
}.

Definition ends_netloc (c : ascii) : bool :=
  Ascii.eqb c "/" || Ascii.eqb c "?" || Ascii.eqb c "#".

(** The scheme of [url] and what follows its colon, [default] and
    [url] when it has none *)
Definition split_scheme (url default : string) : string * string :=
  match url, partition ":" url with
  | String first _, (String h head, Some rest) =>
      if is_alpha first && all_chars is_scheme_char (String h head)
      then (Py.lower (String h head), rest)
      else (default, url)
  | _, _ => (default, url)
  end.

(** [url[2:]] when [url[:2] == '//'] *)
Definition after_slashes (url : string) : option string :=
  match url with
  | String a (String b rest) =>
      if Ascii.eqb a "/" && Ascii.eqb b "/" then Some rest else None
  | _ => None
  end.

(** [urlsplit(url, scheme)] *)
Definition urlsplit (url scheme : string) : result split_result :=
  let url := lstrip_chars is_c0_control_or_space url in
  let url := remove_chars is_unsafe_url_byte url in
  let '(scheme, url) := split_scheme url scheme in
  let! authority :=
    match after_slashes url with
    | Some rest =>
        let netloc := take_until ends_netloc rest in
        let url := drop_until ends_netloc rest in
        if xorb (has_char "[" netloc) (has_char "]" netloc)
        then raise "Invalid IPv6 URL"
        else if has_char "[" netloc && has_char "]" netloc then
          let! _ := check_bracketed_netloc netloc in ret (netloc, url)
        else ret (netloc, url)
    | None => ret (EmptyString, url)
    end in
  let '(netloc, url) := authority in
  let '(url, fragment) := partition "#" url in
  let '(url, query) := partition "?" url in
  ret (SplitResult scheme netloc url (default "" query) (default "" fragment)).

Record parse_result := ParseResult {
  up_scheme : string;
  up_netloc : string;
  up_path : string;
  up_params : string;
  up_query : string;
  up_fragment : string
}.

(** [_splitparams(url)] for a [url] that holds a semicolon *)
Definition splitparams (url : string) : string * string :=
  if has_char "/" url then
    let directory := before_last "/" url in
    let name := after_last "/" url in
    match partition ";" name with
    | (name, Some params) => (directory +:+ "/" +:+ name, params)
    | (_, None) => (url, EmptyString)
    end
  else
    let '(name, params) := partition ";" url in (name, default "" params).

(** [urlparse(url, scheme)] *)
Definition urlparse (url scheme : string) : result parse_result :=
  let! parts := urlsplit url scheme in
  let '(path, params) :=
    if one_of uses_params (us_scheme parts) && has_char ";" (us_path parts)
    then splitparams (us_path parts)
    else (us_path parts, EmptyString) in
  ret (ParseResult (us_scheme parts) (us_netloc parts) path params
         (us_query parts) (us_fragment parts)).

(** [urlunsplit((scheme, netloc, url, query, fragment))] *)
Definition urlunsplit (scheme netloc url query fragment : string) : string :=
  let url :=
    if negb (bool_decide (netloc = ""))
       || (negb (bool_decide (scheme = "")) && one_of uses_netloc scheme
           && negb (String.prefix "//" url))
    then
      let url :=
        if negb (bool_decide (url = "")) && negb (String.prefix "/" url)
        then "/" +:+ url else url in
      "//" +:+ netloc +:+ url
    else url in
  let url := if bool_decide (scheme = "") then url else scheme +:+ ":" +:+ url in
  let url := if bool_decide (query = "") then url else url +:+ "?" +:+ query in
  if bool_decide (fragment = "") then url else url +:+ "#" +:+ fragment.

(** [urlunparse((scheme, netloc, url, params, query, fragment))] *)
Definition urlunparse (scheme netloc url params query fragment : string) : string :=
  let url := if bool_decide (params = "") then url else url +:+ ";" +:+ params in
  urlunsplit scheme netloc url query fragment.

(** [urldefrag(url)[0]] *)
Definition urldefrag (url : string) : result string :=
  if has_char "#" url then
    let! parts := urlparse url "" in
    ret (urlunparse (up_scheme parts) (up_netloc parts) (up_path parts)
           (up_params parts) (up_query parts) "")
  else ret url.

(** [urlparse(url).netloc] *)
Definition netloc (url : string) : result string :=
  let! parts := urlparse url "" in ret (up_netloc parts).

(** [f"{urlparse(url).scheme}://{urlparse(url).netloc}"] *)
Definition base_url (url : string) : result string :=
  let! parts := urlparse url "" in
  ret (up_scheme parts +:+ "://" +:+ up_netloc parts).

(** *** urljoin *)

(** The loop over the segments: [..] drops the last resolved segment,
    [.] is skipped. *)
Fixpoint resolve (segments resolved_path : list string) : list string :=
  match segments with
  | [] => resolved_path
  | seg :: rest =>
      if bool_decide (seg = "..")
      then resolve rest (take (length resolved_path - 1) resolved_path)
      else if bool_decide (seg = ".") then resolve rest resolved_path
      else resolve rest (resolved_path ++ [seg])
  end.

(** [segments[1:-1] = filter(None, segments[1:-1])] *)
Definition drop_empty_inside (segments : list string) : list string :=
  match segments with
  | first :: (_ :: _) as rest =>
      first :: filter (fun seg => seg <> "") (take (length rest - 1) rest)
        ++ drop (length rest - 1) rest
  | _ => segments
  end.

(** [urljoin(base, url)] *)
Definition urljoin (base url : string) : result string :=
  if bool_decide (base = "") then ret url
  else if bool_decide (url = "") then ret base
  else
    let! b := urlparse base "" in
    let! u := urlparse url (up_scheme b) in
    let scheme := up_scheme u in
    if negb (bool_decide (scheme = up_scheme b)) || negb (one_of uses_relative scheme)
    then ret url
    else if one_of uses_netloc scheme && negb (bool_decide (up_netloc u = "")) then
      ret (urlunparse scheme (up_netloc u) (up_path u) (up_params u) (up_query u)
             (up_fragment u))
    else
      let netloc := if one_of uses_netloc scheme then up_netloc b else up_netloc u in
      if bool_decide (up_path u = "") && bool_decide (up_params u = "") then
        let query := if bool_decide (up_query u = "") then up_query b else up_query u in
        ret (urlunparse scheme netloc (up_path b) (up_params b) query (up_fragment u))
      else
        let base_parts := Py.split "/" (up_path b) in
        let base_parts :=
          if bool_decide (last base_parts = Some "") then base_parts
          else take (length base_parts - 1) base_parts in
        let segments :=
          if String.prefix "/" (up_path u) then Py.split "/" (up_path u)
          else drop_empty_inside (base_parts ++ Py.split "/" (up_path u)) in
        let resolved_path := resolve segments [] in
        let resolved_path :=
          if bool_decide (last segments = Some ".") || bool_decide (last segments = Some "..")
          then resolved_path ++ [""] else resolved_path in
        let path := String.concat "/" resolved_path in
        let path := if bool_decide (path = "") then "/" else path in
        ret (urlunparse scheme netloc path (up_params u) (up_query u) (up_fragment u)).

End Url.

(** ** crawler.py *)

Module Crawler.

(** The dict built at crawler.py:39-44.  It has exactly the four keys
    [url], [html], [status_code] and [depth]; there is no [error] key. *)
Record page_data := PageData {
  pd_url : string;
  pd_html : option string;
  pd_status_code : option Z;
  pd_depth : Z
}.

(** What [requests.get] hands back when it does not raise. *)
Record response := Response {
  resp_text : string;
  resp_status_code : Z
}.

(** [Response.raise_for_status]: HTTPError for 4xx and 5xx. *)
Definition raise_for_status (r : response) : result unit :=
  if (400 <=? resp_status_code r) && (resp_status_code r <? 600)
  then raise "HTTPError"
  else ret tt.

Record crawl_state := CrawlState {
  visited : gset string;
  to_visit : list (string * Z);
  pages_data : list page_data;
  (** the URLs handed to [requests.get], oldest first *)
  fetched : list string;
  (** the exception that left the loop, crawler.py:27 *)
  raised : option exn
}.

(** crawler.py:12-13 *)
Definition normalize_start (start_url : string) : string :=
  if String.prefix "http://" start_url || String.prefix "https://" start_url
  then start_url
  else "https://" +:+ start_url.

Definition MAX_PAGES : nat := 50.

(** The collaborators of the crawler. *)
Class Web := {
  (** [requests.get(url, headers=..., timeout=10)] *)
  requests_get : string -> result response;
  (** [[link['href'] for link in BeautifulSoup(text).find_all('a', href=True)]] *)
  anchor_hrefs : string -> result (list string)
}.

Section Crawl.

Context {W : Web}.
Variable max_depth : Z.

(** crawler.py:55-61: the URL of a link without its fragment, and its
    authority.  The three calls are inside the [try]. *)
Definition normalize_link (normalized_url href : string) : result (string * string) :=
  let! full_url := Url.urljoin normalized_url href in
  let! normalized_full_url := Url.urldefrag full_url in
  let! domain := Url.netloc normalized_full_url in
  ret (normalized_full_url, domain).

(** crawler.py:53-63, the [for link in ...] loop.  An exception of
    [urljoin], [urldefrag] or [urlparse] leaves the loop for the handler
    at crawler.py:68 with the entries appended so far still in the
    queue. *)
Fixpoint enqueue_links (normalized_url base_domain : string) (depth : Z)
    (seen : gset string) (hrefs : list string) (queue : list (string * Z))
    : list (string * Z) :=
  match hrefs with
  | [] => queue
  | href :: rest =>
      match normalize_link normalized_url href with
      | inl _ => queue
      | inr (normalized_full_url, domain) =>
          if bool_decide (domain = base_domain)
             && negb (bool_decide (normalized_full_url ∈ seen))
          then enqueue_links normalized_url base_domain depth seen rest
                 (queue ++ [(normalized_full_url, depth + 1)])
          else enqueue_links normalized_url base_domain depth seen rest queue
      end
  end.

(** crawler.py:49-63 *)
Definition discover (normalized_url text : string) (depth : Z)
    (seen : gset string) (queue : list (string * Z)) : list (string * Z) :=
  if depth <? max_depth then
    match anchor_hrefs text with
    | inl _ => queue
    | inr hrefs =>
        match Url.netloc normalized_url with
        | inl _ => queue
        | inr base_domain =>
            enqueue_links normalized_url base_domain depth seen hrefs queue
        end
    end
  else queue.

(** crawler.py:36-37: the request and the status check. *)
Definition fetch (normalized_url : string) : result response :=
  let! r := requests_get normalized_url in
  let! _ := raise_for_status r in
  ret r.

(** One turn of the [while] loop, crawler.py:23-70.  [None] when the
    loop condition is false or an exception has left the loop:
    [urldefrag] at crawler.py:27 is called outside the [try]. *)
Definition crawl_step (st : crawl_state) : option crawl_state :=
  match raised st with
  | Some _ => None
  | None =>
      if bool_decide (length (pages_data st) < MAX_PAGES)%nat then
        match to_visit st with
        | [] => None
        | (url, depth) :: rest =>
            match Url.urldefrag url with
            | inl e =>
                Some (CrawlState (visited st) rest (pages_data st) (fetched st) (Some e))
            | inr normalized_url =>
                if bool_decide (normalized_url ∈ visited st) || (max_depth <? depth)
                then Some (CrawlState (visited st) rest (pages_data st) (fetched st) None)
                else
                  let visited' := {[normalized_url]} ∪ visited st in
                  let fetched' := fetched st ++ [normalized_url] in
                  match fetch normalized_url with
                  | inl _ =>
                      Some (CrawlState visited' rest (pages_data st) fetched' None)
                  | inr r =>
                      let page := PageData normalized_url (Some (resp_text r))
                                    (Some (resp_status_code r)) depth in
                      Some (CrawlState visited'
                              (discover normalized_url (resp_text r) depth visited' rest)
                              (pages_data st ++ [page]) fetched' None)
                  end
            end
        end
      else None
  end.

(** The loop ends: a turn either collects a page or shortens the queue. *)
Definition crawl_measure (st : crawl_state) : nat * nat :=
  (MAX_PAGES - length (pages_data st), length (to_visit st))%nat.

Equations? crawl_loop (st : crawl_state) : crawl_state
  by wf (crawl_measure st) (Subterm.lexprod _ _ lt lt) :=
  crawl_loop st with Logic.inspect (crawl_step st) := {
    | exist _ (Some st') Hstep => crawl_loop st'
    | exist _ None _ => st }.
Proof.
  revert Hstep. unfold crawl_step, crawl_measure.
  destruct (raised st); [discriminate|].
  case_bool_decide as Hlen; [|discriminate].
  destruct (to_visit st) as [|[url depth] rest] eqn:Hq; [discriminate|].
  destruct (Url.urldefrag url) as [e|normalized_url].
  { intros [= <-]; simpl. apply Subterm.right_lex. lia. }
  destruct (_ || _).
  - intros [= <-]; simpl. apply Subterm.right_lex. lia.
  - destruct (fetch _) as [e|r]; intros [= <-]; simpl.
    + apply Subterm.right_lex. lia.
    + apply Subterm.left_lex. rewrite length_app; simpl. unfold MAX_PAGES in *. lia.
Qed.

Definition crawl_init (start_url : string) : crawl_state :=
  CrawlState ∅ [(normalize_start start_url, 0)] [] [] None.

Definition crawl_final (start_url : string) : crawl_state :=
  crawl_loop (crawl_init start_url).

(** What the call hands back: the list of crawler.py:72, or the
    exception of crawler.py:27. *)
Definition crawl_outcome (st : crawl_state) : result (list page_data) :=
  match raised st with
  | Some e => raise e
  | None => ret (pages_data st)
  end.

(** crawler.py:9-72 *)
Definition crawl_site (start_url : string) : result (list page_data) :=
  crawl_outcome (crawl_final start_url).

(** The same loop with a bound on the number of turns; it evaluates
    by computation and agrees with [crawl_loop] whenever the bound is
    large enough. *)
Fixpoint crawl_run (fuel : nat) (st : crawl_state) : option crawl_state :=
  match crawl_step st with
  | None => Some st
  | Some st' =>
      match fuel with
      | O => None
      | S fuel' => crawl_run fuel' st'
      end
  end.

(** *** States met during a crawl *)

Inductive reachable (s0 : crawl_state) : crawl_state -> Prop :=
| reach_start : reachable s0 s0
| reach_turn st st' :
    reachable s0 st -> crawl_step st = Some st' -> reachable s0 st'.

(** *** Predicates on crawl states *)

(** [entry] is the queue entry of a link of the page [normalized_url]
    with markup [text], collected at [depth]. *)
Definition link_entry (normalized_url text : string) (depth : Z)
    (entry : string * Z) : Prop :=
  snd entry = depth + 1 /\
  Url.netloc (fst entry) = Url.netloc normalized_url /\
  exists hrefs href full_url,
    anchor_hrefs text = inr hrefs /\ href ∈ hrefs /\
    Url.urljoin normalized_url href = inr full_url /\
    Url.urldefrag full_url = inr (fst entry).

(** [w] was discovered: it is the link of a collected page, joined
    with the URL of the page and without its fragment. *)
Definition discovered (st : crawl_state) (w : string) : Prop :=
  exists p text hrefs href full_url,
    p ∈ pages_data st /\ pd_html p = Some text /\
    anchor_hrefs text = inr hrefs /\ href ∈ hrefs /\
    Url.urljoin (pd_url p) href = inr full_url /\
    Url.urldefrag full_url = inr w.


(** No URL is requested twice; the requests are the visited set; the
    queue holds the seed and discovered links; what is requested is the
    seed without its fragment or a discovered link as it stands. *)
Definition fetched_once (start_url : string) (st : crawl_state) : Prop :=
  NoDup (fetched st) /\
  (forall u, u ∈ fetched st <-> u ∈ visited st) /\
  (forall u d, (u, d) ∈ to_visit st ->
     u = normalize_start start_url
     \/ (discovered st u /\ Url.urldefrag u = inr u)) /\
  (forall u, u ∈ fetched st ->
     Url.urldefrag (normalize_start start_url) = inr u \/ discovered st u).

Definition pages_fetched (st : crawl_state) : Prop :=
  forall p, p ∈ pages_data st ->
    exists r, fetch (pd_url p) = inr r /\
              pd_html p = Some (resp_text r) /\
              pd_status_code p = Some (resp_status_code r).

End Crawl.

End Crawler.

(** ** checks.py *)

Module Checks.
Import Crawler.

(** [{'passed': ..., 'message': ...}] with an optional ['data'] entry *)
Record check_result (D : Type) := CheckResult {
  passed : bool;
  message : string;
  data : option D
}.
Arguments CheckResult {D} _ _ _.
Arguments passed {D} _.
Arguments message {D} _.
Arguments data {D} _.

(** What the checks read of a parsed element: its name, its attributes
    and the text nodes below it, in document order. *)
Record tag := Tag {
  tag_name : string;
  tag_attrs : list (string * string);
  tag_strings : list string
}.

(** A parsed document: its elements in document order. *)
Definition soup := list tag.

(** The collaborators of the checks. *)
Class Html := {
  (** the ['html.parser'] tree builder on a [str] *)
  html_parser : string -> result soup;
  (** [f"{urlparse(url).scheme}://{urlparse(url).netloc}"], checks.py:13 *)
  base_url_of : string -> result string;
  (** [requests.get(urljoin(base_url, '/robots.txt'), timeout=10)] *)
  robots_get : string -> result response
}.

(** [tag.get(key)] *)
Fixpoint attr_get (key : string) (attrs : list (string * string)) : option string :=
  match attrs with
  | [] => None
  | (k, v) :: rest => if bool_decide (k = key) then Some v else attr_get key rest
  end.

(** [soup.find_all(name)] *)
Definition find_all (name : string) (doc : soup) : list tag :=
  filter (fun t => tag_name t = name) doc.

(** [re.compile(r'^word$', re.I).search(value)] for a lower-case [word]:
    [$] also matches before a final newline. *)
Definition matches_word (word value : string) : bool :=
  bool_decide (Py.lower value = word)
  || bool_decide (Py.lower value = word +:+ String "010" EmptyString).

(** [soup.find('meta', attrs={'name': re.compile(r'^word$', re.I)})] *)
Fixpoint find_meta (word : string) (doc : soup) : option tag :=
  match doc with
  | [] => None
  | t :: rest =>
      if bool_decide (tag_name t = "meta")
         && from_option (matches_word word) false (attr_get "name" (tag_attrs t))
      then Some t
      else find_meta word rest
  end.

(** [tag.get_text(strip=True)] *)
Definition get_text_strip (t : tag) : string :=
  String.concat "" (filter (fun piece => piece <> "") (Py.strip <$> tag_strings t)).

Definition dquote : string := String "034" EmptyString.

Section Suite.

Context {H : Html}.
Context {D : Type}.

Definition ok (msg : string) : check_result D := CheckResult true msg None.
Definition ko (msg : string) : check_result D := CheckResult false msg None.

(** *** robots_txt_allows_crawling *)

(** checks.py:30 *)
Definition robots_lines (text : string) : list string :=
  let robots_content := Py.lower text in
  filter (fun line => line <> "" /\ Py.startswith line "#" = false)
         (Py.strip <$> Py.split "010" robots_content).

(** The loop at checks.py:36-45 with its two variables; the [break]
    of checks.py:45 is the last branch. *)
Fixpoint scan_groups (lines : list string) (in_wildcard_section : bool)
    (wildcard_disallows : list string) : result (list string) :=
  match lines with
  | [] => ret wildcard_disallows
  | line :: rest =>
      if Py.startswith line "user-agent:" then
        let! agent := Py.after_first ":" line in
        scan_groups rest (bool_decide (Py.strip agent = "*")) wildcard_disallows
      else if in_wildcard_section && Py.startswith line "disallow:" then
        let! path := Py.after_first ":" line in
        scan_groups rest in_wildcard_section (wildcard_disallows ++ [Py.strip path])
      else if Py.startswith line "user-agent:" && in_wildcard_section then
        ret wildcard_disallows
      else scan_groups rest in_wildcard_section wildcard_disallows
  end.

(** checks.py:27-56, the part of the [try] body after the status tests *)
Definition robots_verdict (text : string) : result (check_result D) :=
  let lines := robots_lines text in
  let! wildcard_disallows := scan_groups lines false [] in
  if bool_decide ("/" ∈ wildcard_disallows)
     && bool_decide (0 < length (filter (fun d => d = "/") wildcard_disallows))%nat
  then
    let allows := filter (fun line => Py.startswith line "allow:" = true) lines in
    match allows with
    | [] => ret (ko "robots.txt disallows all crawling")
    | _ => ret (ok "robots.txt allows crawling")
    end
  else ret (ok "robots.txt allows crawling").

(** checks.py:15-56, the [try] body *)
Definition robots_try (base_url : string) : result (check_result D) :=
  let! response := robots_get base_url in
  if resp_status_code response =? 404 then
    ret (ok "No robots.txt found (allows crawling per RFC)")
  else if negb (resp_status_code response =? 200) then
    ret (ok ("robots.txt returned " +:+ Py.str (resp_status_code response)
             +:+ " (allows crawling)"))
  else robots_verdict (resp_text response).

(** checks.py:10-60 *)
Definition check_robots_txt_allows_crawling (page : page_data)
    : result (check_result D) :=
  let! base_url := base_url_of (pd_url page) in
  match robots_try base_url with
  | inr verdict => ret verdict
  | inl e => ret (ok ("Could not check robots.txt (allows crawling): " +:+ e))
  end.

(** *** The markup checks *)

(** [BeautifulSoup(page_data['html'], 'html.parser')]: the constructor
    takes the length of its argument and so raises on [None]. *)
Definition BeautifulSoup (markup : option string) : result soup :=
  match markup with
  | None => raise "object of type 'NoneType' has no len()"
  | Some text => html_parser text
  end.

(** checks.py:63-77 *)
Definition check_meta_robots_allows_indexing (page : page_data)
    : result (check_result D) :=
  let! doc := BeautifulSoup (pd_html page) in
  match find_meta "robots" doc with
  | None => ret (ok "No meta robots tag (allows indexing)")
  | Some meta_robots =>
      let content := Py.lower (default "" (attr_get "content" (tag_attrs meta_robots))) in
      if Py.contains "noindex" content
      then ret (ko "Meta robots contains noindex")
      else ret (ok "Meta robots allows indexing")
  end.

(** checks.py:100-104, the scan of the H2 elements *)
Fixpoint h2_candidate (h2_tags : list tag) : option string :=
  match h2_tags with
  | [] => None
  | h2 :: rest =>
      let h2_text := get_text_strip h2 in
      if (10 <? Py.len h2_text)
         && negb (existsb (fun nav_word => Py.contains nav_word (Py.lower h2_text))
                    ["menu"; "navigation"; "skip to"])
      then Some h2_text
      else h2_candidate rest
  end.

(** checks.py:80-106 *)
Definition check_has_h1_tag (page : page_data) : result (check_result D) :=
  let! doc := BeautifulSoup (pd_html page) in
  match find_all "h1" doc with
  | h1 :: more =>
      if bool_decide (1 < length (h1 :: more))%nat then
        ret (ko ("Multiple H1 tags found (" +:+ Py.str (Z.of_nat (length (h1 :: more)))
                 +:+ "), should have exactly one"))
      else
        let h1_text := get_text_strip h1 in
        if bool_decide (h1_text = "") then ret (ko "H1 tag is empty")
        else ret (ok ("H1 tag found: " +:+ dquote +:+ Py.take 50 h1_text
                      +:+ "..." +:+ dquote))
  | [] =>
      match h2_candidate (find_all "h2" doc) with
      | Some h2_text =>
          ret (ko ("No H1 found, but H2 could be main heading: " +:+ dquote
                   +:+ Py.take 50 h2_text +:+ "..." +:+ dquote
                   +:+ " - Consider changing to H1 for better SEO"))
      | None =>
          ret (ko "No H1 tag found - Add a clear main heading for better AI understanding")
      end
  end.

(** checks.py:109-129 *)
Definition check_has_meta_description (page : page_data)
    : result (check_result D) :=
  let! doc := BeautifulSoup (pd_html page) in
  match find_meta "description" doc with
  | None => ret (ko "No meta description found")
  | Some meta_desc =>
      let content := Py.strip (default "" (attr_get "content" (tag_attrs meta_desc))) in
      if bool_decide (content = "") then ret (ko "Meta description is empty")
      else if Py.len content <? 120 then
        ret (ko ("Meta description too short (" +:+ Py.str (Py.len content)
                 +:+ " chars, recommend 120-160)"))
      else if 160 <? Py.len content then
        ret (ko ("Meta description too long (" +:+ Py.str (Py.len content)
                 +:+ " chars, recommend 120-160)"))
      else ret (ok ("Good meta description (" +:+ Py.str (Py.len content) +:+ " chars)"))
  end.

(** checks.py:144-151: the sources of the images without an [alt]
    attribute and of those whose [alt] is blank *)
Fixpoint alt_issues (images : list tag) : list string * list string :=
  match images with
  | [] => ([], [])
  | img :: rest =>
      let '(missing_alt, empty_alt) := alt_issues rest in
      let src := default "" (attr_get "src" (tag_attrs img)) in
      match attr_get "alt" (tag_attrs img) with
      | None => (src :: missing_alt, empty_alt)
      | Some alt =>
          if bool_decide (Py.strip alt = "") then (missing_alt, src :: empty_alt)
          else (missing_alt, empty_alt)
      end
  end.

(** checks.py:132-161 *)
Definition check_images_have_alt_text (page : page_data)
    : result (check_result D) :=
  let! doc := BeautifulSoup (pd_html page) in
  let images := find_all "img" doc in
  match images with
  | [] => ret (ok "No images found")
  | _ =>
      let '(missing_alt, empty_alt) := alt_issues images in
      let total_issues := (length missing_alt + length empty_alt)%nat in
      let count := Py.str (Z.of_nat (length images)) in
      if bool_decide (total_issues = 0%nat) then
        ret (ok ("All " +:+ count +:+ " images have alt text"))
      else if bool_decide (total_issues = length images) then
        ret (ko ("All " +:+ count +:+ " images missing alt text"))
      else
        ret (ko (Py.str (Z.of_nat total_issues) +:+ "/" +:+ count
                 +:+ " images missing/empty alt text"))
  end.

End Suite.

End Checks.

(** ** The robots rule as the specification words it

    [On 200, parse line-oriented directives, tracking the active
    user-agent group.  Only the wildcard group's disallow: / with no
    accompanying allow rule fails the check.]  These definitions follow
    those words and the robots convention, not checks.py; the theorems
    of [ChecksFacts] compare them with the code. *)
Module RobotsSpec.

(** The directives of a body: its lines, each one lower-cased and
    stripped, without the blank lines and the comment lines. *)
Definition directive_lines (body : string) : list string :=
  filter (fun line => line <> "" /\ Py.startswith line "#" = false)
         ((fun line => Py.strip (Py.lower line)) <$> Py.split "010" body).

Definition is_user_agent (line : string) : Prop :=
  Py.startswith line "user-agent:" = true.

Definition is_disallow (line : string) : Prop :=
  Py.startswith line "disallow:" = true.

Definition is_allow (line : string) : Prop :=
  Py.startswith line "allow:" = true.

(** The text after the first colon of [line], stripped, is [value]. *)
Definition field_is (line value : string) : Prop :=
  exists raw, Py.after_first ":" line = inr raw /\ Py.strip raw = value.

(** [lines] reach a [disallow: /] line before any [user-agent:] line:
    the active user-agent line is still the one before [lines]. *)
Definition group_disallows_all (lines : list string) : Prop :=
  exists group dis rest,
    lines = group ++ dis :: rest /\
    Forall (fun line => ~ is_user_agent line) group /\
    is_disallow dis /\ field_is dis "/".

(** Some [user-agent: *] line is the active one when a [disallow: /]
    line is met. *)
Definition wildcard_group_disallows_all (lines : list string) : Prop :=
  exists before ua group,
    lines = before ++ ua :: group /\
    is_user_agent ua /\ field_is ua "*" /\ group_disallows_all group.

Definition no_allow_line (lines : list string) : Prop :=
  Forall (fun line => ~ is_allow line) lines.

(** *** Groups as the robots convention (RFC 9309) has them

    A record is [field: value], the field name without regard to case
    and a [#] starting a comment that runs to the end of the line.  A
    group is one or more user-agent records followed by rules; the group
    of [*] is every group that names [*]. *)

Fixpoint before_char (c : ascii) (s : string) : string :=
  match s with
  | EmptyString => EmptyString
  | String a rest => if Ascii.eqb a c then EmptyString else String a (before_char c rest)
  end.

Definition record_of (line : string) : option (string * string) :=
  let text := before_char "#" line in
  match Py.after_first ":" text with
  | inl _ => None
  | inr value => Some (Py.lower (Py.strip (before_char ":" text)), Py.strip value)
  end.

Definition records (body : string) : list (string * string) :=
  omap record_of (Py.split "010" body).

(** [agents] are the user-agent values of the group being read and
    [in_rules] tells whether a rule of that group has been met: a
    user-agent record after a rule opens the next group. *)
Fixpoint group_scan (rs : list (string * string)) (agents : list string)
    (in_rules : bool) : bool :=
  match rs with
  | [] => false
  | (field, value) :: rest =>
      if bool_decide (field = "user-agent") then
        group_scan rest (if in_rules then [value] else value :: agents) false
      else if bool_decide (field = "disallow") || bool_decide (field = "allow") then
        bool_decide (field = "disallow") && bool_decide (value = "/")
          && bool_decide ("*" ∈ agents)
        || group_scan rest agents true
      else group_scan rest agents in_rules
  end.

(** The group of [*] holds [Disallow: /]. *)
Definition rfc_wildcard_group_disallows_all (body : string) : bool :=
  group_scan (records body) [] false.

(** The file has an Allow record. *)
Definition rfc_has_allow (body : string) : bool :=
  existsb (fun r => bool_decide (fst r = "allow")) (records body).

End RobotsSpec.

(** ** content_analysis.py *)

Module ContentAnalysis.
Import Crawler Checks.

(** The collaborators of the content analysis. *)
Class Text := {
  (** content_analysis.py:15-24: the text of the document without its
      script and style elements, white space normalised *)
  clean_text : soup -> string;
  (** [textstat.flesch_reading_ease], rounded down: the code only
      compares the score with integers *)
  flesch_reading_ease : string -> result Z;
  (** whether [json.loads] accepts the text *)
  json_valid : string -> bool
}.

Section Analysis.

Context {H : Html} {T : Text}.

(** content_analysis.py:9-50 *)
Definition analyze_content_readability (page : page_data) : result Z :=
  let! doc := BeautifulSoup (pd_html page) in
  let text := clean_text doc in
  if Py.len text <? 100 then ret 0
  else
    match flesch_reading_ease text with
    | inl _ => ret 50
    | inr flesch_score =>
        if 90 <=? flesch_score then ret 100
        else if 80 <=? flesch_score then ret 90
        else if 70 <=? flesch_score then ret 80
        else if 60 <=? flesch_score then ret 70
        else if 50 <=? flesch_score then ret 60
        else if 30 <=? flesch_score then ret 50
        else ret 30
    end.

Definition has_attr (key : string) (t : tag) : bool :=
  bool_decide (is_Some (attr_get key (tag_attrs t))).

Definition attr_startswith (key p : string) (t : tag) : bool :=
  from_option (fun v => Py.startswith v p) false (attr_get key (tag_attrs t)).

(** [json.loads(script.string)] without an exception *)
Definition json_ld_loads (script : tag) : bool :=
  match tag_strings script with
  | [text] => json_valid text
  | _ => false
  end.

Record structured_data := StructuredData {
  schema_count : Z;
  richness_score : Z
}.

(** content_analysis.py:53-96 *)
Definition analyze_structured_data (page : page_data) : result structured_data :=
  let! doc := BeautifulSoup (pd_html page) in
  let json_ld :=
    filter (fun t => json_ld_loads t = true)
      (filter (fun t => attr_get "type" (tag_attrs t) = Some "application/ld+json")
         (find_all "script" doc)) in
  let microdata_items := filter (fun t => has_attr "itemtype" t = true) doc in
  let rdfa_items := filter (fun t => has_attr "typeof" t = true) doc in
  let og_tags :=
    filter (fun t => attr_startswith "property" "og:" t = true) (find_all "meta" doc) in
  let twitter_tags :=
    filter (fun t => attr_startswith "name" "twitter:" t = true) (find_all "meta" doc) in
  let n (l : list tag) := Z.of_nat (length l) in
  let count := n json_ld + n microdata_items + n rdfa_items in
  let richness :=
    20 * n json_ld + 10 * n microdata_items + 10 * n rdfa_items
    + Z.min (2 * n og_tags) 20 + Z.min (2 * n twitter_tags) 10 in
  ret (StructuredData count (Z.min richness 100)).

End Analysis.

End ContentAnalysis.

(** ** scoring.py *)

Module Scoring.
Import Crawler Checks ContentAnalysis.

(** A value the scorer hands on without reading it. *)
Definition blob := string.

(** The keys of the dict of [scrape_as_llm] that scoring.py reads; both
    of its [return] statements set every one of them. *)
Record llm_content := LlmContent {
  lc_title : string;
  lc_headings : list string;
  lc_main_content : string;
  lc_structured_data : list string;
  lc_images_with_context : list string;
  lc_richness_score : Z
}.

Inductive check_data :=
| DataBlob (b : blob)
| DataContent (c : llm_content).

Abbreviation check := (check_result check_data).

Record content_summary := ContentSummary {
  cs_title : string;
  cs_headings_count : Z;
  cs_main_content_words : Z;
  cs_images_with_alt : Z;
  cs_structured_schemas : Z;
  cs_richness_score : Z
}.

Record content_analysis := ContentAnalysis {
  ca_readability_score : Z;
  ca_structured_data_richness : Z;
  ca_structured_schemas_count : Z;
  ca_llm_content_summary : content_summary
}.

(** The dict returned by [score_page]; [pr_checks] keeps the insertion
    order of the [checks] dict. *)
Record page_result := PageResult {
  pr_url : string;
  pr_score : Z;
  pr_checks : list (string * check);
  pr_content_analysis : content_analysis
}.

(** What scoring.py reads of the dict of [scrape_website_with_openai]. *)
Record openai_analysis := OpenaiAnalysis {
  oa_success : bool;
  oa_recommendations : list string;
  oa_domain : string;
  (** [(url, main_content)] of the pages of the content summary *)
  oa_pages : list (string * string)
}.

(** The collaborators of the scorer.  The first three wrap their whole
    body in [try ... except Exception] and always return. *)
Class Llm := {
  scrape_as_llm : option string -> string -> llm_content;
  analyze_llm_accessibility : option string -> string -> blob;
  extract_llm_readable_content : option string -> string -> check;
  scrape_website_with_openai : list page_data -> openai_analysis
}.

Record recommendations := Recommendations {
  critical : list string;
  important : list string;
  suggested : list string
}.

Record breakdown := Breakdown {
  high_accessibility : Z;
  medium_accessibility : Z;
  low_accessibility : Z
}.

(** The dict returned by [calculate_scores]. *)
Record site_results := SiteResults {
  sr_pages : list page_result;
  sr_site_score : Z;
  sr_recommendations : recommendations;
  sr_breakdown : breakdown;
  sr_avg_readability_score : Z;
  sr_avg_structured_data_richness : Z;
  sr_total_structured_schemas : Z;
  sr_openai_analysis : openai_analysis
}.

(** scoring.py:122-130: the loop over [checks.items()] *)
Fixpoint add_points (checks : list (string * check)) (score : Z) : Z :=
  match checks with
  | [] => score
  | (check_name, check_result) :: rest =>
      if passed check_result then
        if Py.startswith check_name "llm_"
        then add_points rest (score + 25)
        else add_points rest (score + 15)
      else add_points rest score
  end.

(** The scoring rule as the specification words it: the passed checks
    of the LLM-specific category, those whose name starts with [llm_],
    and the other passed checks. *)
Definition passed_llm (checks : list (string * check)) : Z :=
  Z.of_nat (length (filter (fun entry => passed (snd entry) = true
                              /\ Py.startswith (fst entry) "llm_" = true) checks)).

Definition passed_other (checks : list (string * check)) : Z :=
  Z.of_nat (length (filter (fun entry => passed (snd entry) = true
                              /\ Py.startswith (fst entry) "llm_" = false) checks)).

Definition sum_scores (pages : list page_result) : Z :=
  foldr Z.add 0 (pr_score <$> pages).

(** [checks[name]] *)
Fixpoint checks_get (name : string) (checks : list (string * check)) : option check :=
  match checks with
  | [] => None
  | (k, c) :: rest => if bool_decide (k = name) then Some c else checks_get name rest
  end.

Section Scorer.

Context {H : Html} {T : Text} {L : Llm}.

Definition count_of {A} (l : list A) : Z := Z.of_nat (length l).

(** scoring.py:77-140 *)
Definition score_page (page_data : page_data) : result page_result :=
  let llm_content := scrape_as_llm (pd_html page_data) (pd_url page_data) in
  let llm_accessibility :=
    analyze_llm_accessibility (pd_html page_data) (pd_url page_data) in
  let llm_readable_content :=
    extract_llm_readable_content (pd_html page_data) (pd_url page_data) in
  let headings := count_of (lc_headings llm_content) in
  let words := Py.count_words false (lc_main_content llm_content) in
  let! robots := check_robots_txt_allows_crawling page_data in
  let! meta_robots := check_meta_robots_allows_indexing page_data in
  let! h1 := check_has_h1_tag page_data in
  let! meta_description := check_has_meta_description page_data in
  let! alt_text := check_images_have_alt_text page_data in
  let checks : list (string * check) :=
    [ ("llm_content_analysis", llm_readable_content);
      ("llm_accessibility_analysis",
       CheckResult true
         ("LLM can access " +:+ Py.str headings +:+ " headings, "
          +:+ Py.str words +:+ " words of content")
         (Some (DataBlob llm_accessibility)));
      ("llm_content_richness",
       CheckResult (50 <=? lc_richness_score llm_content)
         ("Content richness score: " +:+ Py.str (lc_richness_score llm_content)
          +:+ "/100")
         (Some (DataContent llm_content)));
      ("robots_txt_allows_crawling", robots);
      ("meta_robots_allows_indexing", meta_robots);
      ("has_h1_tag", h1);
      ("has_meta_description", meta_description);
      ("images_have_alt_text", alt_text) ] in
  let! readability_score := analyze_content_readability page_data in
  let! richness := analyze_structured_data page_data in
  let! schemas := analyze_structured_data page_data in
  let content_analysis :=
    ContentAnalysis readability_score (richness_score richness) (schema_count schemas)
      (ContentSummary (lc_title llm_content) headings words
         (count_of (lc_images_with_context llm_content))
         (count_of (lc_structured_data llm_content))
         (lc_richness_score llm_content)) in
  let score := add_points checks 0 in
  let score := Z.min 100 score in
  ret (PageResult (pd_url page_data) score checks content_analysis).

(** [page['checks'][name]['passed']]; a missing key is a KeyError *)
Definition check_passed (name : string) (page : page_result) : result bool :=
  match checks_get name (pr_checks page) with
  | Some c => ret (passed c)
  | None => raise ("KeyError: " +:+ name)
  end.

(** [sum(1 for page in results['pages'] if not page['checks'][name]['passed'])] *)
Fixpoint count_failed (name : string) (pages : list page_result) : result Z :=
  match pages with
  | [] => ret 0
  | page :: rest =>
      let! ok := check_passed name page in
      let! n := count_failed name rest in
      ret ((if ok then 0 else 1) + n)
  end.

Definition append_if (cond : bool) (text : string) (l : list string) : list string :=
  if cond then l ++ [text] else l.

(** scoring.py:197-235; [avg_readability] and [total_schemas] are the
    two entries of the readiness summary it reads. *)
Definition generate_recommendations (pages : list page_result)
    (avg_readability total_schemas : Z) : result recommendations :=
  let total_pages := count_of pages in
  let! robots_issues := count_failed "robots_txt_allows_crawling" pages in
  let critical := append_if (0 <? robots_issues)
    ("URGENT: Fix robots.txt blocking on " +:+ Py.str robots_issues +:+ " pages - AI assistants can't access these pages at all. Check yourwebsite.com/robots.txt and remove 'Disallow: /' rules.") [] in
  let! meta_robots_issues := count_failed "meta_robots_allows_indexing" pages in
  let critical := append_if (0 <? meta_robots_issues)
    ("URGENT: Remove 'noindex' tags from " +:+ Py.str meta_robots_issues +:+ " pages - these tags tell AI 'don't read this page.' Ask your developer to remove <meta name='robots' content='noindex'> from pages you want AI to see.") critical in
  let! h1_issues := count_failed "has_h1_tag" pages in
  let critical := append_if (total_pages <? 2 * h1_issues)
    ("URGENT: Add clear main headings to " +:+ Py.str h1_issues +:+ " pages - AI needs these to understand what each page is about. Add an H1 heading like 'Emergency Plumbing Services in Chicago' instead of just 'Services.'") critical in
  let! meta_desc_issues := count_failed "has_meta_description" pages in
  let important := append_if (0 <? meta_desc_issues)
    ("Add page descriptions to " +:+ Py.str meta_desc_issues +:+ " pages - write 1-2 sentences (120-160 characters) explaining what visitors will find on each page. Example: 'Professional emergency plumbing services available 24/7 in Chicago. Licensed plumbers for repairs, installations, and maintenance.'") [] in
  let! alt_text_issues := count_failed "images_have_alt_text" pages in
  let important := append_if (0 <? alt_text_issues)
    ("Add descriptions to images on " +:+ Py.str alt_text_issues +:+ " pages - AI can't see pictures, only text descriptions. Add alt text like 'Team photo of ABC Company staff in office' or 'Red leather sofa with chrome legs, model XYZ-123.'") important in
  let suggested := append_if (avg_readability <? 70)
    "Simplify your writing for better AI understanding - use shorter sentences (15-20 words), replace jargon with simple terms, and add more headings. This helps AI explain your content more accurately to users." [] in
  let suggested := append_if (total_schemas =? 0)
    "Add content labels (structured data) to help AI understand what type of content you have - mark articles as 'Article,' products as 'Product,' and FAQs as 'FAQPage.' This helps AI give more relevant answers when people ask questions about your industry." suggested in
  ret (Recommendations critical important suggested).

Definition ai_insight (rec : string) : string := "🤖 AI INSIGHT: " +:+ rec.

(** scoring.py:179-187 *)
Definition business_context (sample_pages : list (string * string)) : string :=
  match sample_pages with
  | (_, main_content) :: _ =>
      if bool_decide (main_content = "") then "your business"
      else
        let content := Py.lower (Py.take 100 main_content) in
        if Py.contains "psychology" content || Py.contains "therapy" content
        then "psychology services"
        else if Py.contains "restaurant" content || Py.contains "food" content
        then "restaurant"
        else if Py.contains "shop" content || Py.contains "store" content
        then "store"
        else "your business"
  | [] => "your business"
  end.

(** scoring.py:143-194.  [sample_pages] is assigned only inside the
    H1 branch (scoring.py:172) and read in the next one
    (scoring.py:180). *)
Definition generate_ai_powered_recommendations (pages : list page_result)
    (openai_analysis : openai_analysis) : result recommendations :=
  let ai_recommendations := oa_recommendations openai_analysis in
  let critical := ai_insight <$> take 3 ai_recommendations in
  let important := ai_insight <$> take 3 (drop 3 ai_recommendations) in
  let suggested := ai_insight <$> drop 6 ai_recommendations in
  let total_pages := count_of pages in
  let domain := oa_domain openai_analysis in
  let! robots_issues := count_failed "robots_txt_allows_crawling" pages in
  let critical := append_if (0 <? robots_issues)
    ("🚨 URGENT: " +:+ Py.str robots_issues +:+ " pages on " +:+ domain +:+ " are blocked by robots.txt - AI assistants can't access these pages at all. Check " +:+ domain +:+ "/robots.txt and remove 'Disallow: /' rules.") critical in
  let! h1_issues := count_failed "has_h1_tag" pages in
  let sample_pages : option (list (string * string)) :=
    if total_pages <? 2 * h1_issues then Some (oa_pages openai_analysis) else None in
  let example_page :=
    match oa_pages openai_analysis with
    | (url, _) :: _ => url
    | [] => domain +:+ "/page"
    end in
  let critical := append_if (total_pages <? 2 * h1_issues)
    ("🚨 URGENT: " +:+ Py.str h1_issues +:+ " pages on " +:+ domain +:+ " are missing main headings - AI doesn't know what these pages are about. For example, add an H1 heading to " +:+ example_page +:+ ".") critical in
  let! meta_desc_issues := count_failed "has_meta_description" pages in
  let! important :=
    if 0 <? meta_desc_issues then
      match sample_pages with
      | None => raise "UnboundLocalError: sample_pages"
      | Some sample_pages =>
          ret (important ++
            ["⚠️ Add page descriptions to " +:+ Py.str meta_desc_issues +:+ " pages on " +:+ domain +:+ " - write 1-2 sentences explaining what visitors will find. Example for " +:+ business_context sample_pages +:+ ": 'Professional [service] available in [location]. [Key benefit or specialization].'"])
      end
    else ret important in
  let! alt_text_issues := count_failed "images_have_alt_text" pages in
  let important := append_if (0 <? alt_text_issues)
    ("⚠️ Add descriptions to images on " +:+ Py.str alt_text_issues +:+ " pages of " +:+ domain +:+ " - AI can't see pictures, only text descriptions. Describe what's actually in your images related to your business.") important in
  ret (Recommendations critical important suggested).

(** The running totals of the loop of scoring.py:40-58. *)
Record totals := Totals {
  t_pages : list page_result;
  t_score : Z;
  t_readability : Z;
  t_structured_data : Z;
  t_schemas : Z;
  t_breakdown : breakdown
}.

Definition categorize (score : Z) (b : breakdown) : breakdown :=
  if 80 <=? score then
    Breakdown (high_accessibility b + 1) (medium_accessibility b) (low_accessibility b)
  else if 50 <=? score then
    Breakdown (high_accessibility b) (medium_accessibility b + 1) (low_accessibility b)
  else
    Breakdown (high_accessibility b) (medium_accessibility b) (low_accessibility b + 1).

(** scoring.py:40-58 *)
Fixpoint score_all (pages_data : list page_data) (acc : totals) : result totals :=
  match pages_data with
  | [] => ret acc
  | page_data :: rest =>
      let! page_result := score_page page_data in
      let content_analysis := pr_content_analysis page_result in
      score_all rest
        (Totals (t_pages acc ++ [page_result])
           (t_score acc + pr_score page_result)
           (t_readability acc + ca_readability_score content_analysis)
           (t_structured_data acc + ca_structured_data_richness content_analysis)
           (t_schemas acc + ca_structured_schemas_count content_analysis)
           (categorize (pr_score page_result) (t_breakdown acc)))
  end.

(** scoring.py:17-74 *)
Definition calculate_scores (pages_data : list Crawler.page_data)
    : result site_results :=
  let openai_analysis := scrape_website_with_openai pages_data in
  let! acc := score_all pages_data (Totals [] 0 0 0 0 (Breakdown 0 0 0)) in
  let num_pages := count_of pages_data in
  let '(site_score, avg_readability, avg_structured, total_schemas) :=
    if 0 <? num_pages then
      (Py.round_div (t_score acc) num_pages,
       Py.round_div (t_readability acc) num_pages,
       Py.round_div (t_structured_data acc) num_pages,
       t_schemas acc)
    else (0, 0, 0, 0) in
  let! recommendations :=
    if oa_success openai_analysis
    then generate_ai_powered_recommendations (t_pages acc) openai_analysis
    else generate_recommendations (t_pages acc) avg_readability total_schemas in
  ret (SiteResults (t_pages acc) site_score recommendations (t_breakdown acc)
         avg_readability avg_structured total_schemas openai_analysis).

End Scorer.

End Scoring.

(** ** cli.py *)

Module Cli.
Import Crawler Checks ContentAnalysis Scoring.

(** What the command does to the outside: lines written with
    [click.echo] and files written. *)
Inductive event :=
| Echo (line : string)
| SaveReport (report path : string)
| WriteFile (path content : string).

Inductive output_format := FormatReport | FormatJson.

(** The dict returned by [generate_report_with_openai]. *)
Record openai_result := OpenaiResult {
  or_success : bool;
  or_report : string;
  or_error : string;
  or_scraped_content_summary : blob
}.

(** The collaborators of the command. *)
Class Shell := {
  (** [os.getenv] *)
  getenv : string -> option string;
  generate_unified_report : site_results -> option openai_result -> string;
  (** [json.dumps(results, indent=2)]; the second argument is the pair
      of entries added at cli.py:66-67 *)
  json_dumps : site_results -> option (string * blob) -> string;
  (** report_generator.py:289-293: [open(filename, 'w', encoding='utf-8')]
      and the write, an OSError when the path cannot be written *)
  save_report_to_file : string -> string -> result unit;
  (** cli.py:70-71: [open(output, 'w')] and [json.dump] into the file *)
  dump_to_file : string -> string -> result unit
}.

(** Truth value of an optional [str]: [None] and [''] are false. *)
Definition truthy (value : option string) : bool :=
  match value with
  | Some text => negb (bool_decide (text = ""))
  | None => false
  end.

Definition missing_key_message : string :=
  "Error: OpenAI API key required. Set OPENAI_API_KEY environment variable or use --openai-key option.".

(** The call of cli.py:46.  [generate_report_with_openai] has the two
    parameters [audit_results] and [pages_html_data]
    (openai_reporter.py:12) and is called here with three positional
    arguments: a TypeError, raised before the body of the function
    runs. *)
Definition generate_report_with_openai (results : site_results)
    (pages_html_data : list (string * option string)) (openai_key : option string)
    : result openai_result :=
  raise "generate_report_with_openai() takes 2 positional arguments but 3 were given".

Section Command.

Context {W : Web} {H : Html} {T : Text} {L : Llm} {S : Shell}.

(** cli.py:35-52: the OpenAI step when the key test has passed *)
Definition openai_step (results : site_results) (pages_data : list page_data)
    (openai_key : option string) : list event * result (option openai_result) :=
  let started := [Echo "Generating polished report with OpenAI..."] in
  let pages_html_data := (fun page => (pd_url page, pd_html page)) <$> pages_data in
  match generate_report_with_openai results pages_html_data openai_key with
  | inl e => (started, raise e)
  | inr openai_result =>
      if or_success openai_result then (started, ret (Some openai_result))
      else
        (started ++ [Echo ("Failed to generate OpenAI report: "
                           +:+ or_error openai_result)],
         ret None)
  end.

(** cli.py:54-74: what the report step writes and how it ends *)
Definition emit (results : site_results) (openai_result : option openai_result)
    (output : option string) (format : output_format) : list event * result unit :=
  match format with
  | FormatReport =>
      let unified_report := generate_unified_report results openai_result in
      match output with
      | Some path =>
          if truthy output then
            match save_report_to_file unified_report path with
            | inl e => ([], raise e)
            | inr _ =>
                ([SaveReport unified_report path; Echo ("Report saved to " +:+ path)],
                 ret tt)
            end
          else ([Echo unified_report], ret tt)
      | None => ([Echo unified_report], ret tt)
      end
  | FormatJson =>
      let extras :=
        match openai_result with
        | Some r =>
            if or_success r then Some (or_report r, or_scraped_content_summary r)
            else None
        | None => None
        end in
      let text := json_dumps results extras in
      match output with
      | Some path =>
          if truthy output then
            match dump_to_file path text with
            | inl e => ([], raise e)
            | inr _ =>
                ([WriteFile path text; Echo ("JSON report saved to " +:+ path)], ret tt)
            end
          else ([Echo text], ret tt)
      | None => ([Echo text], ret tt)
      end
  end.

(** cli.py:19-74.  The result is the trace of the run and how it ends. *)
Definition audit (url : string) (depth : Z) (output : option string)
    (openai_report : bool) (openai_key : option string) (format : output_format)
    : list event * result unit :=
  let trace :=
    [Echo ("Auditing " +:+ url +:+ " with depth " +:+ Py.str depth +:+ "...")] in
  match crawl_site depth url with
  | inl e => (trace, raise e)
  | inr pages_data =>
      match calculate_scores pages_data with
      | inl e => (trace, raise e)
      | inr results =>
          if openai_report then
            if negb (truthy openai_key) && negb (truthy (getenv "OPENAI_API_KEY")) then
              (trace ++ [Echo missing_key_message], ret tt)
            else
              match openai_step results pages_data openai_key with
              | (events, inl e) => (trace ++ events, raise e)
              | (events, inr openai_result) =>
                  let report := emit results openai_result output format in
                  (trace ++ events ++ fst report, snd report)
              end
          else
            let report := emit results None output format in
            (trace ++ fst report, snd report)
      end
  end.

(** The run printed or wrote a report: its trace holds an event of the
    report step, cli.py:54-74. *)
Definition report_emitted (trace : list event) : Prop :=
  exists e results openai_result output format,
    e ∈ trace /\ e ∈ fst (emit results openai_result output format).

End Command.

End Cli.

(** ** llm_scraper.py: the richness score *)

Module LlmScraper.
Import Scoring.

(** The keys of the content dict that [calculate_llm_content_richness]
    reads; a heading is its level and its text. *)
Record scraped_content := ScrapedContent {
  sc_title : string;
  sc_headings : list (Z * string);
  sc_main_content : string;
  sc_structured_data : list blob;
  sc_images_with_context : list blob;
  sc_lists_content : list blob;
  (** [content["metadata"].get("description")] *)
  sc_description : option string
}.

(** llm_scraper.py:356-397 *)
Definition calculate_llm_content_richness (content : scraped_content) : Z :=
  let score := 0 in
  let score :=
    if bool_decide (sc_title content = "") then score
    else
      let score := score + 10 in
      if 10 <? Py.len (sc_title content) then score + 5 else score in
  let score :=
    match sc_headings content with
    | [] => score
    | _ =>
        let score := score + count_of (sc_headings content) * 3 in
        let h1_count :=
          count_of (filter (fun h => fst h = 1) (sc_headings content)) in
        if h1_count =? 1 then score + 10 else score
    end in
  let score :=
    if bool_decide (sc_main_content content = "") then score
    else
      let word_count := Py.count_words false (sc_main_content content) in
      let score := if 100 <? word_count then score + 15 else score in
      let score := if 500 <? word_count then score + 10 else score in
      if 1000 <? word_count then score + 5 else score in
  let score := score + count_of (sc_structured_data content) * 15 in
  let score := score + count_of (sc_images_with_context content) * 2 in
  let score := score + count_of (sc_lists_content content) * 3 in
  let score :=
    match sc_description content with
    | Some text => if bool_decide (text = "") then score else score + 8
    | None => score
    end in
  Z.min 100 score.

End LlmScraper.

(** ** llm_analysis.py: the readable content of a page *)

Module LlmAnalysis.
Import Crawler Checks.

(** The three dicts of counts and the score, llm_analysis.py:218-278. *)
Record readable_analysis := ReadableAnalysis {
  ra_headings : Z;
  ra_paragraphs : Z;
  ra_lists : Z;
  ra_text_content_length : Z;
  ra_alt_text_images : Z;
  ra_structured_data : Z;
  ra_tables : Z;
  ra_forms : Z;
  ra_iframes : Z;
  ra_images_without_alt : Z;
  ra_canvas_elements : Z;
  ra_svg_elements : Z;
  ra_media_elements : Z;
  ra_javascript_dependent : Z;
  ra_llm_readiness_score : Z
}.

(** The ['data'] entry: the analysis, or [{}] after an exception. *)
Inductive readable_data :=
| Analysis (a : readable_analysis)
| NoAnalysis.

Class Document := {
  (** [soup.get_text()] *)
  get_text : soup -> string
}.

Section Readable.

Context {H : Html} {G : Document}.

(** [soup.find_all([name, ...])] *)
Definition find_all_of (names : list string) (doc : soup) : list tag :=
  filter (fun t => tag_name t ∈ names) doc.

(** [img.get('alt')] is a non-empty string. *)
Definition alt_given (img : tag) : bool :=
  match attr_get "alt" (tag_attrs img) with
  | Some alt => negb (bool_decide (alt = ""))
  | None => false
  end.

Definition n_of (tags : list tag) : Z := Z.of_nat (length tags).

(** llm_analysis.py:216-278: the counts and the score of a parsed page *)
Definition analyse_soup (doc : soup) : readable_analysis :=
  let headings := n_of (find_all_of ["h1"; "h2"; "h3"; "h4"; "h5"; "h6"] doc) in
  let paragraphs := n_of (find_all "p" doc) in
  let lists := n_of (find_all_of ["ul"; "ol"] doc) in
  let text_content_length := Py.len (Py.strip (get_text doc)) in
  let alt_text_images :=
    n_of (filter (fun img => alt_given img = true) (find_all "img" doc)) in
  let structured_data :=
    n_of (filter (fun t => attr_get "type" (tag_attrs t) = Some "application/ld+json")
            (find_all "script" doc)) in
  let tables := n_of (find_all "table" doc) in
  let forms := n_of (find_all "form" doc) in
  let iframes := n_of (find_all "iframe" doc) in
  let images_without_alt :=
    n_of (filter (fun img => alt_given img = false) (find_all "img" doc)) in
  let canvas_elements := n_of (find_all "canvas" doc) in
  let svg_elements := n_of (find_all "svg" doc) in
  let media_elements := n_of (find_all_of ["audio"; "video"] doc) in
  let javascript_dependent :=
    n_of (filter (fun t => is_Some (attr_get "onclick" (tag_attrs t))) doc) in
  let easily_readable_score :=
    Z.min 50 (headings * 3 + paragraphs * 2 + lists * 2 + alt_text_images * 2
              + structured_data * 5) in
  let challenging_penalty :=
    Z.min 20 (tables * 2 + forms * 1 + images_without_alt * 3) in
  let inaccessible_penalty :=
    Z.min 30 (canvas_elements * 5 + media_elements * 3 + javascript_dependent * 2) in
  ReadableAnalysis headings paragraphs lists text_content_length alt_text_images
    structured_data tables forms iframes images_without_alt canvas_elements
    svg_elements media_elements javascript_dependent
    (Z.max 0 (easily_readable_score - challenging_penalty - inaccessible_penalty)).

(** llm_analysis.py:213-307 *)
Definition extract_llm_readable_content (html : option string) (url : string)
    : check_result readable_data :=
  match BeautifulSoup html with
  | inl e => CheckResult false ("Error analyzing LLM content: " +:+ e) (Some NoAnalysis)
  | inr doc =>
      let content_analysis := analyse_soup doc in
      let score := ra_llm_readiness_score content_analysis in
      if 35 <=? score then
        CheckResult true
          ("High LLM content accessibility (score: " +:+ Py.str score +:+ ")")
          (Some (Analysis content_analysis))
      else if 20 <=? score then
        CheckResult true
          ("Moderate LLM content accessibility (score: " +:+ Py.str score +:+ ")")
          (Some (Analysis content_analysis))
      else
        CheckResult false
          ("Low LLM content accessibility (score: " +:+ Py.str score +:+ ")")
          (Some (Analysis content_analysis))
  end.

End Readable.

End LlmAnalysis.

(** ** web-app/app.py: the audit route *)

Module WebApp.
Import Crawler Checks ContentAnalysis Scoring Cli.

(** A JSON value as [request.get_json()] returns it: [None], a [bool],
    an [int], a [float] (a finite one by its value [num / den]; the
    literals [NaN], [Infinity] and [-Infinity], which [json.loads] takes,
    apart), a [str], a [list] or a [dict] with its entries in the order
    of the text. *)
#[local] Unset Elimination Schemes.
Inductive json :=
| JNull
| JBool (b : bool)
| JInt (n : Z)
| JFloat (num : Z) (den : positive)
| JNaN
| JInfinity (negative : bool)
| JString (s : string)
| JArray (items : list json)
| JObject (fields : list (string * json)).
#[local] Set Elimination Schemes.

(** [type(v).__name__] *)
Definition type_name (v : json) : string :=
  match v with
  | JNull => "NoneType"
  | JBool _ => "bool"
  | JInt _ => "int"
  | JFloat _ _ | JNaN | JInfinity _ => "float"
  | JString _ => "str"
  | JArray _ => "list"
  | JObject _ => "dict"
  end.

(** The AttributeError of [v.name] on a value without that attribute. *)
Definition no_attribute (v : json) (name : string) : exn :=
  "'" +:+ type_name v +:+ "' object has no attribute '" +:+ name +:+ "'".

(** [d.get(key)] on the dict of a JSON object: of two entries with the
    same key, [json.loads] keeps the later one. *)
Fixpoint dict_get (key : string) (fields : list (string * json)) : option json :=
  match fields with
  | [] => None
  | (k, v) :: rest =>
      match dict_get key rest with
      | Some later => Some later
      | None => if bool_decide (k = key) then Some v else None
      end
  end.

(** [bool(v)] *)
Definition truth (v : json) : bool :=
  match v with
  | JNull => false
  | JBool b => b
  | JInt n => negb (n =? 0)
  | JFloat num _ => negb (num =? 0)
  | JNaN | JInfinity _ => true
  | JString s => negb (bool_decide (s = ""))
  | JArray items => match items with [] => false | _ => true end
  | JObject fields => match fields with [] => false | _ => true end
  end.

(** The body of the answer to a finished audit, app.py:91-105. *)
Record audit_summary := AuditSummary {
  as_report_id : string;
  as_site_score : Z;
  as_total_pages : Z;
  as_critical_issues : Z;
  as_important_issues : Z;
  as_suggested_improvements : Z;
  as_accessibility_breakdown : breakdown;
  (** average readability, average structured data richness, schemas *)
  as_content_analysis : Z * Z * Z;
  as_has_ai_analysis : bool;
  as_download_url : string
}.

Inductive http_answer :=
| Answered (summary : audit_summary)
| Refused (status : Z) (error : string).

(** The collaborators of the route. *)
Class Server := {
  (** [int(text)] on a [str] *)
  int_of_str : string -> result Z;
  (** [str(uuid.uuid4())] *)
  new_report_id : string;
  (** [generate_report_with_openai(results, pages_html_data)]: it
      catches its own exceptions *)
  generate_report : site_results -> list (string * option string) -> openai_result;
  (** pdf_generator.py:480-482 and 253-271: the generator object, the
      document template and the title of the cover page *)
  pdf_cover : string -> result unit;
  (** pdf_generator.py:275-477: the rest of the report, built and
      written to the file *)
  pdf_body : site_results -> openai_result -> string -> result unit
}.

Definition fallback_report : openai_result :=
  OpenaiResult true
    "Professional AI analysis requires OpenAI API key configuration. The technical audit above provides comprehensive LLM readiness insights."
    "" "".

Section Route.

Context {W : Web} {H : Html} {T : Text} {L : Llm} {S : Server}.

(** [int(v)] *)
Definition int (v : json) : result Z :=
  match v with
  | JBool b => ret (if b then 1 else 0)
  | JInt n => ret n
  | JFloat num den => ret (Z.quot num (Z.pos den))
  | JNaN => raise "cannot convert float NaN to integer"
  | JInfinity _ => raise "cannot convert float infinity to integer"
  | JString text => int_of_str text
  | JNull | JArray _ | JObject _ =>
      raise ("int() argument must be a string, a bytes-like object or a real number, not '"
             +:+ type_name v +:+ "'")
  end.

(** pdf_generator.py:480-482 with the method at 253-477.  Line 274
    reads [audit_results.get('pages', [{}])[0]]: the results always have
    the key, so an audit without pages is an IndexError. *)
Definition generate_pdf_report (results : site_results) (openai_result : openai_result)
    (filename : string) : result unit :=
  let! _ := pdf_cover filename in
  match sr_pages results with
  | [] => raise "list index out of range"
  | _ :: _ => pdf_body results openai_result filename
  end.

(** app.py:38-107, the body of the [try] block; an [inl] is an
    exception on its way to the handler.  [request] is what
    [request.get_json()] does: it raises or returns the decoded body. *)
Definition audit_website_try (request : result json) : result http_answer :=
  let! data := request in
  let! fields :=
    match data with
    | JObject fields => ret fields
    | _ => raise (no_attribute data "get")
    end in
  let url := default JNull (dict_get "url" fields) in
  let! depth := int (default (JInt 1) (dict_get "depth" fields)) in
  if negb (truth url) then ret (Refused 400 "URL is required")
  else
    let! url :=
      match url with
      | JString url =>
          ret (if String.prefix "http://" url || String.prefix "https://" url
               then url else "https://" +:+ url)
      | _ => raise (no_attribute url "startswith")
      end in
    let report_id := new_report_id in
    let! pages_data := crawl_site depth url in
    let! results := calculate_scores pages_data in
    let pages_html_data := (fun page => (pd_url page, pd_html page)) <$> pages_data in
    let openai_result := generate_report results pages_html_data in
    let openai_result :=
      if or_success openai_result then openai_result else fallback_report in
    let report_filename := "llm_seo_report_" +:+ report_id +:+ ".pdf" in
    let report_path := "reports/" +:+ report_filename in
    let! _ := generate_pdf_report results openai_result report_path in
    ret (Answered
           (AuditSummary report_id (sr_site_score results)
              (count_of (sr_pages results))
              (count_of (critical (sr_recommendations results)))
              (count_of (important (sr_recommendations results)))
              (count_of (suggested (sr_recommendations results)))
              (sr_breakdown results)
              (sr_avg_readability_score results,
               sr_avg_structured_data_richness results,
               sr_total_structured_schemas results)
              (or_success openai_result)
              ("/download/" +:+ report_filename))).

(** app.py:34-111 *)
Definition audit_website (request : result json) : http_answer :=
  match audit_website_try request with
  | inr answer => answer
  | inl e => Refused 500 ("Audit failed: " +:+ e)
  end.

End Route.

End WebApp.

(** ** A small site

    Three pages on [example.com], whose robots.txt closes the site to
    every crawler, two URLs that fail, and a second host. *)
Module Site.
Import Crawler Checks ContentAnalysis Scoring Cli.

Definition home_html : string :=
  "<html><head><title>Example</title></head><body><h1>Example</h1><a href='/missing'>a</a><a href='/down'>b</a><a href='/page#section'>c</a><a href='/page'>d</a><a href='https://other.org/'>e</a><a href='/page?x=1#top'>f</a></body></html>".

Definition page_html : string :=
  "<html><head><meta name='ROBOTS' content='NoIndex, follow'></head><body><h2>Short</h2><img src='a.png'></body></html>".

Definition query_html : string :=
  "<html><body><h1>One</h1><h1>Two</h1></body></html>".

Definition newline : string := String "010" EmptyString.

Definition blocking_robots_txt : string :=
  "User-agent: *" +:+ newline +:+ "Disallow: /".

Definition site_get (url : string) : result response :=
  if bool_decide (url = "https://example.com") then ret (Response home_html 200)
  else if bool_decide (url = "https://example.com/page") then ret (Response page_html 200)
  else if bool_decide (url = "https://example.com/page?x=1") then ret (Response query_html 200)
  else if bool_decide (url = "https://example.com/missing") then ret (Response "Not Found" 404)
  else if bool_decide (url = "https://example.com/robots.txt")
  then ret (Response blocking_robots_txt 200)
  else if bool_decide (url = "https://other.org/") then ret (Response "<html></html>" 200)
  else if bool_decide (url = "https://other.org/robots.txt") then ret (Response "" 404)
  else raise "ConnectionError".

Definition home_doc : soup :=
  [ Tag "html" [] ["Example"; "Example"; "a"; "b"; "c"; "d"; "e"; "f"];
          Tag "head" [] ["Example"];
          Tag "title" [] ["Example"];
          Tag "body" [] ["Example"; "a"; "b"; "c"; "d"; "e"; "f"];
          Tag "h1" [] ["Example"];
          Tag "a" [("href", "/missing")] ["a"];
          Tag "a" [("href", "/down")] ["b"];
          Tag "a" [("href", "/page#section")] ["c"];
          Tag "a" [("href", "/page")] ["d"];
          Tag "a" [("href", "https://other.org/")] ["e"];
          Tag "a" [("href", "/page?x=1#top")] ["f"] ].

Definition page_doc : soup :=
  [ Tag "html" [] ["Short"];
          Tag "head" [] [];
          Tag "meta" [("name", "ROBOTS"); ("content", "NoIndex, follow")] [];
          Tag "body" [] ["Short"];
          Tag "h2" [] ["Short"];
          Tag "img" [("src", "a.png")] [] ].

Definition query_doc : soup :=
  [ Tag "html" [] ["One"; "Two"];
          Tag "body" [] ["One"; "Two"];
          Tag "h1" [] ["One"];
          Tag "h1" [] ["Two"] ].

Definition site_parser (text : string) : result soup :=
  if bool_decide (text = home_html) then ret home_doc
  else if bool_decide (text = page_html) then ret page_doc
  else if bool_decide (text = query_html) then ret query_doc
  else ret [].

Definition site_hrefs (text : string) : result (list string) :=
  let! doc := site_parser text in
  ret (omap (fun t => attr_get "href" (tag_attrs t)) (find_all "a" doc)).

#[export] Instance site_web : Web := {|
  requests_get := site_get;
  anchor_hrefs := site_hrefs
|}.

Definition site_robots_get (base : string) : result response :=
  let! robots_url := Url.urljoin base "/robots.txt" in
  site_get robots_url.

#[export] Instance site_html : Html := {|
  html_parser := site_parser;
  base_url_of := Url.base_url;
  robots_get := site_robots_get
|}.

(** The site with another robots.txt, answered with status 200. *)
Definition robots_html (body : string) : Html := {|
  html_parser := site_parser;
  base_url_of := Url.base_url;
  robots_get _ := ret (Response body 200)
|}.

(** A wildcard group that names a second crawler, and a rule with a
    comment at its end. *)
Definition shared_group_robots_txt : string :=
  "User-agent: *" +:+ newline +:+ "User-agent: GPTBot" +:+ newline +:+ "Disallow: /".

Definition commented_rule_robots_txt : string :=
  "User-agent: *" +:+ newline +:+ "Disallow: / # everything".

#[export] Instance site_text : Text := {|
  clean_text doc := String.concat " " (default [] (tag_strings <$> head doc));
  flesch_reading_ease _ := ret 65;
  json_valid _ := false
|}.

#[export] Instance site_document : LlmAnalysis.Document := {|
  LlmAnalysis.get_text doc := String.concat "" (default [] (tag_strings <$> head doc))
|}.

(** [tag.get_text().strip()] *)
Definition stripped_text (t : tag) : string :=
  Py.strip (String.concat "" (tag_strings t)).

(** The level of a heading element. *)
Definition heading_level (t : tag) : option Z :=
  if bool_decide (tag_name t = "h1") then Some 1
  else if bool_decide (tag_name t = "h2") then Some 2
  else if bool_decide (tag_name t = "h3") then Some 3
  else if bool_decide (tag_name t = "h4") then Some 4
  else if bool_decide (tag_name t = "h5") then Some 5
  else if bool_decide (tag_name t = "h6") then Some 6
  else None.

(** llm_scraper.py:12-135 on the documents of the site, which have no
    script, style, navigation, paragraph, list or table elements and no
    meta description: the title, the headings with a text, and the
    images with an [alt] text. *)
Definition site_scrape (doc : soup) : LlmScraper.scraped_content :=
  LlmScraper.ScrapedContent
    (default "" (stripped_text <$> head (find_all "title" doc)))
    (omap (fun t => match heading_level t with
                    | Some level =>
                        if bool_decide (stripped_text t = "") then None
                        else Some (level, stripped_text t)
                    | None => None
                    end) doc)
    ""
    []
    (omap (fun img => match attr_get "alt" (tag_attrs img) with
                      | Some alt => if bool_decide (Py.strip alt = "") then None
                                    else Some (Py.strip alt)
                      | None => None
                      end) (find_all "img" doc))
    []
    None.

(** llm_scraper.py:9-155 on the pages of the site; the handler of
    line 141 answers for a record without markup. *)
Definition site_scrape_as_llm (html : option string) (url : string) : llm_content :=
  match BeautifulSoup html with
  | inl _ => LlmContent "" [] "" [] [] 0
  | inr doc =>
      let content := site_scrape doc in
      LlmContent (LlmScraper.sc_title content) (snd <$> LlmScraper.sc_headings content)
        (LlmScraper.sc_main_content content) (LlmScraper.sc_structured_data content)
        (LlmScraper.sc_images_with_context content)
        (LlmScraper.calculate_llm_content_richness content)
  end.

(** llm_analysis.py:213-307, its ['data'] entry handed on unread. *)
Definition site_readable_content (html : option string) (url : string) : check :=
  let verdict := LlmAnalysis.extract_llm_readable_content html url in
  CheckResult (passed verdict) (message verdict) (Some (DataBlob "{}")).

#[export] Instance site_llm : Llm := {|
  scrape_as_llm := site_scrape_as_llm;
  analyze_llm_accessibility _ _ := "{}";
  extract_llm_readable_content := site_readable_content;
  scrape_website_with_openai _ := OpenaiAnalysis false [] "" []
|}.

(** A shell without an OpenAI key, in which a directory cannot be
    written as a file. *)
Definition site_write (path : string) : result unit :=
  if bool_decide (path = "/") then raise "[Errno 21] Is a directory: '/'" else ret tt.

#[export] Instance site_shell : Shell := {|
  getenv _ := None;
  generate_unified_report results _ :=
    "LLM READINESS AUDIT REPORT " +:+ Py.str (sr_site_score results) +:+ "/100";
  json_dumps results _ := "{ site_score: " +:+ Py.str (sr_site_score results) +:+ " }";
  save_report_to_file _ path := site_write path;
  dump_to_file path _ := site_write path
|}.

(** The same shell with a key in the environment. *)
Definition keyed_shell : Shell := {|
  getenv name := if bool_decide (name = "OPENAI_API_KEY") then Some "sk-test" else None;
  generate_unified_report := generate_unified_report (Shell := site_shell);
  json_dumps := json_dumps (Shell := site_shell);
  save_report_to_file := save_report_to_file (Shell := site_shell);
  dump_to_file := dump_to_file (Shell := site_shell)
|}.

Definition home_page : page_data :=
  PageData "https://example.com" (Some home_html) (Some 200) 0.
Definition inner_page : page_data :=
  PageData "https://example.com/page" (Some page_html) (Some 200) 1.
Definition query_page : page_data :=
  PageData "https://example.com/page?x=1" (Some query_html) (Some 200) 1.
(** A record as the data model describes it for a failed fetch. *)
Definition down_page : page_data :=
  PageData "https://example.com/down" None None 1.

(** [int(text)] on the strings of the requests below. *)
Definition site_int (text : string) : result Z :=
  if bool_decide (text = "2") then ret 2
  else raise ("invalid literal for int() with base 10: '" +:+ text +:+ "'").

(** The server without an OpenAI key. *)
#[export] Instance site_server : WebApp.Server := {|
  WebApp.int_of_str := site_int;
  WebApp.new_report_id := "1b4e28ba-2fa1-41d2-883f-0016d3cca427";
  WebApp.generate_report _ _ :=
    OpenaiResult false "" "OpenAI API key not found in environment variables" "";
  WebApp.pdf_cover _ := ret tt;
  WebApp.pdf_body _ _ _ := ret tt
|}.

(** Bodies of a request to the route: the site with the default depth;
    no URL and a depth that is no numeral; a URL that is not answered; a
    URL that is a number; a seed that [urldefrag] rejects. *)
Definition site_request : result WebApp.json :=
  inr (WebApp.JObject [("url", WebApp.JString "example.com")]).

Definition bad_depth_request : result WebApp.json :=
  inr (WebApp.JObject [("depth", WebApp.JString "deep")]).

Definition down_request : result WebApp.json :=
  inr (WebApp.JObject [("url", WebApp.JString "example.com/down");
                       ("depth", WebApp.JInt 2)]).

Definition number_request : result WebApp.json :=
  inr (WebApp.JObject [("url", WebApp.JInt 5)]).

Definition zero_request : result WebApp.json :=
  inr (WebApp.JObject [("url", WebApp.JInt 0)]).

Definition bracket_request : result WebApp.json :=
  inr (WebApp.JObject [("url", WebApp.JString "https://[#a")]).

(** An AI analysis with seven recommendations. *)
Definition seven_insights : openai_analysis :=
  OpenaiAnalysis true ["a"; "b"; "c"; "d"; "e"; "f"; "g"] "example.com" [].

End Site.

(** * Properties *)

(** ** urllib.parse *)

Module UrlFacts.
Import Url.

Lemma has_char_app (c : ascii) (a b : string) :
  has_char c (a +:+ b) = has_char c a || has_char c b.
Proof.
  induction a as [|x a IH]; [reflexivity|].
  change (String x a +:+ b) with (String x (a +:+ b)). simpl.
  rewrite IH. now rewrite orb_assoc.
Qed.

Lemma take_until_free (c : ascii) (stop : ascii -> bool) (s : string) :
  stop c = true -> has_char c (take_until stop s) = false.
Proof.
  intros Hstop. induction s as [|x s IH]; [reflexivity|]. simpl.
  destruct (stop x) eqn:Hx; [reflexivity|]. simpl. rewrite IH, orb_false_r.
  destruct (Ascii.eqb_spec x c) as [->|]; congruence.
Qed.

Lemma partition_before_free (c : ascii) (s : string) :
  has_char c (fst (partition c s)) = false.
Proof.
  induction s as [|x s IH]; [reflexivity|]. simpl.
  destruct (Ascii.eqb x c) eqn:Hx; [reflexivity|].
  destruct (partition c s) as [before after]. simpl in *. now rewrite Hx.
Qed.

Lemma partition_free (c d : ascii) (s : string) :
  has_char c s = false ->
  has_char c (fst (partition d s)) = false /\
  has_char c (default "" (snd (partition d s))) = false.
Proof.
  induction s as [|x s IH]; [auto|]. simpl.
  intros [Hx Hs]%orb_false_iff. specialize (IH Hs).
  destruct (Ascii.eqb x d); [auto|].
  destruct (partition d s) as [before after]. simpl in *. now rewrite Hx.
Qed.

Lemma after_last_free (c d : ascii) (s : string) :
  has_char c s = false -> has_char c (after_last d s) = false.
Proof.
  induction s as [|x s IH]; [auto|]. simpl.
  intros [Hx Hs]%orb_false_iff.
  destruct (has_char d s); [auto|].
  destruct (Ascii.eqb x d); [exact Hs|]. simpl. now rewrite Hx.
Qed.

Lemma before_last_free (c d : ascii) (s : string) :
  has_char c s = false -> has_char c (before_last d s) = false.
Proof.
  induction s as [|x s IH]; [auto|]. simpl.
  intros [Hx Hs]%orb_false_iff.
  destruct (has_char d s); [|reflexivity]. simpl. now rewrite Hx, IH.
Qed.

Lemma drop_until_free (c : ascii) (stop : ascii -> bool) (s : string) :
  has_char c s = false -> has_char c (drop_until stop s) = false.
Proof.
  induction s as [|x s IH]; [auto|]. simpl.
  intros [Hx Hs]%orb_false_iff.
  destruct (stop x); [|auto]. simpl. now rewrite Hx.
Qed.

Lemma lower_scheme_free (s : string) :
  all_chars is_scheme_char s = true -> has_char "#" (Py.lower s) = false.
Proof.
  induction s as [|x s IH]; [reflexivity|]. simpl.
  intros [Hx Hs]%andb_true_iff. rewrite (IH Hs), orb_false_r.
  revert Hx. destruct x as [[] [] [] [] [] [] [] []]; vm_compute; congruence.
Qed.

Lemma split_scheme_free (url given : string) :
  has_char "#" given = false ->
  has_char "#" (fst (split_scheme url given)) = false.
Proof.
  intros Hgiven. unfold split_scheme.
  destruct url as [|first url]; [exact Hgiven|].
  destruct (partition ":" (String first url)) as [[|h head] [rest|]]; try exact Hgiven.
  destruct (is_alpha first && all_chars is_scheme_char (String h head)) eqn:Hok;
    [|exact Hgiven].
  apply andb_true_iff in Hok as [_ Hok]. cbn [fst]. now apply lower_scheme_free.
Qed.

Lemma splitparams_free (url : string) :
  has_char "#" url = false ->
  has_char "#" (fst (splitparams url)) = false /\
  has_char "#" (snd (splitparams url)) = false.
Proof.
  intros Hurl. unfold splitparams. destruct (has_char "/" url).
  - pose proof (partition_free "#" ";" (after_last "/" url)
                  (after_last_free "#" "/" url Hurl)) as [Hname Hparams].
    destruct (partition ";" (after_last "/" url)) as [name [params|]]; cbn [fst snd] in *.
    + rewrite !has_char_app, (before_last_free "#" "/" url Hurl), Hname. auto.
    + auto.
  - pose proof (partition_free "#" ";" url Hurl) as [Hname Hparams].
    destruct (partition ";" url) as [name params]. auto.
Qed.

(** The parts of a parsed URL other than the fragment hold no [#]. *)
Lemma urlsplit_free (url given : string) (parts : split_result) :
  has_char "#" given = false ->
  urlsplit url given = inr parts ->
  has_char "#" (us_scheme parts) = false /\ has_char "#" (us_netloc parts) = false /\
  has_char "#" (us_path parts) = false /\ has_char "#" (us_query parts) = false.
Proof.
  intros Hgiven. unfold urlsplit.
  set (clean := remove_chars is_unsafe_url_byte (lstrip_chars is_c0_control_or_space url)).
  pose proof (split_scheme_free clean given Hgiven) as Hscheme.
  destruct (split_scheme clean given) as [scheme rest]. cbn [fst] in Hscheme.
  match goal with
  | |- bind ?m _ = _ -> _ =>
      assert (Hnet : forall netloc url', m = inr (netloc, url') ->
                       has_char "#" netloc = false);
      [|destruct m as [e|[netloc url']] eqn:Hm; [discriminate|]]
  end.
  { intros netloc url'.
    destruct (after_slashes rest) as [tail|]; [|intros [= <- _]; reflexivity].
    destruct (xorb _ _); [discriminate|].
    destruct (_ && _).
    - destruct (check_bracketed_netloc _); [discriminate|]. intros [= <- _].
      now apply take_until_free.
    - intros [= <- _]. now apply take_until_free. }
  specialize (Hnet netloc url' eq_refl). cbn [bind].
  pose proof (partition_before_free "#" url') as Hbefore.
  destruct (partition "#" url') as [before fragment]. cbn [fst] in Hbefore.
  pose proof (partition_free "#" "?" before Hbefore) as [Hpath Hquery].
  destruct (partition "?" before) as [path query]. cbn [fst snd] in *.
  intros [= <-]. cbn [us_scheme us_netloc us_path us_query]. auto.
Qed.

Lemma urlunsplit_free (scheme netloc url query : string) :
  has_char "#" scheme = false -> has_char "#" netloc = false ->
  has_char "#" url = false -> has_char "#" query = false ->
  has_char "#" (urlunsplit scheme netloc url query "") = false.
Proof.
  intros Hs Hn Hu Hq. unfold urlunsplit.
  rewrite (bool_decide_eq_true_2 (EmptyString = EmptyString)) by reflexivity.
  repeat match goal with |- context [if ?c then _ else _] => destruct c end;
    rewrite ?has_char_app, ?Hs, ?Hn, ?Hu, ?Hq; reflexivity.
Qed.

(** [urldefrag] returns a URL without [#] ... *)
Lemma urldefrag_free (url defrag : string) :
  urldefrag url = inr defrag -> has_char "#" defrag = false.
Proof.
  unfold urldefrag. destruct (has_char "#" url) eqn:Hurl; [|now intros [= <-]].
  unfold urlparse. destruct (urlsplit url "") as [e|parts] eqn:Hparts; [discriminate|].
  destruct (urlsplit_free url "" parts eq_refl Hparts) as (Hs & Hn & Hp & Hq).
  cbn [bind]. pose proof (splitparams_free (us_path parts) Hp) as [Hpath Hparams].
  destruct (_ && _); [destruct (splitparams (us_path parts)) as [path params]|];
    cbn [bind ret fst snd] in *; intros [= <-];
    cbn [up_scheme up_netloc up_path up_params up_query]; unfold urlunparse.
  - destruct (bool_decide (params = "")); apply urlunsplit_free;
      rewrite ?has_char_app, ?Hpath, ?Hparams; auto.
  - apply urlunsplit_free; auto.
Qed.

(** ... and returns such a URL as it stands. *)
Lemma urldefrag_fixed (url : string) :
  has_char "#" url = false -> urldefrag url = inr url.
Proof. intros Hurl. unfold urldefrag. now rewrite Hurl. Qed.

Lemma urldefrag_idempotent (url defrag : string) :
  urldefrag url = inr defrag -> urldefrag defrag = inr defrag.
Proof. intros Hurl. apply urldefrag_fixed. exact (urldefrag_free _ _ Hurl). Qed.

End UrlFacts.

(** ** The crawler *)

Module CrawlerFacts.
Import Crawler.

Section CrawlFacts.

Context {W : Web}.
Variable max_depth : Z.

(** *** The loop rule *)

Lemma crawl_loop_eq st :
  crawl_loop max_depth st =
  match crawl_step max_depth st with
  | Some st' => crawl_loop max_depth st'
  | None => st
  end.
Proof.
  funelim (crawl_loop max_depth st).
  - rewrite Hstep. reflexivity.
  - rewrite e. reflexivity.
Qed.

Lemma crawl_loop_stops st : crawl_step max_depth (crawl_loop max_depth st) = None.
Proof.
  funelim (crawl_loop max_depth st); auto.
Qed.

(** A property kept by every turn of the loop holds when it ends. *)
Lemma crawl_loop_invariant (P : crawl_state -> Prop) :
  (forall st st', P st -> crawl_step max_depth st = Some st' -> P st') ->
  forall st, P st -> P (crawl_loop max_depth st).
Proof.
  intros Hkeep st. funelim (crawl_loop max_depth st); [|tauto].
  intros HP. apply H; [exact Hkeep|]. eapply Hkeep; eassumption.
Qed.

Lemma crawl_run_loop fuel st st' :
  crawl_run max_depth fuel st = Some st' -> crawl_loop max_depth st = st'.
Proof.
  revert st. induction fuel as [|fuel IH]; intros st; simpl;
    rewrite (crawl_loop_eq st); destruct (crawl_step max_depth st) as [st1|];
    try discriminate; try (intros [= <-]; reflexivity).
  apply IH.
Qed.

Lemma crawl_run_final fuel start_url st' :
  crawl_run max_depth fuel (crawl_init start_url) = Some st' ->
  crawl_final max_depth start_url = st'.
Proof. apply crawl_run_loop. Qed.

Lemma reachable_final s0 : reachable max_depth s0 (crawl_loop max_depth s0).
Proof.
  apply (crawl_loop_invariant (reachable max_depth s0)).
  - intros st st' Hr Hs. eapply reach_turn; eassumption.
  - apply reach_start.
Qed.

Lemma reachable_invariant (P : crawl_state -> Prop) s0 :
  P s0 ->
  (forall st st', P st -> crawl_step max_depth st = Some st' -> P st') ->
  forall st, reachable max_depth s0 st -> P st.
Proof.
  intros H0 Hkeep st Hr. induction Hr; eauto.
Qed.

(** Case analysis of one turn. *)
Lemma crawl_step_cases st st' :
  crawl_step max_depth st = Some st' ->
  raised st = None /\
  (length (pages_data st) < MAX_PAGES)%nat /\
  exists url depth rest,
    to_visit st = (url, depth) :: rest /\
    ((** [urldefrag] raised *)
     (exists e, Url.urldefrag url = inl e /\
        st' = CrawlState (visited st) rest (pages_data st) (fetched st) (Some e))
     \/
     exists normalized_url,
       Url.urldefrag url = inr normalized_url /\
       ((** skipped *)
        ((normalized_url ∈ visited st \/ max_depth < depth) /\
         st' = CrawlState (visited st) rest (pages_data st) (fetched st) None)
        \/
        (** fetch raised *)
        ((normalized_url ∉ visited st) /\ depth <= max_depth /\
         (exists e, fetch normalized_url = inl e) /\
         st' = CrawlState ({[normalized_url]} ∪ visited st) rest (pages_data st)
                 (fetched st ++ [normalized_url]) None)
        \/
        (** page collected *)
        ((normalized_url ∉ visited st) /\ depth <= max_depth /\
         exists r, fetch normalized_url = inr r /\
         st' = CrawlState ({[normalized_url]} ∪ visited st)
                 (discover max_depth normalized_url (resp_text r) depth
                    ({[normalized_url]} ∪ visited st) rest)
                 (pages_data st ++
                    [PageData normalized_url (Some (resp_text r))
                       (Some (resp_status_code r)) depth])
                 (fetched st ++ [normalized_url]) None))).
Proof.
  unfold crawl_step. destruct (raised st); [discriminate|].
  case_bool_decide as Hlen; [|discriminate].
  destruct (to_visit st) as [|[url depth] rest]; [discriminate|].
  intros H. split; [reflexivity|]. split; [exact Hlen|].
  exists url, depth, rest. split; [reflexivity|].
  destruct (Url.urldefrag url) as [e|normalized_url].
  { left. injection H as <-. eauto. }
  right. exists normalized_url. split; [reflexivity|].
  destruct (bool_decide (normalized_url ∈ visited st)) eqn:Hv;
    [apply bool_decide_eq_true in Hv | apply bool_decide_eq_false in Hv]; simpl in H.
  - left. injection H as <-. auto.
  - destruct (max_depth <? depth) eqn:Hd;
      [apply Z.ltb_lt in Hd | apply Z.ltb_ge in Hd].
    + left. injection H as <-. auto.
    + right. destruct (fetch normalized_url) as [e|r] eqn:Hf; injection H as <-.
      * left. eauto 6.
      * right. eauto 6.
Qed.

(** *** What the link loop adds *)

Lemma enqueue_links_spec normalized_url base depth seen hrefs queue :
  exists new,
    enqueue_links normalized_url base depth seen hrefs queue = queue ++ new /\
    Forall (fun entry =>
              snd entry = depth + 1 /\ Url.netloc (fst entry) = inr base /\
              exists href full_url,
                href ∈ hrefs /\ Url.urljoin normalized_url href = inr full_url /\
                Url.urldefrag full_url = inr (fst entry)) new.
Proof.
  revert queue. induction hrefs as [|href rest IH]; intros queue; simpl.
  { exists []. now rewrite app_nil_r. }
  assert (Hrest : forall queue', exists new,
             enqueue_links normalized_url base depth seen rest queue' = queue' ++ new /\
             Forall (fun entry =>
                       snd entry = depth + 1 /\ Url.netloc (fst entry) = inr base /\
                       exists href' full_url,
                         href' ∈ href :: rest /\
                         Url.urljoin normalized_url href' = inr full_url /\
                         Url.urldefrag full_url = inr (fst entry)) new).
  { intros queue'. destruct (IH queue') as (new & Heq & Hnew). exists new.
    split; [exact Heq|]. eapply Forall_impl; [exact Hnew|]. simpl.
    intros entry (Hd & Hn & href' & full_url & Hin & Hjoin & Hdefrag).
    split_and!; auto. exists href', full_url. split_and!; auto. now right. }
  unfold normalize_link.
  destruct (Url.urljoin normalized_url href) as [e|full_url] eqn:Hjoin; cbn [bind].
  { exists []. now rewrite app_nil_r. }
  destruct (Url.urldefrag full_url) as [e|normalized_full_url] eqn:Hdefrag; cbn [bind].
  { exists []. now rewrite app_nil_r. }
  destruct (Url.netloc normalized_full_url) as [e|domain] eqn:Hdomain; cbn [bind ret].
  { exists []. now rewrite app_nil_r. }
  destruct (bool_decide (domain = base)) eqn:Hsame; cbn [andb]; [|apply Hrest].
  apply bool_decide_eq_true in Hsame. subst domain.
  destruct (negb _); [|apply Hrest].
  destruct (Hrest (queue ++ [(normalized_full_url, depth + 1)])) as (new & -> & Hnew).
  exists ((normalized_full_url, depth + 1) :: new). rewrite <- app_assoc.
  split; [reflexivity|]. constructor; [|exact Hnew]. cbn [fst snd].
  split_and!; auto. exists href, full_url. split_and!; auto. now left.
Qed.

Lemma discover_spec normalized_url text depth seen queue :
  exists new,
    discover max_depth normalized_url text depth seen queue = queue ++ new /\
    Forall (link_entry normalized_url text depth) new.
Proof.
  unfold discover. destruct (depth <? max_depth).
  2: { exists []. now rewrite app_nil_r. }
  destruct (anchor_hrefs text) as [e|hrefs] eqn:Hhrefs.
  { exists []. now rewrite app_nil_r. }
  destruct (Url.netloc normalized_url) as [e|base] eqn:Hbase.
  { exists []. now rewrite app_nil_r. }
  destruct (enqueue_links_spec normalized_url base depth seen hrefs queue)
    as (new & Heq & Hnew).
  exists new. split; [exact Heq|]. eapply Forall_impl; [exact Hnew|]. simpl.
  intros entry (Hd & Hn & href & full_url & Hin & Hjoin & Hdefrag).
  unfold link_entry. split_and!; [exact Hd|congruence|].
  exists hrefs, href, full_url. auto.
Qed.

(** A queue entry of a link holds no fragment: popping it hands it to
    the request as it stands. *)
Lemma link_entry_fixed normalized_url text depth entry :
  link_entry normalized_url text depth entry ->
  Url.urldefrag (fst entry) = inr (fst entry).
Proof.
  intros (_ & _ & hrefs & href & full_url & _ & _ & _ & Hdefrag).
  exact (UrlFacts.urldefrag_idempotent _ _ Hdefrag).
Qed.

(** *** Page cap *)

Lemma crawl_step_pages_length st st' :
  crawl_step max_depth st = Some st' ->
  (length (pages_data st') <= MAX_PAGES)%nat.
Proof.
  intros H.
  apply crawl_step_cases in H
    as (_ & Hlen & url & depth & rest & _
        & [(e & _ & ->)
          |(normalized_url & _
            & [[_ ->]|[(_ & _ & _ & ->)|(_ & _ & r & _ & ->)]])]);
    simpl; rewrite ?length_app; simpl; lia.
Qed.

Lemma crawl_step_full st :
  (MAX_PAGES <= length (pages_data st))%nat -> crawl_step max_depth st = None.
Proof.
  intros H. unfold crawl_step. destruct (raised st); [reflexivity|].
  case_bool_decide; [lia|reflexivity].
Qed.

(** *** Same-host queue *)



(** *** One request per normalized URL *)

Lemma discovered_grows st p w :
  discovered st w ->
  forall st', pages_data st' = pages_data st ++ [p] -> discovered st' w.
Proof.
  intros (q & text & hrefs & href & full_url & Hin & Hrest) st' Hpages.
  exists q, text, hrefs, href, full_url. split; [|exact Hrest].
  rewrite Hpages. apply elem_of_app. now left.
Qed.

Lemma crawl_step_fetched_once start_url st st' :
  fetched_once start_url st -> crawl_step max_depth st = Some st' ->
  fetched_once start_url st'.
Proof.
  intros (Hnd & Hsub & Hq & Hfrom) H.
  apply crawl_step_cases in H
    as (_ & _ & url & depth & rest & Hqueue & Hc).
  assert (Hrest : forall u d, (u, d) ∈ rest ->
            u = normalize_start start_url
            \/ (discovered st u /\ Url.urldefrag u = inr u)).
  { intros u d Hin. apply (Hq u d). rewrite Hqueue. now right. }
  destruct Hc as [(e & _ & ->)|(normalized_url & Hdefrag & Hc)].
  { split_and!; simpl; auto. }
  assert (Hthis : Url.urldefrag (normalize_start start_url) = inr normalized_url
                  \/ discovered st normalized_url).
  { destruct (Hq url depth) as [->|[Hdisc Hfixed]].
    - rewrite Hqueue. left.
    - now left.
    - right. congruence. }
  assert (Hnd' : NoDup (fetched st ++ [normalized_url]) \/ normalized_url ∈ visited st).
  { destruct (decide (normalized_url ∈ visited st)) as [|Hnew]; [now right|left].
    apply NoDup_app. repeat split; [exact Hnd| |apply NoDup_singleton].
    intros u Hu ->%list_elem_of_singleton. apply Hnew, Hsub, Hu. }
  assert (Hsub' : forall u, u ∈ fetched st ++ [normalized_url] <->
                            u ∈ ({[normalized_url]} ∪ visited st : gset string)).
  { intros u. rewrite elem_of_app, list_elem_of_singleton, elem_of_union,
      elem_of_singleton, Hsub. tauto. }
  destruct Hc as [[_ ->]|[(Hnew & _ & _ & ->)|(Hnew & _ & r & Hfetch & ->)]].
  - split_and!; simpl; auto.
  - split_and!; simpl; auto; [destruct Hnd'; tauto|].
    intros u [Hin|Hin]%elem_of_app; [auto|].
    apply list_elem_of_singleton in Hin. now subst.
  - set (page := PageData normalized_url (Some (resp_text r))
                   (Some (resp_status_code r)) depth).
    match goal with
    | |- fetched_once _ ?s => set (st' := s)
    end.
    assert (Hgrow : forall w, discovered st w -> discovered st' w).
    { intros w Hw. exact (discovered_grows st page w Hw st' eq_refl). }
    split_and!; simpl; auto; [destruct Hnd'; tauto| |].
    + intros u d Hin.
      destruct (discover_spec normalized_url (resp_text r) depth
                  ({[normalized_url]} ∪ visited st) rest) as (new & Heq & Hlinks).
      rewrite Heq in Hin. apply elem_of_app in Hin as [Hin|Hin].
      * destruct (Hrest u d Hin) as [->|[Hdisc Hfixed]]; [now left|right; auto].
      * rewrite Forall_forall in Hlinks. specialize (Hlinks _ Hin). right. split.
        -- destruct Hlinks as (_ & _ & hrefs & href & full_url & Hh & Hin' & Hj & Hd).
           exists page, (resp_text r), hrefs, href, full_url.
           split_and!; auto. simpl. apply elem_of_app. right. left.
        -- exact (link_entry_fixed _ _ _ _ Hlinks).
    + intros u [Hin|Hin]%elem_of_app.
      * destruct (Hfrom u Hin); auto.
      * apply list_elem_of_singleton in Hin. subst u. destruct Hthis; auto.
Qed.

Lemma crawl_init_fetched_once start_url : fetched_once start_url (crawl_init start_url).
Proof.
  split_and!; simpl.
  - apply NoDup_nil_2.
  - intros u. rewrite elem_of_nil, elem_of_empty. tauto.
  - intros u d Hin. apply list_elem_of_singleton in Hin. injection Hin as -> _. now left.
  - intros u Hin. inversion Hin.
Qed.

(** *** Collected pages come from successful fetches *)

Lemma crawl_step_pages_fetched st st' :
  pages_fetched st -> crawl_step max_depth st = Some st' -> pages_fetched st'.
Proof.
  intros Hp H.
  apply crawl_step_cases in H
    as (_ & _ & url & depth & rest & _
        & [(e & _ & ->)
          |(normalized_url & _
            & [[_ ->]|[(_ & _ & _ & ->)|(_ & _ & r & Hr & ->)]])]); auto.
  intros p [Hin|Hin]%elem_of_app; [auto|].
  apply list_elem_of_singleton in Hin. subst p; simpl. eauto.
Qed.

(** *** What a crawl guarantees *)

Lemma crawl_reachable_invariant (P : crawl_state -> Prop) start_url :
  P (crawl_init start_url) ->
  (forall st st', P st -> crawl_step max_depth st = Some st' -> P st') ->
  P (crawl_final max_depth start_url).
Proof.
  intros H0 Hkeep. apply (reachable_invariant P (crawl_init start_url) H0 Hkeep).
  apply reachable_final.
Qed.

(** The list that the call returns is the list collected. *)
Lemma crawl_site_returned start_url pages :
  crawl_site max_depth start_url = inr pages ->
  pages = pages_data (crawl_final max_depth start_url).
Proof.
  unfold crawl_site, crawl_outcome.
  destruct (raised _); [discriminate|]. now intros [= <-].
Qed.



End CrawlFacts.

(** C4.  Whatever the seed, the depth and the answers of the network,
    a list that [crawl_site] returns has at most 50 page records, and
    the loop takes no further turn in a state that already holds 50:
    every state either holds fewer than 50 pages or ends the loop. *)
Theorem crawl_site_page_cap `{W : Web} (max_depth : Z) (start_url : string)
    (pages : list page_data) :
  crawl_site max_depth start_url = inr pages ->
  (length pages <= 50)%nat /\
  (forall st, (length (pages_data st) < 50)%nat \/ crawl_step max_depth st = None).
Proof.
  intros Hpages. split.
  - rewrite (crawl_site_returned max_depth start_url pages Hpages).
    apply (crawl_reachable_invariant max_depth
             (fun st => (length (pages_data st) <= 50)%nat)).
    + simpl. lia.
    + intros st st' _ Hs. apply (crawl_step_pages_length _ _ _ Hs).
  - intros st. destruct (decide (length (pages_data st) < 50)%nat) as [|Hfull]; [now left|].
    right. apply crawl_step_full. unfold MAX_PAGES. lia.
Qed.



(** Every record that [crawl_site] returns comes from a request that was
    answered with a status below 400 or above 599 and carries the body of
    that answer: a URL whose request failed has no record. *)
Theorem crawl_site_pages_fetched `{W : Web} (max_depth : Z) (start_url : string)
    (pages : list page_data) :
  crawl_site max_depth start_url = inr pages ->
  Forall (fun p => exists r, fetch (pd_url p) = inr r /\
                             pd_html p = Some (resp_text r) /\
                             pd_status_code p = Some (resp_status_code r))
         pages.
Proof.
  intros Hpages. rewrite (crawl_site_returned max_depth start_url pages Hpages).
  apply Forall_forall.
  apply (crawl_reachable_invariant max_depth pages_fetched).
  - intros p Hin. inversion Hin.
  - apply crawl_step_pages_fetched.
Qed.

End CrawlerFacts.

(** ** The robots check *)

Module ChecksFacts.
Import Crawler Checks RobotsSpec.

Lemma after_first_of_prefix (sep : ascii) (p line : string) :
  String.prefix p line = true ->
  (exists v, Py.after_first sep p = inr v) ->
  exists v, Py.after_first sep line = inr v.
Proof.
  revert line. induction p as [|a p IH]; intros line Hp [v Hv]; [discriminate|].
  destruct line as [|b line]; [discriminate|]. simpl in Hp.
  destruct (ascii_dec a b) as [<-|]; [|discriminate].
  simpl in *. destruct (Ascii.eqb a sep); eauto.
Qed.

Lemma user_agent_has_value (line : string) :
  is_user_agent line -> exists v, Py.after_first ":" line = inr v.
Proof.
  intros Hl. apply (after_first_of_prefix _ "user-agent:" _ Hl). now exists "".
Qed.

Lemma disallow_has_value (line : string) :
  is_disallow line -> exists v, Py.after_first ":" line = inr v.
Proof.
  intros Hl. apply (after_first_of_prefix _ "disallow:" _ Hl). now exists "".
Qed.

Lemma disallow_not_user_agent (line : string) :
  is_disallow line -> ~ is_user_agent line.
Proof.
  unfold is_disallow, is_user_agent, Py.startswith.
  destruct line as [|c line]; [discriminate|]. cbn [String.prefix].
  destruct (ascii_dec "d" c) as [<-|]; [|discriminate].
  destruct (ascii_dec "u" "d"); discriminate.
Qed.

(** Lower-casing neither makes nor removes a line feed. *)
Lemma lower_char_line_feed (c : ascii) :
  Ascii.eqb (Py.lower_char c) "010" = Ascii.eqb c "010".
Proof. destruct c as [[] [] [] [] [] [] [] []]; reflexivity. Qed.

Lemma split_lower (s : string) :
  Py.split "010" (Py.lower s) = Py.lower <$> Py.split "010" s.
Proof.
  induction s as [|c s IH]; [reflexivity|].
  cbn [Py.lower Py.split]. rewrite lower_char_line_feed.
  destruct (Ascii.eqb c "010").
  - now rewrite IH.
  - rewrite IH. now destruct (Py.split "010" s).
Qed.

(** The lines the code keeps are the directives of the body. *)
Lemma robots_lines_directives (text : string) :
  robots_lines text = directive_lines text.
Proof.
  unfold robots_lines, directive_lines.
  now rewrite split_lower, <- list_fmap_compose.
Qed.

(** The value of a directive line. *)
Definition value_of (line : string) : string :=
  match Py.after_first ":" line with
  | inr raw => Py.strip raw
  | inl _ => ""
  end.

Lemma field_is_value (line value : string) :
  (exists v, Py.after_first ":" line = inr v) ->
  field_is line value <-> value_of line = value.
Proof.
  intros [v Hv]. unfold field_is, value_of. rewrite Hv. split.
  - intros (raw & [= <-] & Hraw). exact Hraw.
  - intros Hval. eauto.
Qed.

(** What the loop of checks.py:36-45 gathers. *)
Fixpoint collect (lines : list string) (in_wildcard_section : bool) : list string :=
  match lines with
  | [] => []
  | line :: rest =>
      if Py.startswith line "user-agent:" then
        collect rest (bool_decide (value_of line = "*"))
      else if in_wildcard_section && Py.startswith line "disallow:" then
        value_of line :: collect rest in_wildcard_section
      else collect rest in_wildcard_section
  end.

Section Robots.

Context {H : Html} {D : Type}.

(** The loop never raises, and its [break] is never taken. *)
Lemma scan_groups_collect (lines : list string) (b : bool) (acc : list string) :
  scan_groups lines b acc = inr (acc ++ collect lines b).
Proof.
  revert b acc. induction lines as [|line rest IH]; intros b acc; simpl.
  - now rewrite app_nil_r.
  - destruct (Py.startswith line "user-agent:") eqn:Hua.
    + destruct (user_agent_has_value line Hua) as [v Hv].
      unfold value_of. rewrite Hv. simpl. apply IH.
    + destruct (b && Py.startswith line "disallow:") eqn:Hdis.
      * apply andb_true_iff in Hdis as [-> Hdis].
        destruct (disallow_has_value line Hdis) as [v Hv].
        unfold value_of. rewrite Hv. simpl. rewrite IH.
        now rewrite <- app_assoc.
      * simpl. apply IH.
Qed.

Lemma group_disallows_all_nil : ~ group_disallows_all [].
Proof. intros (group & dis & rest & Heq & _). now destruct group. Qed.

Lemma group_disallows_all_cons (line : string) (lines : list string) :
  group_disallows_all (line :: lines) <->
  (is_disallow line /\ field_is line "/")
  \/ (~ is_user_agent line /\ group_disallows_all lines).
Proof.
  split.
  - intros (group & dis & rest & Heq & Hgroup & Hdis & Hval).
    destruct group as [|g group]; simpl in Heq; injection Heq as -> ->.
    + now left.
    + right. apply Forall_cons in Hgroup as [Hg Hgroup].
      split; [exact Hg|]. now exists group, dis, rest.
  - intros [[Hdis Hval]|[Hua (group & dis & rest & -> & Hgroup & Hdis & Hval)]].
    + now exists [], line, lines.
    + exists (line :: group), dis, rest. split_and!; auto.
Qed.

Lemma wildcard_group_nil : ~ wildcard_group_disallows_all [].
Proof. intros (before & ua & group & Heq & _). now destruct before. Qed.

Lemma wildcard_group_cons (line : string) (lines : list string) :
  wildcard_group_disallows_all (line :: lines) <->
  (is_user_agent line /\ field_is line "*" /\ group_disallows_all lines)
  \/ wildcard_group_disallows_all lines.
Proof.
  split.
  - intros (before & ua & group & Heq & Hua & Hval & Hgroup).
    destruct before as [|b before]; simpl in Heq; injection Heq as -> ->.
    + now left.
    + right. now exists before, ua, group.
  - intros [(Hua & Hval & Hgroup)|(before & ua & group & -> & Hua & Hval & Hgroup)].
    + now exists [], line, lines.
    + now exists (line :: before), ua, group.
Qed.

(** The gathered values hold [/] exactly when the loop was inside a
    wildcard group that reaches [disallow: /], or meets such a group
    later. *)
Lemma collect_spec (lines : list string) (b : bool) :
  "/" ∈ collect lines b <->
  (b = true /\ group_disallows_all lines) \/ wildcard_group_disallows_all lines.
Proof.
  revert b. induction lines as [|line rest IH]; intros b; simpl.
  - rewrite elem_of_nil. pose proof group_disallows_all_nil.
    pose proof wildcard_group_nil. tauto.
  - rewrite group_disallows_all_cons, wildcard_group_cons.
    destruct (Py.startswith line "user-agent:") eqn:Hua.
    + rewrite IH.
      rewrite (field_is_value line "*" (user_agent_has_value line Hua)).
      rewrite bool_decide_eq_true.
      assert (~ is_disallow line)
        by (intros Hd; now apply (disallow_not_user_agent line Hd)).
      unfold is_user_agent. tauto.
    + assert (Hnot : ~ is_user_agent line) by (unfold is_user_agent; congruence).
      destruct b; simpl.
      * destruct (Py.startswith line "disallow:") eqn:Hdis.
        -- rewrite elem_of_cons, IH.
           rewrite (field_is_value line "/" (disallow_has_value line Hdis)).
           unfold is_disallow. intuition congruence.
        -- rewrite IH. unfold is_disallow. intuition congruence.
      * rewrite IH. intuition congruence.
Qed.

Lemma no_allow_line_filter (lines : list string) :
  filter (fun line => Py.startswith line "allow:" = true) lines = [] <->
  no_allow_line lines.
Proof.
  unfold no_allow_line, is_allow. induction lines as [|line rest IH].
  - split; [constructor|reflexivity].
  - rewrite filter_cons, Forall_cons. destruct (decide _) as [Hl|Hl].
    + split; [discriminate|tauto].
    + rewrite IH. tauto.
Qed.

(** The verdict on the body of a robots.txt answered with 200. *)
Lemma robots_verdict_spec (text : string) :
  exists r : check_result D,
    robots_verdict text = inr r /\
    (passed r = false <->
     wildcard_group_disallows_all (directive_lines text)
     /\ no_allow_line (directive_lines text)).
Proof.
  rewrite <- robots_lines_directives.
  unfold robots_verdict. rewrite scan_groups_collect. simpl.
  pose proof (collect_spec (robots_lines text) false) as Hspec.
  pose proof (no_allow_line_filter (robots_lines text)) as Hallow.
  set (disallows := collect (robots_lines text) false) in *.
  destruct (decide ("/" ∈ disallows)) as [Hin|Hout].
  - rewrite (bool_decide_eq_true_2 _ Hin).
    assert (Hlen : (0 < length (filter (fun d => d = "/") disallows))%nat).
    { assert (Hf : "/" ∈ filter (fun d => d = "/") disallows)
        by (apply list_elem_of_filter; auto).
      destruct (filter _ disallows); [inversion Hf|simpl; lia]. }
    rewrite (bool_decide_eq_true_2 _ Hlen). simpl.
    destruct (filter _ (robots_lines text)) as [|l ls] eqn:Hf.
    + eexists; split; [reflexivity|]. simpl.
      split; [intros _|reflexivity]. split; [|now apply Hallow].
      apply Hspec in Hin as [[Hb _]|Hw]; [discriminate|exact Hw].
    + eexists; split; [reflexivity|]. simpl.
      split; [discriminate|]. intros [_ Hno]. apply Hallow in Hno. discriminate.
  - rewrite (bool_decide_eq_false_2 _ Hout). simpl.
    eexists; split; [reflexivity|]. simpl.
    split; [discriminate|]. intros [Hw _]. exfalso. apply Hout, Hspec. now right.
Qed.

(** The check returns on every page whose origin can be computed. *)
Lemma robots_check_returns (page : page_data) (base : string) :
  base_url_of (pd_url page) = inr base ->
  exists r : check_result D, check_robots_txt_allows_crawling page = inr r.
Proof.
  intros Hbase. unfold check_robots_txt_allows_crawling. rewrite Hbase. cbn [bind].
  destruct (robots_try base); eexists; reflexivity.
Qed.

End Robots.

(** C7, amended.  For a page whose origin can be computed, the check
    returns a verdict; it passes when the request for robots.txt raises
    and when the answer has a status other than 200 (404 included); it
    fails exactly when the answer has status 200 and, among the
    directives of the body (its lines lower-cased and stripped, blank
    and comment lines left out), a [user-agent: *] line is followed,
    with no other [user-agent:] line in between, by a line
    [disallow: /], and no directive starts with [allow:]; and it fails
    on the two-line file [User-agent: *] / [Disallow: /]. *)
Theorem robots_check_verdict `{H : Html} {D : Type} (page : page_data) (base : string) :
  base_url_of (pd_url page) = inr base ->
  exists r : check_result D,
    check_robots_txt_allows_crawling page = inr r /\
    (forall e, robots_get base = inl e -> passed r = true) /\
    (forall resp, robots_get base = inr resp ->
                  resp_status_code resp <> 200 -> passed r = true) /\
    (passed r = false <->
     exists resp, robots_get base = inr resp /\ resp_status_code resp = 200 /\
                  wildcard_group_disallows_all (directive_lines (resp_text resp)) /\
                  no_allow_line (directive_lines (resp_text resp))) /\
    (forall resp, robots_get base = inr resp -> resp_status_code resp = 200 ->
                  resp_text resp = "User-agent: *" +:+ String "010" "Disallow: /" ->
                  passed r = false).
Proof.
  intros Hbase. unfold check_robots_txt_allows_crawling. rewrite Hbase. simpl.
  unfold robots_try. destruct (robots_get base) as [e|resp] eqn:Hget; simpl.
  - eexists; split; [reflexivity|]. simpl. split_and!; try discriminate; auto.
    split; [discriminate|]. intros (resp & Hresp & _). discriminate.
  - destruct (resp_status_code resp =? 404) eqn:H404.
    { apply Z.eqb_eq in H404.
      eexists; split; [reflexivity|]. simpl. split_and!; try discriminate; auto.
      - split; [discriminate|]. intros (resp' & [= <-] & H200 & _). lia.
      - intros resp' [= <-] H200. lia. }
    destruct (resp_status_code resp =? 200) eqn:H200; simpl.
    + apply Z.eqb_eq in H200.
      destruct (robots_verdict_spec (D := D) (resp_text resp)) as (r & Hr & Hiff).
      rewrite Hr. exists r. split; [reflexivity|]. split_and!.
      * discriminate.
      * intros resp' [= <-] Hne. contradiction.
      * rewrite Hiff. split.
        -- intros [Hw Hno]. now exists resp.
        -- intros (resp' & [= <-] & _ & Hw & Hno). now split.
      * intros resp' [= <-] _ Htext. rewrite Htext in Hr.
        vm_compute in Hr. now injection Hr as <-.
    + apply Z.eqb_neq in H200.
      eexists; split; [reflexivity|]. simpl. split_and!; try discriminate; auto.
      * split; [discriminate|]. intros (resp' & [= <-] & Heq & _). contradiction.
      * intros resp' [= <-] Heq. contradiction.
Qed.

End ChecksFacts.

(** ** The scorer *)

Module ScoringFacts.
Import Crawler Checks ContentAnalysis Scoring.

Lemma add_points_spec (checks : list (string * check)) (score : Z) :
  add_points checks score = score + 25 * passed_llm checks + 15 * passed_other checks.
Proof.
  unfold passed_llm, passed_other.
  revert score. induction checks as [|[name c] rest IH]; intros score.
  { rewrite !filter_nil. simpl. lia. }
  rewrite !filter_cons. cbn [add_points fst snd].
  destruct (passed c); destruct (Py.startswith name "llm_"); rewrite IH;
    repeat (destruct (decide _) as [[? ?]|?]; try discriminate; try tauto);
    simpl length; lia.
Qed.

Lemma passed_counts_nonneg (checks : list (string * check)) :
  0 <= passed_llm checks /\ 0 <= passed_other checks.
Proof. unfold passed_llm, passed_other. lia. Qed.

Section Page.

Context {H : Html} {T : Text} {L : Llm}.

(** What a returned page result is made of. *)
Lemma score_page_inv (page : page_data) (r : page_result) :
  score_page page = inr r ->
  exists first third robots meta_robots h1 meta_description alt_text second_message,
    pr_checks r =
      [ ("llm_content_analysis", first);
        ("llm_accessibility_analysis", CheckResult true second_message
           (Some (DataBlob (analyze_llm_accessibility (pd_html page) (pd_url page)))));
        ("llm_content_richness", third);
        ("robots_txt_allows_crawling", robots);
        ("meta_robots_allows_indexing", meta_robots);
        ("has_h1_tag", h1);
        ("has_meta_description", meta_description);
        ("images_have_alt_text", alt_text) ] /\
    pr_score r = Z.min 100 (add_points (pr_checks r) 0).
Proof.
  unfold score_page.
  destruct (check_robots_txt_allows_crawling page) as [e|robots]; [discriminate|].
  destruct (check_meta_robots_allows_indexing page) as [e|meta_robots]; [discriminate|].
  destruct (check_has_h1_tag page) as [e|h1]; [discriminate|].
  destruct (check_has_meta_description page) as [e|meta_description]; [discriminate|].
  destruct (check_images_have_alt_text page) as [e|alt_text]; [discriminate|].
  cbn [bind].
  destruct (analyze_content_readability page) as [e|readability]; [discriminate|].
  destruct (analyze_structured_data page) as [e|richness]; [discriminate|].
  cbn [bind ret]. intros [= <-]. cbn [pr_checks pr_score].
  do 8 eexists. split; reflexivity.
Qed.

(** The markup checks and the content analysis return on a page whose
    markup the parser accepts. *)
Lemma markup_checks_return (page : page_data) (html : string) (doc : soup) :
  pd_html page = Some html ->
  html_parser html = inr doc ->
  (exists r : check, check_meta_robots_allows_indexing page = inr r) /\
  (exists r : check, check_has_h1_tag page = inr r) /\
  (exists r : check, check_has_meta_description page = inr r) /\
  (exists r : check, check_images_have_alt_text page = inr r) /\
  (exists score, analyze_content_readability page = inr score) /\
  (exists summary, analyze_structured_data page = inr summary).
Proof.
  intros Hhtml Hdoc.
  unfold check_meta_robots_allows_indexing, check_has_h1_tag,
    check_has_meta_description, check_images_have_alt_text,
    analyze_content_readability, analyze_structured_data, BeautifulSoup.
  rewrite Hhtml, Hdoc. cbn [bind]. split_and!.
  - destruct (find_meta "robots" doc); [destruct (Py.contains _ _)|];
      eexists; reflexivity.
  - destruct (find_all "h1" doc) as [|h1 more];
      [destruct (h2_candidate _)
      |destruct (bool_decide (1 < length (h1 :: more))%nat);
       [|destruct (bool_decide (get_text_strip h1 = ""))]];
      eexists; reflexivity.
  - destruct (find_meta "description" doc);
      [destruct (bool_decide (_ = ""));
       [|destruct (Py.len _ <? 120); [|destruct (160 <? Py.len _)]]|];
      eexists; reflexivity.
  - destruct (find_all "img" doc) as [|img imgs];
      [|destruct (alt_issues (img :: imgs)) as [missing_alt empty_alt];
        destruct (bool_decide (_ = 0%nat)); [|destruct (bool_decide (_ = length _))]];
      eexists; reflexivity.
  - destruct (Py.len (clean_text doc) <? 100);
      [|destruct (flesch_reading_ease _) as [e|flesch];
        [|repeat match goal with |- context [if ?c then _ else _] => destruct c end]];
      eexists; reflexivity.
  - eexists; reflexivity.
Qed.

Lemma score_page_returns (page : page_data) (html base : string) (doc : soup) :
  pd_html page = Some html ->
  html_parser html = inr doc ->
  base_url_of (pd_url page) = inr base ->
  exists r, score_page page = inr r.
Proof.
  intros Hhtml Hdoc Hbase.
  destruct (ChecksFacts.robots_check_returns (D := check_data) page base Hbase)
    as [robots Hrobots].
  destruct (markup_checks_return page html doc Hhtml Hdoc)
    as ([meta_robots Hmeta] & [h1 Hh1] & [description Hdesc] & [alt_text Halt]
        & [readability Hread] & [richness Hrich]).
  unfold score_page.
  rewrite Hrobots, Hmeta, Hh1, Hdesc, Halt, Hread, Hrich. cbn [bind ret].
  eexists; reflexivity.
Qed.

End Page.

(** [int(b)] for a [bool] *)
Definition points (weight : Z) (c : check) : Z :=
  if passed c then weight else 0.

(** C3.  On a page whose markup the parser accepts and whose URL has
    an origin, [score_page] returns; the five check functions return on
    the page, and the result lists eight checks: the readable-content
    check of the page, the accessibility check (always passed), the
    richness check (passed from 50 on), and the five verdicts, under
    their names and in this order.  The score is 25 for each of the
    three checks named [llm_...] that passed plus 15 for each of the
    five others that passed, capped at 100, and lies between 0 and
    100. *)
Theorem score_page_score `{H : Html} `{T : Text} `{L : Llm}
    (page : page_data) (html base : string) (doc : soup) :
  pd_html page = Some html ->
  html_parser html = inr doc ->
  base_url_of (pd_url page) = inr base ->
  exists r robots meta_robots h1 meta_description alt_text,
    score_page page = inr r /\
    check_robots_txt_allows_crawling page = inr robots /\
    check_meta_robots_allows_indexing page = inr meta_robots /\
    check_has_h1_tag page = inr h1 /\
    check_has_meta_description page = inr meta_description /\
    check_images_have_alt_text page = inr alt_text /\
    let llm_content := scrape_as_llm (pd_html page) (pd_url page) in
    let readable := extract_llm_readable_content (pd_html page) (pd_url page) in
    let accessible :=
      CheckResult true
        ("LLM can access " +:+ Py.str (count_of (lc_headings llm_content))
         +:+ " headings, "
         +:+ Py.str (Py.count_words false (lc_main_content llm_content))
         +:+ " words of content")
        (Some (DataBlob (analyze_llm_accessibility (pd_html page) (pd_url page)))) in
    let rich :=
      CheckResult (50 <=? lc_richness_score llm_content)
        ("Content richness score: " +:+ Py.str (lc_richness_score llm_content)
         +:+ "/100")
        (Some (DataContent llm_content)) in
    pr_checks r =
      [ ("llm_content_analysis", readable);
        ("llm_accessibility_analysis", accessible);
        ("llm_content_richness", rich);
        ("robots_txt_allows_crawling", robots);
        ("meta_robots_allows_indexing", meta_robots);
        ("has_h1_tag", h1);
        ("has_meta_description", meta_description);
        ("images_have_alt_text", alt_text) ] /\
    pr_score r =
      Z.min 100 (points 25 readable + 25 + points 25 rich
                 + points 15 robots + points 15 meta_robots + points 15 h1
                 + points 15 meta_description + points 15 alt_text) /\
    pr_score r
      = Z.min 100 (25 * passed_llm (pr_checks r) + 15 * passed_other (pr_checks r)) /\
    0 <= pr_score r <= 100.
Proof.
  intros Hhtml Hdoc Hbase.
  destruct (ChecksFacts.robots_check_returns (D := check_data) page base Hbase)
    as [robots Hrobots].
  destruct (markup_checks_return page html doc Hhtml Hdoc)
    as ([meta_robots Hmeta] & [h1 Hh1] & [description Hdesc] & [alt_text Halt]
        & [readability Hread] & [richness Hrich]).
  destruct (score_page_returns page html base doc Hhtml Hdoc Hbase) as [r Hr].
  exists r, robots, meta_robots, h1, description, alt_text.
  split_and!; try assumption.
  intros llm_content readable accessible rich. subst llm_content readable accessible rich.
  split; [|split; [|split]].
  - revert Hr. unfold score_page.
    rewrite Hrobots, Hmeta, Hh1, Hdesc, Halt, Hread, Hrich. cbn [bind ret].
    now intros [= <-].
  - revert Hr. unfold score_page.
    rewrite Hrobots, Hmeta, Hh1, Hdesc, Halt, Hread, Hrich. cbn [bind ret].
    intros [= <-]. cbn [pr_score add_points]. unfold points.
    change (Py.startswith "llm_content_analysis" "llm_") with true.
    change (Py.startswith "llm_accessibility_analysis" "llm_") with true.
    change (Py.startswith "llm_content_richness" "llm_") with true.
    change (Py.startswith "robots_txt_allows_crawling" "llm_") with false.
    change (Py.startswith "meta_robots_allows_indexing" "llm_") with false.
    change (Py.startswith "has_h1_tag" "llm_") with false.
    change (Py.startswith "has_meta_description" "llm_") with false.
    change (Py.startswith "images_have_alt_text" "llm_") with false.
    cbn [passed].
    destruct (passed (extract_llm_readable_content _ _)),
      (50 <=? lc_richness_score _), (passed robots), (passed meta_robots),
      (passed h1), (passed description), (passed alt_text); reflexivity.
  - destruct (score_page_inv page r Hr) as (? & ? & ? & ? & ? & ? & ? & ? & _ & Hscore).
    rewrite Hscore, add_points_spec. f_equal.
  - destruct (score_page_inv page r Hr) as (? & ? & ? & ? & ? & ? & ? & ? & _ & Hscore).
    rewrite Hscore, add_points_spec.
    pose proof (passed_counts_nonneg (pr_checks r)). lia.
Qed.

(** C10.  Whenever [score_page] returns, the check
    [llm_accessibility_analysis] of the result has [passed] set, and the
    score is at least 25: no scored page has score 0. *)
Theorem score_page_at_least_25 `{H : Html} `{T : Text} `{L : Llm}
    (page : page_data) (r : page_result) :
  score_page page = inr r ->
  (exists c, checks_get "llm_accessibility_analysis" (pr_checks r) = Some c
             /\ passed c = true) /\
  25 <= pr_score r /\ pr_score r <> 0.
Proof.
  intros Hr.
  destruct (score_page_inv page r Hr)
    as (c1 & c3 & c4 & c5 & c6 & c7 & c8 & msg & Hchecks & Hscore).
  split.
  - rewrite Hchecks. eexists. split; reflexivity.
  - assert (25 <= pr_score r); [|lia].
    rewrite Hscore, Hchecks. rewrite add_points_spec.
    pose proof (passed_counts_nonneg
                  [("llm_content_richness", c3); ("robots_txt_allows_crawling", c4);
                   ("meta_robots_allows_indexing", c5); ("has_h1_tag", c6);
                   ("has_meta_description", c7); ("images_have_alt_text", c8)]) as [Hl Ho].
    unfold passed_llm, passed_other in *.
    rewrite !(filter_cons _ ("llm_content_analysis", c1)).
    rewrite !(filter_cons _ ("llm_accessibility_analysis", _)).
    cbn [fst snd passed].
    repeat (destruct (decide _) as [[? ?]|?]; try discriminate; try tauto);
      simpl length; try lia.
    all: exfalso; match goal with Hn : ~ (_ /\ _) |- _ => apply Hn; split; reflexivity end.
Qed.

Section Batch.

Context {H : Html} {T : Text} {L : Llm}.

Lemma score_page_no_html (url : string) (status : option Z) (depth : Z) :
  exists e, score_page (PageData url None status depth) = inl e.
Proof.
  unfold score_page.
  destruct (check_robots_txt_allows_crawling _) as [e|robots]; cbn [bind]; eauto.
Qed.

(** An exception of the scorer on one page ends the whole pass. *)
Lemma score_all_raises (before after : list page_data) (page : page_data)
    (acc : totals) :
  (exists e, score_page page = inl e) ->
  exists e, score_all (before ++ page :: after) acc = inl e.
Proof.
  intros [e He]. revert acc. induction before as [|p before IH]; intros acc; simpl.
  - rewrite He. simpl. eauto.
  - destruct (score_page p) as [e'|r]; simpl; eauto.
Qed.

(** A page whose markup the parser rejects makes [score_page] raise
    the parser's exception. *)
Lemma score_page_parser_error (page : page_data) (html base e : string) :
  pd_html page = Some html ->
  html_parser html = inl e ->
  base_url_of (pd_url page) = inr base ->
  score_page page = inl e.
Proof.
  intros Hhtml Hdoc Hbase.
  destruct (ChecksFacts.robots_check_returns (D := check_data) page base Hbase)
    as [robots Hrobots].
  unfold score_page. rewrite Hrobots. cbn [bind].
  unfold check_meta_robots_allows_indexing, BeautifulSoup.
  rewrite Hhtml, Hdoc. reflexivity.
Qed.

End Batch.

(** C2, on the code.  [check_meta_robots_allows_indexing] has no
    handler: on a page record without markup the exception of the parser
    leaves the check, leaves [score_page], and ends [calculate_scores]
    for every batch that holds the page. *)
Theorem score_page_propagates_check_error `{H : Html} `{T : Text} `{L : Llm}
    (url : string) (status : option Z) (depth : Z) :
  let page := PageData url None status depth in
  check_meta_robots_allows_indexing (D := check_data) page
    = inl "object of type 'NoneType' has no len()" /\
  (exists e, score_page page = inl e) /\
  (forall before after, exists e, calculate_scores (before ++ page :: after) = inl e).
Proof.
  intros page. split; [reflexivity|]. split; [apply score_page_no_html|].
  intros before after. unfold calculate_scores.
  destruct (score_all_raises before after page
              (Totals [] 0 0 0 0 (Breakdown 0 0 0)) (score_page_no_html url status depth))
    as [e He].
  rewrite He. simpl. eauto.
Qed.

(** *** The site score *)

Lemma round_div_nearest (a b : Z) :
  0 < b -> Z.abs (2 * (b * Py.round_div a b - a)) <= b.
Proof.
  intros Hb. unfold Py.round_div.
  pose proof (Z.div_mod a b ltac:(lia)) as Hdiv.
  pose proof (Z.mod_pos_bound a b Hb) as Hmod.
  destruct (2 * (a mod b) <? b) eqn:Hlow; [apply Z.ltb_lt in Hlow; lia|].
  apply Z.ltb_ge in Hlow.
  destruct (b <? 2 * (a mod b)) eqn:Hhigh; [apply Z.ltb_lt in Hhigh; lia|].
  apply Z.ltb_ge in Hhigh.
  destruct (Z.even (a / b)); lia.
Qed.

Section Aggregate.

Context {H : Html} {T : Text} {L : Llm}.

Lemma sum_scores_app (l1 l2 : list page_result) :
  sum_scores (l1 ++ l2) = sum_scores l1 + sum_scores l2.
Proof.
  unfold sum_scores. rewrite fmap_app.
  induction (pr_score <$> l1) as [|x xs IH]; simpl; lia.
Qed.

Lemma score_all_spec (pages_data : list page_data) (acc acc' : totals) :
  score_all pages_data acc = inr acc' ->
  exists results,
    t_pages acc' = t_pages acc ++ results /\
    Forall2 (fun page result => score_page page = inr result) pages_data results /\
    t_score acc' = t_score acc + sum_scores results.
Proof.
  revert acc. induction pages_data as [|page rest IH]; intros acc; simpl.
  - intros [= <-]. exists []. rewrite app_nil_r. unfold sum_scores. simpl.
    split_and!; auto; lia.
  - destruct (score_page page) as [e|r] eqn:Hr; [discriminate|]. simpl.
    intros Hrest. destruct (IH _ Hrest) as (results & Hpages & Hall & Hscore).
    cbn [t_pages t_score] in Hpages, Hscore. exists (r :: results). split_and!.
    + rewrite Hpages, <- app_assoc. reflexivity.
    + now constructor.
    + rewrite Hscore. change (r :: results) with ([r] ++ results).
      rewrite sum_scores_app. unfold sum_scores at 2. simpl. lia.
Qed.

Lemma calculate_scores_inv (pages_data : list page_data) (r : site_results) :
  calculate_scores pages_data = inr r ->
  Forall2 (fun page result => score_page page = inr result) pages_data (sr_pages r) /\
  sr_site_score r =
    (if 0 <? Z.of_nat (length pages_data)
     then Py.round_div (sum_scores (sr_pages r)) (Z.of_nat (length pages_data))
     else 0).
Proof.
  unfold calculate_scores.
  destruct (score_all pages_data _) as [e|acc] eqn:Hall; [discriminate|].
  destruct (score_all_spec _ _ _ Hall) as (results & Hpages & Hlen & Hscore).
  simpl in Hpages, Hscore. cbn [bind]. unfold count_of.
  destruct (0 <? Z.of_nat (length pages_data)); destruct (oa_success _);
    (destruct (generate_ai_powered_recommendations _ _)
     || destruct (generate_recommendations _ _ _));
    try discriminate; cbn [bind ret]; intros [= <-]; cbn [sr_pages sr_site_score];
    rewrite Hpages, ?Hscore; split; (reflexivity || exact Hlen).
Qed.

Lemma calculate_scores_length (pages_data : list page_data) (r : site_results) :
  calculate_scores pages_data = inr r -> length (sr_pages r) = length pages_data.
Proof.
  intros Hr. destruct (calculate_scores_inv pages_data r Hr) as [Hall _].
  symmetry. exact (Forall2_length _ _ _ Hall).
Qed.

Lemma calculate_scores_empty :
  exists r, calculate_scores [] = inr r /\
            sr_site_score r = 0 /\ sr_pages r = [].
Proof.
  unfold calculate_scores. simpl.
  destruct (oa_success _); simpl; eexists; split_and!; reflexivity.
Qed.


End Aggregate.


End ScoringFacts.

(** ** The crawl of the small site *)

Module SiteCrawl.
Import Crawler CrawlerFacts Site.

(** A run with enough fuel tells what [crawl_site] does. *)
Lemma crawl_run_site `{W : Web} (max_depth : Z) (fuel : nat) (start_url : string)
    (st' : crawl_state) :
  crawl_run max_depth fuel (crawl_init start_url) = Some st' ->
  crawl_final max_depth start_url = st' /\
  crawl_site max_depth start_url = crawl_outcome st'.
Proof.
  intros Hrun. unfold crawl_site.
  now rewrite (crawl_run_final max_depth fuel start_url st' Hrun).
Qed.

Definition site_requests : list string :=
  [ "https://example.com"; "https://example.com/missing";
    "https://example.com/down"; "https://example.com/page";
    "https://example.com/page?x=1" ].

Lemma site_crawl_final :
  fetched (crawl_final 1 "example.com") = site_requests /\
  crawl_site 1 "example.com" = inr [home_page; inner_page; query_page].
Proof.
  assert (Hrun : option_map (fun st => (fetched st, crawl_outcome st))
                   (crawl_run 1 20 (crawl_init "example.com"))
                 = Some (site_requests, inr [home_page; inner_page; query_page]))
    by (vm_compute; reflexivity).
  destruct (crawl_run 1 20 (crawl_init "example.com")) as [st'|] eqn:Hst;
    [|discriminate].
  destruct (crawl_run_site 1 20 _ _ Hst) as [Hfinal Hsite].
  rewrite Hfinal, Hsite. injection Hrun as Hf Hp. split; [exact Hf|exact Hp].
Qed.


(** C1, on the code.  On the small site the crawler requests
    [/missing], which is answered with 404, and [/down], which is not
    answered; it goes on to the two remaining URLs, and it returns three
    records: none for the two URLs that failed. *)
Theorem crawl_site_skips_failed_fetch :
  let final := crawl_final 1 "example.com" in
  fetched final =
    [ "https://example.com"; "https://example.com/missing";
      "https://example.com/down"; "https://example.com/page";
      "https://example.com/page?x=1" ] /\
  fetch "https://example.com/missing" = inl "HTTPError" /\
  fetch "https://example.com/down" = inl "ConnectionError" /\
  crawl_site 1 "example.com" = inr [home_page; inner_page; query_page].
Proof.
  destruct site_crawl_final as [Hf Hp]. repeat split; assumption || reflexivity.
Qed.

(** The crawl of the small site returns three records. *)
Lemma crawl_site_page_cap_witness :
  crawl_site 1 "example.com" = inr [home_page; inner_page; query_page] /\
  (length [home_page; inner_page; query_page] <= 50)%nat /\
  (forall st, (length (pages_data st) < 50)%nat \/ crawl_step 1 st = None).
Proof.
  split; [exact (proj2 site_crawl_final)|].
  exact (crawl_site_page_cap (W := site_web) 1 "example.com"
           [home_page; inner_page; query_page] (proj2 site_crawl_final)).
Defined.




End SiteCrawl.

(** ** The command *)

Module CliFacts.
Import Crawler Checks ContentAnalysis Scoring Cli.

Section Command.

Context {W : Web} {H : Html} {T : Text} {L : Llm} {S : Shell}.

(** How the run goes once the scores are there. *)
Lemma audit_scored (url : string) (depth : Z) (output : option string)
    (openai_report : bool) (openai_key : option string) (format : output_format)
    (pages : list page_data) (results : site_results) :
  crawl_site depth url = inr pages ->
  calculate_scores pages = inr results ->
  audit url depth output openai_report openai_key format =
    let trace :=
      [Echo ("Auditing " +:+ url +:+ " with depth " +:+ Py.str depth +:+ "...")] in
    if openai_report then
      if negb (truthy openai_key) && negb (truthy (getenv "OPENAI_API_KEY")) then
        (trace ++ [Echo missing_key_message], ret tt)
      else
        match openai_step results pages openai_key with
        | (events, inl e) => (trace ++ events, raise e)
        | (events, inr openai_result) =>
            let report := emit results openai_result output format in
            (trace ++ events ++ fst report, snd report)
        end
    else
      let report := emit results None output format in
      (trace ++ fst report, snd report).
Proof. intros Hpages Hscores. unfold audit. now rewrite Hpages, Hscores. Qed.

(** The OpenAI step never gets an answer: the call of cli.py:46 raises. *)
Lemma openai_step_raises (results : site_results) (pages : list page_data)
    (openai_key : option string) :
  openai_step results pages openai_key =
    ([Echo "Generating polished report with OpenAI..."],
     raise "generate_report_with_openai() takes 2 positional arguments but 3 were given").
Proof. reflexivity. Qed.

End Command.

(** C9, as the code has it.  With the OpenAI flag set and no key, neither
    as an option nor in the environment, a run whose crawl was scored
    writes the line about the audit and the error line, and returns: the
    OpenAI step and the report step are not reached. *)
Theorem audit_missing_key_stops
    `{W : Web} `{H : Html} `{T : Text} `{L : Llm} `{S : Shell}
    (url : string) (depth : Z) (output : option string) (openai_key : option string)
    (format : output_format) (pages : list page_data) (results : site_results) :
  truthy openai_key = false ->
  truthy (getenv "OPENAI_API_KEY") = false ->
  crawl_site depth url = inr pages ->
  calculate_scores pages = inr results ->
  audit url depth output true openai_key format =
    ([ Echo ("Auditing " +:+ url +:+ " with depth " +:+ Py.str depth +:+ "...");
       Echo missing_key_message ],
     ret tt).
Proof.
  intros Hkey Henv Hpages Hscores.
  rewrite (audit_scored _ _ _ _ _ _ pages results Hpages Hscores). cbn zeta.
  now rewrite Hkey, Henv.
Qed.

End CliFacts.

(** ** Checks, scores and the command on the small site *)

Module SiteAudit.
Import Crawler Checks ContentAnalysis Scoring Cli Site.

(** The robots.txt of [example.com] is the two-line file that closes
    the site to every crawler. *)
Lemma robots_check_witness :
  base_url_of (pd_url home_page) = inr "https://example.com" /\
  robots_get "https://example.com" = inr (Response blocking_robots_txt 200) /\
  exists r : check_result unit,
    check_robots_txt_allows_crawling home_page = inr r /\ passed r = false.
Proof.
  split; [reflexivity|]. split; [reflexivity|].
  assert (Hbase : base_url_of (pd_url home_page) = inr "https://example.com")
    by reflexivity.
  destruct (ChecksFacts.robots_check_verdict (D := unit) home_page
              "https://example.com" Hbase) as (r & Hr & _ & _ & _ & Hfile).
  exists r. split; [exact Hr|].
  apply (Hfile (Response blocking_robots_txt 200)); reflexivity.
Defined.

(** C7 as stated fails.  In the first file the group of [*] names a
    second crawler after it, in the second the rule ends with a comment:
    in both the wildcard group holds [Disallow: /] and the file has no
    Allow record, and on both the check passes.  The code takes the last
    [user-agent:] line alone for the group, and the whole text after the
    colon for the path. *)
Lemma robots_check_misses_wildcard_group :
  Forall (fun body =>
            RobotsSpec.rfc_wildcard_group_disallows_all body = true /\
            RobotsSpec.rfc_has_allow body = false /\
            check_robots_txt_allows_crawling (H := robots_html body) (D := unit) home_page
              = inr (CheckResult true "robots.txt allows crawling" None))
    [shared_group_robots_txt; commented_rule_robots_txt].
Proof. repeat constructor. Qed.

(** [other.org] has no robots.txt: the check passes. *)
Example robots_check_other_host :
  check_robots_txt_allows_crawling (D := unit)
    (PageData "https://other.org/" (Some "<html></html>") (Some 200) 0)
  = inr (CheckResult true "No robots.txt found (allows crawling per RFC)" None).
Proof. reflexivity. Qed.

Example site_scores :
  (let! r := score_page home_page in ret (pr_score r)) = inr 70 /\
  (let! r := score_page inner_page in ret (pr_score r)) = inr 25 /\
  (let! r := score_page query_page in ret (pr_score r)) = inr 55.
Proof. vm_compute. auto. Qed.

(** The home page: the accessibility check, and three of the five
    others, passed. *)
Lemma score_page_score_witness :
  pd_html home_page = Some home_html /\
  html_parser home_html = inr home_doc /\
  base_url_of (pd_url home_page) = inr "https://example.com" /\
  exists r,
    score_page home_page = inr r /\
    (fun entry => (fst entry, passed (snd entry))) <$> pr_checks r =
      [ ("llm_content_analysis", false); ("llm_accessibility_analysis", true);
        ("llm_content_richness", false); ("robots_txt_allows_crawling", false);
        ("meta_robots_allows_indexing", true); ("has_h1_tag", true);
        ("has_meta_description", false); ("images_have_alt_text", true) ] /\
    pr_score r
      = Z.min 100 (25 * passed_llm (pr_checks r) + 15 * passed_other (pr_checks r)) /\
    pr_score r = 70.
Proof.
  assert (Hhtml : pd_html home_page = Some home_html) by reflexivity.
  assert (Hdoc : html_parser home_html = inr home_doc) by reflexivity.
  assert (Hbase : base_url_of (pd_url home_page) = inr "https://example.com")
    by reflexivity.
  split_and!; [reflexivity..|].
  destruct (ScoringFacts.score_page_score home_page home_html "https://example.com"
              home_doc Hhtml Hdoc Hbase)
    as (r & robots & meta_robots & h1 & meta_description & alt_text
        & Hr & _ & _ & _ & _ & _ & _ & _ & Hscore & _).
  exists r. split; [exact Hr|]. split; [|split; [exact Hscore|]].
  - vm_compute in Hr. injection Hr as <-. reflexivity.
  - vm_compute in Hr. injection Hr as <-. reflexivity.
Defined.

Lemma score_page_at_least_25_witness :
  exists r, score_page inner_page = inr r /\ 25 <= pr_score r /\ pr_score r <> 0.
Proof.
  destruct (score_page inner_page) as [e|r] eqn:Hr; [vm_compute in Hr; discriminate|].
  exists r. split; [reflexivity|].
  apply (ScoringFacts.score_page_at_least_25 inner_page r Hr).
Defined.

(** The three pages of the site score 70, 25 and 55: the site score is
    50. *)
Example site_calculate_scores :
  exists r,
    calculate_scores [home_page; inner_page; query_page] = inr r /\
    pr_score <$> sr_pages r = [70; 25; 55] /\ sr_site_score r = 50.
Proof. eexists. vm_compute. auto. Qed.


Lemma site_scored :
  exists pages results,
    crawl_site 1 "example.com" = inr pages /\ calculate_scores pages = inr results.
Proof.
  destruct site_calculate_scores as (r & Hr & _).
  exists [home_page; inner_page; query_page], r.
  split; [exact (proj2 SiteCrawl.site_crawl_final)|exact Hr].
Qed.

Lemma site_audit_trace :
  audit "example.com" 1 None true None FormatReport =
    ([ Echo "Auditing example.com with depth 1..."; Echo missing_key_message ], ret tt).
Proof.
  destruct site_scored as (pages & results & Hpages & Hscores).
  now rewrite (CliFacts.audit_scored _ _ _ _ _ _ pages results Hpages Hscores).
Qed.

Lemma audit_missing_key_stops_witness :
  truthy None = false /\
  truthy (getenv "OPENAI_API_KEY") = false /\
  (exists pages results,
     crawl_site 1 "example.com" = inr pages /\ calculate_scores pages = inr results) /\
  audit "example.com" 1 None true None FormatReport =
    ([ Echo "Auditing example.com with depth 1..."; Echo missing_key_message ], ret tt).
Proof.
  split_and!; [reflexivity|reflexivity|exact site_scored|].
  destruct site_scored as (pages & results & Hpages & Hscores).
  exact (CliFacts.audit_missing_key_stops "example.com" 1 None None FormatReport
           pages results eq_refl eq_refl Hpages Hscores).
Defined.

(** C9 as stated fails: on the small site, with the OpenAI flag and no
    key, the run ends without an event of the report step. *)
Lemma audit_missing_key_no_report :
  ~ report_emitted (fst (audit "example.com" 1 None true None FormatReport)).
Proof.
  rewrite site_audit_trace. cbn [fst].
  intros (e & results & openai_result & output & format & Htrace & Hemit).
  assert (Hline : e = Echo "Auditing example.com with depth 1..."
                  \/ e = Echo missing_key_message).
  { rewrite !elem_of_cons, elem_of_nil in Htrace. tauto. }
  unfold emit in Hemit.
  destruct format, output as [path|]; try destruct (truthy (Some path));
    try destruct (save_report_to_file _ _); try destruct (dump_to_file _ _);
    cbn [fst] in Hemit;
    rewrite ?elem_of_cons, elem_of_nil in Hemit;
    destruct Hline as [-> | ->]; intuition discriminate.
Qed.

End SiteAudit.

(** * Further properties *)

(** ** The crawl: depth, order and distinct pages *)

Module CrawlOrder.
Import Crawler CrawlerFacts.

Section Order.

Context {W : Web}.
Variable max_depth : Z.

(** *** Depths *)

Definition depths_in_range (st : crawl_state) : Prop :=
  (forall u d, (u, d) ∈ to_visit st -> 0 <= d) /\
  (forall p, p ∈ pages_data st -> 0 <= pd_depth p <= max_depth).

Lemma crawl_step_depths st st' :
  depths_in_range st -> crawl_step max_depth st = Some st' -> depths_in_range st'.
Proof.
  intros [Hq Hp] Hs.
  apply crawl_step_cases in Hs as (_ & _ & url & depth & rest & Hqueue & Hc).
  assert (Hdepth : 0 <= depth) by (apply (Hq url); rewrite Hqueue; left).
  assert (Hrest : forall u d, (u, d) ∈ rest -> 0 <= d)
    by (intros u d Hin; apply (Hq u); rewrite Hqueue; now right).
  destruct Hc as [(e & _ & ->)
                 |(normalized_url & _
                   & [[_ ->]|[(_ & _ & _ & ->)|(_ & Hmax & r & _ & ->)]])];
    split; simpl; auto.
  - intros u d Hin.
    destruct (discover_spec max_depth normalized_url (resp_text r) depth
                ({[normalized_url]} ∪ visited st) rest) as (new & Heq & Hnew).
    rewrite Heq in Hin. apply elem_of_app in Hin as [Hin|Hin]; [eauto|].
    rewrite Forall_forall in Hnew. destruct (Hnew _ Hin) as [Hd _]. simpl in Hd. lia.
  - intros p [Hin|Hin]%elem_of_app; [auto|].
    apply list_elem_of_singleton in Hin. subst p. simpl. lia.
Qed.

(** *** Breadth-first order *)

Definition queue_depths (st : crawl_state) : list Z := snd <$> to_visit st.
Definition page_depths (st : crawl_state) : list Z := pd_depth <$> pages_data st.

Definition level_order (st : crawl_state) : Prop :=
  StronglySorted Z.le (page_depths st ++ queue_depths st) /\
  (forall d1 d2, d1 ∈ queue_depths st -> d2 ∈ queue_depths st -> d2 <= d1 + 1).

Lemma crawl_step_level_order st st' :
  level_order st -> crawl_step max_depth st = Some st' -> level_order st'.
Proof.
  unfold level_order, page_depths, queue_depths. intros [Hsorted Hnear] Hs.
  apply crawl_step_cases in Hs as (_ & _ & url & depth & rest & Hqueue & Hc).
  rewrite Hqueue in Hsorted, Hnear. rewrite fmap_cons in Hsorted, Hnear.
  cbn [snd] in Hsorted, Hnear.
  apply StronglySorted_app in Hsorted as (Hcross & Hpages & Hq).
  apply StronglySorted_cons in Hq as [Hhead Hrest]. rewrite Forall_forall in Hhead.
  assert (Hskip : StronglySorted Z.le ((pd_depth <$> pages_data st) ++ (snd <$> rest))
                  /\ (forall d1 d2, d1 ∈ snd <$> rest -> d2 ∈ snd <$> rest -> d2 <= d1 + 1)).
  { split.
    - apply StronglySorted_app. split_and!; auto.
      intros x1 x2 H1 H2. apply Hcross; [exact H1|now right].
    - intros d1 d2 H1 H2. apply Hnear; now right. }
  destruct Hc as [(e & _ & ->)
                 |(normalized_url & _
                   & [[_ ->]|[(_ & _ & _ & ->)|(_ & _ & r & _ & ->)]])];
    cbn [pages_data to_visit]; try exact Hskip.
  destruct (discover_spec max_depth normalized_url (resp_text r) depth
              ({[normalized_url]} ∪ visited st) rest) as (new & -> & Hnew).
  assert (Hnew' : forall d, d ∈ snd <$> new -> d = depth + 1).
  { intros d (entry & -> & Hin)%list_elem_of_fmap.
    rewrite Forall_forall in Hnew. now apply Hnew. }
  rewrite !fmap_app. cbn [fmap list_fmap pd_depth]. split.
  - apply StronglySorted_app. split_and!.
    + intros x1 x2 [H1|H1]%elem_of_app [H2|H2]%elem_of_app.
      * apply Hcross; [exact H1|now right].
      * rewrite (Hnew' _ H2). assert (x1 <= depth) by (apply Hcross; [exact H1|left]). lia.
      * apply list_elem_of_singleton in H1. subst x1. now apply Hhead.
      * apply list_elem_of_singleton in H1. subst x1. rewrite (Hnew' _ H2). lia.
    + apply StronglySorted_app. split_and!; auto.
      * intros x1 x2 H1 ->%list_elem_of_singleton. apply Hcross; [exact H1|left].
      * repeat constructor.
    + apply StronglySorted_app. split_and!; auto.
      * intros x1 x2 H1 H2. rewrite (Hnew' _ H2).
        assert (x1 <= depth + 1) by (apply Hnear; [left|now right]). lia.
      * clear Hnew. induction new as [|entry new IH]; [constructor|].
        rewrite fmap_cons. apply StronglySorted_cons. split.
        -- apply Forall_forall. intros d Hd.
           rewrite (Hnew' d) by now right.
           rewrite (Hnew' (snd entry)) by (rewrite fmap_cons; left). lia.
        -- apply IH. intros d Hd. apply Hnew'. rewrite fmap_cons. now right.
  - intros d1 d2 [H1|H1]%elem_of_app [H2|H2]%elem_of_app.
    + apply Hnear; now right.
    + rewrite (Hnew' _ H2). assert (depth <= d1) by now apply Hhead. lia.
    + rewrite (Hnew' _ H1). assert (d2 <= depth + 1) by (apply Hnear; [left|now right]). lia.
    + rewrite (Hnew' _ H1), (Hnew' _ H2). lia.
Qed.

(** *** Distinct pages *)

Definition pages_requested (st : crawl_state) : Prop :=
  (pd_url <$> pages_data st) `sublist_of` fetched st.

Lemma crawl_step_pages_requested st st' :
  pages_requested st -> crawl_step max_depth st = Some st' -> pages_requested st'.
Proof.
  unfold pages_requested. intros Hsub Hs.
  apply crawl_step_cases in Hs
    as (_ & _ & url & depth & rest & _
        & [(e & _ & ->)
          |(normalized_url & _
            & [[_ ->]|[(_ & _ & _ & ->)|(_ & _ & r & _ & ->)]])]); simpl; auto.
  - now apply sublist_inserts_r.
  - rewrite fmap_app. now apply sublist_app.
Qed.

(** *** After the seed no exception leaves the loop *)

Definition settled (st : crawl_state) : Prop :=
  raised st = None /\
  forall u d, (u, d) ∈ to_visit st -> Url.urldefrag u = inr u.

Lemma crawl_step_settled st st' :
  settled st -> crawl_step max_depth st = Some st' -> settled st'.
Proof.
  intros [_ Hq] Hs.
  apply crawl_step_cases in Hs as (_ & _ & url & depth & rest & Hqueue & Hc).
  assert (Hurl : Url.urldefrag url = inr url) by (apply (Hq url depth); rewrite Hqueue; left).
  assert (Hrest : forall u d, (u, d) ∈ rest -> Url.urldefrag u = inr u)
    by (intros u d Hin; apply (Hq u d); rewrite Hqueue; now right).
  destruct Hc as [(e & He & ->)
                 |(normalized_url & _
                   & [[_ ->]|[(_ & _ & _ & ->)|(_ & _ & r & _ & ->)]])];
    [congruence|split; simpl; auto..].
  intros u d Hin.
  destruct (discover_spec max_depth normalized_url (resp_text r) depth
              ({[normalized_url]} ∪ visited st) rest) as (new & Heq & Hnew).
  rewrite Heq in Hin. apply elem_of_app in Hin as [Hin|Hin]; [eauto|].
  rewrite Forall_forall in Hnew.
  exact (link_entry_fixed _ _ _ _ (Hnew _ Hin)).
Qed.

Lemma discover_settled normalized_url text depth seen :
  forall u d, (u, d) ∈ discover max_depth normalized_url text depth seen [] ->
              Url.urldefrag u = inr u.
Proof.
  intros u d Hin.
  destruct (discover_spec max_depth normalized_url text depth seen [])
    as (new & Heq & Hnew).
  rewrite Heq in Hin. rewrite Forall_forall in Hnew.
  exact (link_entry_fixed _ _ _ _ (Hnew _ Hin)).
Qed.

End Order.

Section Seed.

Context {W : Web}.
Variable max_depth : Z.
Variable start_url : string.

(** The first turn of the loop. *)
Lemma crawl_first_step :
  crawl_step max_depth (crawl_init start_url) =
    Some (match Url.urldefrag (normalize_start start_url) with
          | inl e => CrawlState ∅ [] [] [] (Some e)
          | inr first_url =>
              if max_depth <? 0 then CrawlState ∅ [] [] [] None
              else match fetch first_url with
                   | inl _ => CrawlState ({[first_url]} ∪ ∅) [] [] [first_url] None
                   | inr r =>
                       CrawlState ({[first_url]} ∪ ∅)
                         (discover max_depth first_url (resp_text r) 0
                            ({[first_url]} ∪ ∅) [])
                         [PageData first_url (Some (resp_text r))
                            (Some (resp_status_code r)) 0]
                         [first_url] None
                   end
          end).
Proof.
  unfold crawl_step, crawl_init. cbn [pages_data to_visit visited fetched raised].
  rewrite bool_decide_eq_true_2 by (unfold MAX_PAGES; simpl; lia).
  destruct (Url.urldefrag _) as [e|first_url]; [reflexivity|].
  rewrite bool_decide_eq_false_2 by apply not_elem_of_empty.
  cbn [orb]. destruct (max_depth <? 0); [reflexivity|].
  destruct (fetch _); reflexivity.
Qed.

Lemma crawl_loop_empty_queue st :
  to_visit st = [] -> crawl_loop max_depth st = st.
Proof.
  intros Hq. rewrite crawl_loop_eq. unfold crawl_step. rewrite Hq.
  destruct (raised st); [reflexivity|]. now destruct (bool_decide _).
Qed.

Lemma crawl_loop_raised st e :
  raised st = Some e -> crawl_loop max_depth st = st.
Proof.
  intros Hr. rewrite crawl_loop_eq. unfold crawl_step. now rewrite Hr.
Qed.

Lemma crawl_step_keeps_first st st' p0 :
  (exists rest, pages_data st = p0 :: rest) ->
  crawl_step max_depth st = Some st' ->
  exists rest, pages_data st' = p0 :: rest.
Proof.
  intros [rest0 Hp] Hs.
  apply crawl_step_cases in Hs
    as (_ & _ & url & depth & rest & _
        & [(e & _ & ->)
          |(normalized_url & _
            & [[_ ->]|[(_ & _ & _ & ->)|(_ & _ & r & _ & ->)]])]); simpl; eauto.
  rewrite Hp. simpl. eauto.
Qed.

(** A crawl whose seed was fetched returns its pages, the record of the
    seed first. *)
Lemma crawl_after_seed (first_url : string) (r : response) :
  0 <= max_depth ->
  Url.urldefrag (normalize_start start_url) = inr first_url ->
  fetch first_url = inr r ->
  let seed_page :=
    PageData first_url (Some (resp_text r)) (Some (resp_status_code r)) 0 in
  let after_seed :=
    CrawlState ({[first_url]} ∪ ∅)
      (discover max_depth first_url (resp_text r) 0 ({[first_url]} ∪ ∅) [])
      [seed_page] [first_url] None in
  crawl_final max_depth start_url = crawl_loop max_depth after_seed /\
  raised (crawl_loop max_depth after_seed) = None /\
  exists rest, pages_data (crawl_loop max_depth after_seed) = seed_page :: rest.
Proof.
  intros Hd Hfirst Hfetch seed_page after_seed. split_and!.
  - unfold crawl_final. rewrite crawl_loop_eq, crawl_first_step.
    now rewrite Hfirst, (proj2 (Z.ltb_ge max_depth 0) Hd), Hfetch.
  - apply (crawl_loop_invariant max_depth (settled)).
    + apply crawl_step_settled.
    + split; [reflexivity|]. apply discover_settled.
  - apply (crawl_loop_invariant max_depth
             (fun st => exists rest, pages_data st = seed_page :: rest)).
    + intros st st'. apply crawl_step_keeps_first.
    + now exists [].
Qed.

End Seed.



(** The depth of every returned record lies between 0 and [max_depth]. *)
Theorem crawl_site_depths `{W : Web} (max_depth : Z) (start_url : string)
    (pages : list page_data) :
  crawl_site max_depth start_url = inr pages ->
  Forall (fun p => 0 <= pd_depth p <= max_depth) pages.
Proof.
  intros Hpages. rewrite (crawl_site_returned max_depth start_url pages Hpages).
  apply Forall_forall.
  apply (crawl_reachable_invariant max_depth (depths_in_range max_depth)).
  - split; simpl.
    + intros u d Hin. apply list_elem_of_singleton in Hin. injection Hin as _ ->. lia.
    + intros p Hin. inversion Hin.
  - apply crawl_step_depths.
Qed.

(** The records come in breadth-first order: their depths never
    decrease along the returned list. *)
Theorem crawl_site_breadth_first `{W : Web} (max_depth : Z) (start_url : string)
    (pages : list page_data) :
  crawl_site max_depth start_url = inr pages ->
  StronglySorted Z.le (pd_depth <$> pages).
Proof.
  intros Hpages. rewrite (crawl_site_returned max_depth start_url pages Hpages).
  assert (Hall : level_order (crawl_final max_depth start_url)).
  { apply (crawl_reachable_invariant max_depth level_order).
    - split; simpl.
      + repeat constructor.
      + unfold queue_depths. simpl.
        intros d1 d2 ->%list_elem_of_singleton ->%list_elem_of_singleton. lia.
    - apply crawl_step_level_order. }
  destruct Hall as [Hsorted _]. now apply StronglySorted_app_1_l in Hsorted.
Qed.

(** No two returned records have the same URL. *)
Theorem crawl_site_distinct_urls `{W : Web} (max_depth : Z) (start_url : string)
    (pages : list page_data) :
  crawl_site max_depth start_url = inr pages ->
  NoDup (pd_url <$> pages).
Proof.
  intros Hpages. rewrite (crawl_site_returned max_depth start_url pages Hpages).
  assert (Hsub : pages_requested (crawl_final max_depth start_url)).
  { apply (crawl_reachable_invariant max_depth pages_requested).
    - apply sublist_nil_l.
    - apply crawl_step_pages_requested. }
  assert (Honce : fetched_once start_url (crawl_final max_depth start_url)).
  { apply (crawl_reachable_invariant max_depth (fetched_once start_url)).
    - apply crawl_init_fetched_once.
    - apply crawl_step_fetched_once. }
  destruct Honce as [Hnd _]. exact (sublist_NoDup _ _ Hnd Hsub).
Qed.

(** How a crawl ends.  [crawl_site] raises exactly when [urldefrag]
    raises on the seed (with its scheme put in front), whatever
    [max_depth] is, and then with that exception: no later turn of the
    loop raises.  It returns the empty list exactly when [urldefrag]
    returns on the seed and [max_depth] is negative or the request for
    the seed fails. *)
Theorem crawl_site_empty_iff `{W : Web} (max_depth : Z) (start_url : string) :
  (forall e, crawl_site max_depth start_url = inl e
             <-> Url.urldefrag (normalize_start start_url) = inl e) /\
  (crawl_site max_depth start_url = inr [] <->
   exists first_url,
     Url.urldefrag (normalize_start start_url) = inr first_url /\
     (max_depth < 0 \/ exists e, fetch first_url = inl e)).
Proof.
  unfold crawl_site.
  destruct (Url.urldefrag (normalize_start start_url)) as [e0|first_url] eqn:Hfirst.
  { unfold crawl_final. rewrite crawl_loop_eq, crawl_first_step, Hfirst.
    rewrite (crawl_loop_raised max_depth _ e0) by reflexivity.
    unfold crawl_outcome. simpl. split.
    - intros e. unfold raise. split; intros [= ->]; reflexivity.
    - split; [discriminate|]. intros (u & Hu & _). discriminate. }
  destruct (max_depth <? 0) eqn:Hd; [apply Z.ltb_lt in Hd|apply Z.ltb_ge in Hd].
  { unfold crawl_final. rewrite crawl_loop_eq, crawl_first_step, Hfirst.
    rewrite (proj2 (Z.ltb_lt max_depth 0) Hd).
    rewrite crawl_loop_empty_queue by reflexivity. unfold crawl_outcome. simpl. split.
    - intros e. split; discriminate.
    - split; [|reflexivity]. intros _. exists first_url. auto. }
  destruct (fetch first_url) as [e1|r] eqn:Hfetch.
  { unfold crawl_final. rewrite crawl_loop_eq, crawl_first_step, Hfirst.
    rewrite (proj2 (Z.ltb_ge max_depth 0) Hd), Hfetch.
    rewrite crawl_loop_empty_queue by reflexivity. unfold crawl_outcome. simpl. split.
    - intros e. split; discriminate.
    - split; [|reflexivity]. intros _. exists first_url. eauto. }
  destruct (crawl_after_seed max_depth start_url first_url r Hd Hfirst Hfetch)
    as (-> & Hnone & rest & Hpages).
  unfold crawl_outcome. rewrite Hnone, Hpages. split.
  - intros e. split; discriminate.
  - split; [discriminate|].
    intros (u & [= <-] & [Hneg|[e He]]); [lia|congruence].
Qed.

(** When [max_depth] is not negative and the seed URL is fetched,
    [crawl_site] returns, the record of the seed comes first, and it is
    the only one when [max_depth] is 0 or the page has no anchors. *)
Theorem crawl_site_seed_first `{W : Web} (max_depth : Z) (start_url first_url : string)
    (r : response) :
  0 <= max_depth ->
  Url.urldefrag (normalize_start start_url) = inr first_url ->
  fetch first_url = inr r ->
  let seed_page :=
    PageData first_url (Some (resp_text r)) (Some (resp_status_code r)) 0 in
  (exists rest, crawl_site max_depth start_url = inr (seed_page :: rest)) /\
  (max_depth = 0 \/ anchor_hrefs (resp_text r) = inr [] ->
   crawl_site max_depth start_url = inr [seed_page]).
Proof.
  intros Hd Hfirst Hfetch seed_page. unfold crawl_site.
  destruct (crawl_after_seed max_depth start_url first_url r Hd Hfirst Hfetch)
    as (-> & Hnone & rest & Hpages).
  unfold crawl_outcome. rewrite Hnone, Hpages. split; [now exists rest|].
  intros Hleaf. f_equal. rewrite <- Hpages.
  rewrite crawl_loop_empty_queue; [reflexivity|].
  cbn [to_visit]. unfold discover. destruct Hleaf as [-> | ->].
  - reflexivity.
  - destruct (0 <? max_depth); [|reflexivity]. now destruct (Url.netloc first_url).
Qed.

(** The seed normalisation yields a URL with a scheme and changes
    nothing when applied again. *)
Theorem normalize_start_idempotent (start_url : string) :
  (Py.startswith (normalize_start start_url) "http://" = true
   \/ Py.startswith (normalize_start start_url) "https://" = true) /\
  normalize_start (normalize_start start_url) = normalize_start start_url.
Proof.
  assert (Hscheme : String.prefix "http://" (normalize_start start_url)
                    || String.prefix "https://" (normalize_start start_url) = true).
  { unfold normalize_start.
    destruct (String.prefix "http://" start_url || String.prefix "https://" start_url)
      eqn:Hp; [exact Hp|]. apply orb_true_iff. right.
    now destruct start_url. }
  split.
  - now apply orb_true_iff in Hscheme.
  - unfold normalize_start at 1. now rewrite Hscheme.
Qed.

End CrawlOrder.

(** ** The markup checks, by what the document holds *)

Module MarkupFacts.
Import Crawler Checks.

(** A [meta] element whose [name] attribute is [word], in any case. *)
Definition is_named_meta (word : string) (t : tag) : Prop :=
  tag_name t = "meta" /\
  exists value, attr_get "name" (tag_attrs t) = Some value
                /\ matches_word word value = true.

(** [t] is the first such element of [doc]. *)
Definition first_named_meta (word : string) (doc : soup) (t : tag) : Prop :=
  exists before rest,
    doc = before ++ t :: rest /\
    Forall (fun x => ~ is_named_meta word x) before /\
    is_named_meta word t.

Definition content_of (t : tag) : string :=
  default "" (attr_get "content" (tag_attrs t)).

(** An image with an [alt] attribute that is not blank. *)
Definition has_alt_text (img : tag) : Prop :=
  exists alt, attr_get "alt" (tag_attrs img) = Some alt /\ Py.strip alt <> "".

Lemma named_meta_test (word : string) (t : tag) :
  bool_decide (tag_name t = "meta")
  && from_option (matches_word word) false (attr_get "name" (tag_attrs t)) = true
  <-> is_named_meta word t.
Proof.
  unfold is_named_meta. rewrite andb_true_iff, bool_decide_eq_true.
  destruct (attr_get "name" (tag_attrs t)) as [value|]; simpl.
  - split; [intros [? ?]; eauto|intros [? (v & [= <-] & ?)]; auto].
  - split; [intros [_ ?]; discriminate|intros [_ (v & ? & _)]; discriminate].
Qed.

Lemma find_meta_some (word : string) (doc : soup) (t : tag) :
  find_meta word doc = Some t <-> first_named_meta word doc t.
Proof.
  unfold first_named_meta. induction doc as [|x doc IH]; simpl.
  - split; [discriminate|]. intros (before & rest & Heq & _). now destruct before.
  - pose proof (named_meta_test word x) as Htest.
    destruct (_ && _) eqn:Hx.
    + assert (Hnamed : is_named_meta word x) by now apply Htest.
      split.
      * intros [= <-]. exists [], doc. split_and!; auto.
      * intros (before & rest & Heq & Hbefore & Ht).
        destruct before as [|b before]; simpl in Heq; injection Heq as -> ->; [reflexivity|].
        apply Forall_cons in Hbefore as [Hb _]. contradiction.
    + assert (Hnot : ~ is_named_meta word x) by (rewrite <- Htest; congruence).
      rewrite IH. split.
      * intros (before & rest & -> & Hbefore & Ht).
        exists (x :: before), rest. split_and!; auto.
      * intros (before & rest & Heq & Hbefore & Ht).
        destruct before as [|b before]; simpl in Heq; injection Heq as -> ->;
          [contradiction|].
        apply Forall_cons in Hbefore as [_ Hbefore]. eauto.
Qed.

Lemma alt_issues_none (images : list tag) :
  (length (fst (alt_issues images)) + length (snd (alt_issues images)) = 0)%nat
  <-> Forall has_alt_text images.
Proof.
  unfold has_alt_text. induction images as [|img images IH]; simpl.
  - split; [constructor|reflexivity].
  - rewrite Forall_cons. destruct (alt_issues images) as [missing empty].
    simpl in IH. destruct (attr_get "alt" (tag_attrs img)) as [alt|]; simpl.
    + case_bool_decide as Hblank; simpl.
      * split; [lia|]. intros [(a & [= <-] & Ha) _]. contradiction.
      * rewrite IH. split; [intros ?; split; eauto|tauto].
    + split; [lia|]. intros [(a & Ha & _) _]. discriminate.
Qed.

(** The meta robots check fails exactly when the first [meta] element
    named [robots] has [noindex] in its content, in any case; later
    such elements are not read. *)
Theorem meta_robots_fails_iff `{H : Html} {D : Type} (page : page_data) (doc : soup) :
  BeautifulSoup (pd_html page) = inr doc ->
  exists r : check_result D,
    check_meta_robots_allows_indexing page = inr r /\
    (passed r = false <->
     exists meta, first_named_meta "robots" doc meta
                  /\ Py.contains "noindex" (Py.lower (content_of meta)) = true).
Proof.
  intros Hdoc. unfold check_meta_robots_allows_indexing. rewrite Hdoc. cbn [bind].
  pose proof (find_meta_some "robots" doc) as Hfirst.
  destruct (find_meta "robots" doc) as [meta|].
  - fold (content_of meta).
    destruct (Py.contains "noindex" (Py.lower (content_of meta))) eqn:Hc;
      eexists; (split; [reflexivity|]); simpl.
    + split; [intros _|reflexivity]. exists meta. split; [now apply Hfirst|exact Hc].
    + split; [discriminate|]. intros (meta' & Hm & Hc').
      apply Hfirst in Hm. injection Hm as <-. congruence.
  - eexists; split; [reflexivity|]. simpl. split; [discriminate|].
    intros (meta' & Hm & _). apply Hfirst in Hm. discriminate.
Qed.

(** The meta description check passes exactly when the first [meta]
    element named [description] has a content of 120 to 160 characters
    once stripped. *)
Theorem meta_description_passes_iff `{H : Html} {D : Type}
    (page : page_data) (doc : soup) :
  BeautifulSoup (pd_html page) = inr doc ->
  exists r : check_result D,
    check_has_meta_description page = inr r /\
    (passed r = true <->
     exists meta, first_named_meta "description" doc meta
                  /\ 120 <= Py.len (Py.strip (content_of meta)) <= 160).
Proof.
  intros Hdoc. unfold check_has_meta_description. rewrite Hdoc. cbn [bind].
  pose proof (find_meta_some "description" doc) as Hfirst.
  destruct (find_meta "description" doc) as [meta|].
  - fold (content_of meta).
    assert (Hsame : forall meta', first_named_meta "description" doc meta' -> meta' = meta).
    { intros meta' Hm. apply Hfirst in Hm. now injection Hm. }
    case_bool_decide as Hempty.
    { eexists; split; [reflexivity|]. simpl. split; [discriminate|].
      intros (meta' & Hm & Hlen). rewrite (Hsame _ Hm), Hempty in Hlen.
      unfold Py.len in Hlen. simpl in Hlen. lia. }
    destruct (Py.len (Py.strip (content_of meta)) <? 120) eqn:Hshort.
    { apply Z.ltb_lt in Hshort.
      eexists; split; [reflexivity|]. simpl. split; [discriminate|].
      intros (meta' & Hm & Hlen). rewrite (Hsame _ Hm) in Hlen. lia. }
    apply Z.ltb_ge in Hshort.
    destruct (160 <? Py.len (Py.strip (content_of meta))) eqn:Hlong.
    { apply Z.ltb_lt in Hlong.
      eexists; split; [reflexivity|]. simpl. split; [discriminate|].
      intros (meta' & Hm & Hlen). rewrite (Hsame _ Hm) in Hlen. lia. }
    apply Z.ltb_ge in Hlong.
    eexists; split; [reflexivity|]. simpl. split; [intros _|reflexivity].
    exists meta. split; [now apply Hfirst|lia].
  - eexists; split; [reflexivity|]. simpl. split; [discriminate|].
    intros (meta' & Hm & _). apply Hfirst in Hm. discriminate.
Qed.

(** The H1 check passes exactly when the document has one [h1] element
    and its text is not empty; an [h2] never makes it pass. *)
Theorem h1_passes_iff `{H : Html} {D : Type} (page : page_data) (doc : soup) :
  BeautifulSoup (pd_html page) = inr doc ->
  exists r : check_result D,
    check_has_h1_tag page = inr r /\
    (passed r = true <->
     exists h1, find_all "h1" doc = [h1] /\ get_text_strip h1 <> "").
Proof.
  intros Hdoc. unfold check_has_h1_tag. rewrite Hdoc. cbn [bind].
  destruct (find_all "h1" doc) as [|h1 more].
  - destruct (h2_candidate _); eexists; (split; [reflexivity|]); simpl;
      (split; [discriminate|]); intros (h & Hh & _); discriminate.
  - case_bool_decide as Hmany.
    + eexists; split; [reflexivity|]. simpl. split; [discriminate|].
      intros (h & [= -> ->] & _). simpl in Hmany. lia.
    + assert (more = []) as -> by (destruct more; [reflexivity|simpl in Hmany; lia]).
      case_bool_decide as Hempty; eexists; (split; [reflexivity|]); simpl.
      * split; [discriminate|]. intros (h & [= ->] & Hh). contradiction.
      * split; [intros _; eauto|reflexivity].
Qed.

(** The alt text check passes exactly when every [img] element has an
    [alt] attribute that is not blank; a document without images
    passes. *)
Theorem images_pass_iff `{H : Html} {D : Type} (page : page_data) (doc : soup) :
  BeautifulSoup (pd_html page) = inr doc ->
  exists r : check_result D,
    check_images_have_alt_text page = inr r /\
    (passed r = true <-> Forall has_alt_text (find_all "img" doc)).
Proof.
  intros Hdoc. unfold check_images_have_alt_text. rewrite Hdoc. cbn [bind].
  destruct (find_all "img" doc) as [|img images] eqn:Himages.
  - eexists; split; [reflexivity|]. simpl. split; [constructor|reflexivity].
  - pose proof (alt_issues_none (img :: images)) as Hnone.
    destruct (alt_issues (img :: images)) as [missing empty]. cbn [fst snd] in Hnone.
    case_bool_decide as Hzero.
    + eexists; split; [reflexivity|]. simpl. split; [intros _; now apply Hnone|reflexivity].
    + case_bool_decide; eexists; (split; [reflexivity|]); simpl;
        (split; [discriminate|]); intros Hall; apply Hnone in Hall; contradiction.
Qed.

End MarkupFacts.

(** ** The content analysis *)

Module ContentFacts.
Import Crawler Checks ContentAnalysis.

(** The readability score is one of eight values, and it is 0 exactly
    when the cleaned text has fewer than 100 characters; a failure of the
    text statistics gives 50. *)
Theorem readability_buckets `{H : Html} `{T : Text} (page : page_data) (doc : soup) :
  BeautifulSoup (pd_html page) = inr doc ->
  exists score,
    analyze_content_readability page = inr score /\
    score ∈ [0; 30; 50; 60; 70; 80; 90; 100] /\
    (score = 0 <-> Py.len (clean_text doc) < 100) /\
    ((exists e, flesch_reading_ease (clean_text doc) = inl e) ->
     100 <= Py.len (clean_text doc) -> score = 50).
Proof.
  intros Hdoc. unfold analyze_content_readability. rewrite Hdoc. cbn [bind].
  destruct (Py.len (clean_text doc) <? 100) eqn:Hlen;
    [apply Z.ltb_lt in Hlen|apply Z.ltb_ge in Hlen].
  - eexists; split; [reflexivity|]. split_and!; [set_solver|tauto|lia].
  - destruct (flesch_reading_ease (clean_text doc)) as [e|flesch].
    + eexists; split; [reflexivity|]. split_and!; [set_solver|lia|auto].
    + repeat match goal with |- context [if ?c then _ else _] => destruct c end;
        (eexists; split; [reflexivity|]);
        (split_and!; [set_solver|lia|intros [e He]; discriminate]).
Qed.

(** The structured data summary: the count is not negative, the
    richness lies between 0 and 100 and is at least 10 per schema (up to
    the cap), and without any schema it is at most 30. *)
Theorem structured_data_bounds `{H : Html} `{T : Text} (page : page_data) (doc : soup) :
  BeautifulSoup (pd_html page) = inr doc ->
  exists summary,
    analyze_structured_data page = inr summary /\
    0 <= schema_count summary /\
    0 <= richness_score summary <= 100 /\
    Z.min 100 (10 * schema_count summary) <= richness_score summary /\
    (schema_count summary = 0 -> richness_score summary <= 30).
Proof.
  intros Hdoc. unfold analyze_structured_data. rewrite Hdoc. cbn [bind ret].
  eexists; split; [reflexivity|]. cbn [schema_count richness_score]. lia.
Qed.

End ContentFacts.

(** ** The scorer: what a batch result holds *)

Module BatchFacts.
Import Crawler Checks ContentAnalysis Scoring ScoringFacts.

(** The names of the checks of a page result, in the order of the dict. *)
Definition check_names : list string :=
  [ "llm_content_analysis"; "llm_accessibility_analysis"; "llm_content_richness";
    "robots_txt_allows_crawling"; "meta_robots_allows_indexing"; "has_h1_tag";
    "has_meta_description"; "images_have_alt_text" ].

(** The pages of a list whose score satisfies [test]. *)
Definition pages_where (test : Z -> bool) (pages : list page_result) : Z :=
  Z.of_nat (length (filter (fun page => test (pr_score page) = true) pages)).

Lemma add_points_ge (checks : list (string * check)) (score : Z) :
  score <= add_points checks score.
Proof.
  rewrite add_points_spec. pose proof (passed_counts_nonneg checks). lia.
Qed.

Lemma add_points_cons (name : string) (c : check) (rest : list (string * check))
    (score : Z) :
  add_points ((name, c) :: rest) score =
  add_points rest
    (score + (if passed c then if Py.startswith name "llm_" then 25 else 15 else 0)).
Proof.
  simpl. destruct (passed c); [destruct (Py.startswith name "llm_")|];
    f_equal; lia.
Qed.

Section OnePage.

Context {H : Html} {T : Text} {L : Llm}.

Lemma score_page_url (page : page_data) (r : page_result) :
  score_page page = inr r -> pr_url r = pd_url page.
Proof.
  unfold score_page.
  destruct (check_robots_txt_allows_crawling page) as [e|robots]; [discriminate|].
  destruct (check_meta_robots_allows_indexing page) as [e|meta_robots]; [discriminate|].
  destruct (check_has_h1_tag page) as [e|h1]; [discriminate|].
  destruct (check_has_meta_description page) as [e|meta_description]; [discriminate|].
  destruct (check_images_have_alt_text page) as [e|alt_text]; [discriminate|].
  cbn [bind].
  destruct (analyze_content_readability page) as [e|readability]; [discriminate|].
  destruct (analyze_structured_data page) as [e|richness]; [discriminate|].
  cbn [bind ret]. now intros [= <-].
Qed.

Lemma score_page_names (page : page_data) (r : page_result) :
  score_page page = inr r -> fst <$> pr_checks r = check_names.
Proof.
  intros Hr. destruct (score_page_inv page r Hr)
    as (? & ? & ? & ? & ? & ? & ? & ? & -> & _). reflexivity.
Qed.

Lemma score_page_range (page : page_data) (r : page_result) :
  score_page page = inr r -> 25 <= pr_score r <= 100.
Proof.
  intros Hr. destruct (score_page_inv page r Hr)
    as (c1 & c3 & c4 & c5 & c6 & c7 & c8 & msg & Hchecks & Hscore).
  rewrite Hscore, Hchecks. do 2 rewrite add_points_cons. cbn [passed].
  change (Py.startswith "llm_accessibility_analysis" "llm_") with true. cbn match.
  match goal with
  | |- context [add_points ?rest ?a] => pose proof (add_points_ge rest a)
  end.
  destruct (passed c1); destruct (Py.startswith "llm_content_analysis" "llm_"); lia.
Qed.

End OnePage.

Section Batch.

Context {H : Html} {T : Text} {L : Llm}.

Lemma score_all_results (pages_data : list page_data) (acc acc' : totals) :
  score_all pages_data acc = inr acc' ->
  exists results,
    t_pages acc' = t_pages acc ++ results /\
    Forall2 (fun page result => score_page page = inr result) pages_data results /\
    t_breakdown acc' =
      foldl (fun b result => categorize (pr_score result) b) (t_breakdown acc) results.
Proof.
  revert acc. induction pages_data as [|page rest IH]; intros acc; simpl.
  - intros [= <-]. exists []. rewrite app_nil_r. split_and!; auto.
  - destruct (score_page page) as [e|r] eqn:Hr; [discriminate|]. simpl.
    intros Hrest. destruct (IH _ Hrest) as (results & Hpages & Hall & Hb).
    cbn [t_pages t_breakdown] in Hpages, Hb. exists (r :: results). split_and!.
    + rewrite Hpages, <- app_assoc. reflexivity.
    + now constructor.
    + exact Hb.
Qed.

Lemma calculate_scores_results (pages_data : list page_data) (r : site_results) :
  calculate_scores pages_data = inr r ->
  Forall2 (fun page result => score_page page = inr result) pages_data (sr_pages r) /\
  sr_breakdown r =
    foldl (fun b result => categorize (pr_score result) b) (Breakdown 0 0 0) (sr_pages r).
Proof.
  unfold calculate_scores.
  destruct (score_all pages_data _) as [e|acc] eqn:Hall; [discriminate|].
  destruct (score_all_results _ _ _ Hall) as (results & Hpages & Hres & Hb).
  cbn [t_pages t_breakdown app] in Hpages, Hb. cbn [bind].
  destruct (0 <? count_of pages_data); destruct (oa_success _);
    (destruct (generate_ai_powered_recommendations _ _)
     || destruct (generate_recommendations _ _ _));
    try discriminate; cbn [bind ret]; intros [= <-]; cbn [sr_pages sr_breakdown];
    rewrite Hpages; split; assumption.
Qed.

End Batch.

Lemma categorize_counts (pages : list page_result) (b : breakdown) :
  let final := foldl (fun b result => categorize (pr_score result) b) b pages in
  high_accessibility final
    = high_accessibility b + pages_where (fun s => 80 <=? s) pages /\
  medium_accessibility final
    = medium_accessibility b + pages_where (fun s => (50 <=? s) && (s <? 80)) pages /\
  low_accessibility final
    = low_accessibility b + pages_where (fun s => s <? 50) pages.
Proof.
  unfold pages_where. revert b. induction pages as [|page pages IH]; intros b.
  { rewrite !filter_nil. simpl. lia. }
  cbn [foldl]. specialize (IH (categorize (pr_score page) b)). cbn zeta in IH |- *.
  destruct IH as (Hh & Hm & Hl). rewrite Hh, Hm, Hl. rewrite !filter_cons.
  unfold categorize.
  destruct (80 <=? pr_score page) eqn:H80; destruct (50 <=? pr_score page) eqn:H50;
    destruct (pr_score page <? 80) eqn:H80'; destruct (pr_score page <? 50) eqn:H50';
    try (apply Z.leb_le in H80); try (apply Z.leb_gt in H80);
    try (apply Z.leb_le in H50); try (apply Z.leb_gt in H50);
    try (apply Z.ltb_lt in H80'); try (apply Z.ltb_ge in H80');
    try (apply Z.ltb_lt in H50'); try (apply Z.ltb_ge in H50'); try lia;
    repeat (destruct (decide _); try discriminate; try contradiction);
    cbn [high_accessibility medium_accessibility low_accessibility length]; lia.
Qed.

Lemma sum_scores_bounds (lo hi : Z) (pages : list page_result) :
  Forall (fun page => lo <= pr_score page <= hi) pages ->
  lo * Z.of_nat (length pages) <= sum_scores pages <= hi * Z.of_nat (length pages).
Proof.
  induction 1 as [|page pages Hpage _ IH]; [unfold sum_scores; simpl; lia|].
  change (page :: pages) with ([page] ++ pages).
  rewrite sum_scores_app, length_app, Nat2Z.inj_add.
  unfold sum_scores at 1 3. simpl. lia.
Qed.

Lemma round_div_bounds (lo hi a n : Z) :
  0 < n -> lo * n <= a <= hi * n -> lo <= Py.round_div a n <= hi.
Proof.
  intros Hn Ha. pose proof (round_div_nearest a n Hn) as Hnear.
  apply Z.abs_le in Hnear. split; nia.
Qed.

(** Whenever [calculate_scores] returns, the page results are those of
    the pages given, one for each and in the same order. *)
Theorem calculate_scores_keeps_order `{H : Html} `{T : Text} `{L : Llm}
    (pages_data : list page_data) (r : site_results) :
  calculate_scores pages_data = inr r ->
  pr_url <$> sr_pages r = pd_url <$> pages_data.
Proof.
  intros Hr. destruct (calculate_scores_results pages_data r Hr) as [Hall _].
  clear Hr. generalize dependent (sr_pages r). intros results Hall.
  induction Hall as [|page result pages results' Hpage _ IH]; [reflexivity|].
  rewrite !fmap_cons, IH, (score_page_url page result Hpage). reflexivity.
Qed.

(** The accessibility breakdown counts the pages scoring at least 80,
    those scoring 50 to 79 and those below 50; the three counts add up
    to the number of pages. *)
Theorem breakdown_partitions `{H : Html} `{T : Text} `{L : Llm}
    (pages_data : list page_data) (r : site_results) :
  calculate_scores pages_data = inr r ->
  high_accessibility (sr_breakdown r) = pages_where (fun s => 80 <=? s) (sr_pages r) /\
  medium_accessibility (sr_breakdown r)
    = pages_where (fun s => (50 <=? s) && (s <? 80)) (sr_pages r) /\
  low_accessibility (sr_breakdown r) = pages_where (fun s => s <? 50) (sr_pages r) /\
  high_accessibility (sr_breakdown r) + medium_accessibility (sr_breakdown r)
    + low_accessibility (sr_breakdown r) = Z.of_nat (length pages_data).
Proof.
  intros Hr. destruct (calculate_scores_results pages_data r Hr) as [Hall ->].
  destruct (categorize_counts (sr_pages r) (Breakdown 0 0 0)) as (Hh & Hm & Hl).
  cbn zeta in Hh, Hm, Hl. cbn [high_accessibility medium_accessibility low_accessibility]
    in Hh, Hm, Hl.
  rewrite Hh, Hm, Hl. split_and!; try lia.
  rewrite (Forall2_length _ _ _ Hall). clear.
  unfold pages_where. induction (sr_pages r) as [|page pages IH].
  { rewrite !filter_nil. simpl. lia. }
  rewrite !filter_cons.
  destruct (80 <=? pr_score page) eqn:H80; destruct (50 <=? pr_score page) eqn:H50;
    destruct (pr_score page <? 80) eqn:H80'; destruct (pr_score page <? 50) eqn:H50';
    try (apply Z.leb_le in H80); try (apply Z.leb_gt in H80);
    try (apply Z.leb_le in H50); try (apply Z.leb_gt in H50);
    try (apply Z.ltb_lt in H80'); try (apply Z.ltb_ge in H80');
    try (apply Z.ltb_lt in H50'); try (apply Z.ltb_ge in H50'); try lia;
    repeat (destruct (decide _); try discriminate; try contradiction);
    cbn [length]; lia.
Qed.

Lemma site_score_between `{H : Html} `{T : Text} `{L : Llm}
    (pages_data : list page_data) (r : site_results) :
  calculate_scores pages_data = inr r ->
  (pages_data = [] /\ sr_site_score r = 0)
  \/ (pages_data <> [] /\ 25 <= sr_site_score r <= 100).
Proof.
  intros Hr.
  destruct (calculate_scores_results pages_data r Hr) as [Hall _].
  destruct (calculate_scores_inv pages_data r Hr) as [_ ->].
  pose proof (calculate_scores_length pages_data r Hr) as Hlen.
  destruct pages_data as [|page pages]; [left; split; reflexivity|right].
  split; [discriminate|].
  assert (Hpos : 0 < Z.of_nat (length (page :: pages))) by (simpl; lia).
  rewrite (proj2 (Z.ltb_lt _ _) Hpos).
  apply round_div_bounds; [exact Hpos|]. rewrite <- Hlen.
  apply sum_scores_bounds. apply Forall_forall. intros result Hin.
  apply list_elem_of_lookup in Hin as [i Hi].
  destruct (Forall2_lookup_r _ _ _ _ _ Hall Hi) as (page' & _ & Hpage).
  exact (score_page_range page' result Hpage).
Qed.

(** For a list of at least one page, the site score that
    [calculate_scores] returns lies between 25 and 100. *)
Theorem site_score_range `{H : Html} `{T : Text} `{L : Llm}
    (pages_data : list page_data) (r : site_results) :
  pages_data <> [] ->
  calculate_scores pages_data = inr r ->
  25 <= sr_site_score r <= 100.
Proof.
  intros Hne Hr. destruct (site_score_between pages_data r Hr) as [[-> _]|[_ Hrange]];
    [contradiction|exact Hrange].
Qed.

End BatchFacts.

(** ** The recommendations *)

Module AdviceFacts.
Import Crawler Checks ContentAnalysis Scoring ScoringFacts BatchFacts.

(** The page fails the check called [name]. *)
Definition failed_on (name : string) (page : page_result) : bool :=
  match checks_get name (pr_checks page) with
  | Some c => negb (passed c)
  | None => false
  end.

(** The number of pages that fail the check called [name]. *)
Definition failing (name : string) (pages : list page_result) : Z :=
  Z.of_nat (length (filter (fun page => failed_on name page = true) pages)).

(** The page result has the eight checks of [score_page]. *)
Definition scored_page (page : page_result) : Prop :=
  fst <$> pr_checks page = check_names.

Lemma checks_get_is_some (name : string) (checks : list (string * check)) :
  name ∈ fst <$> checks -> is_Some (checks_get name checks).
Proof.
  induction checks as [|[k c] rest IH]; [intros Hin; inversion Hin|].
  rewrite fmap_cons, elem_of_cons. cbn [fst checks_get]. intros Hin.
  case_bool_decide as Hk; [eauto|]. destruct Hin as [->|Hin]; [contradiction|auto].
Qed.

Lemma failing_bounds (name : string) (pages : list page_result) :
  0 <= failing name pages <= Z.of_nat (length pages).
Proof.
  unfold failing. pose proof (length_filter (fun page => failed_on name page = true) pages).
  lia.
Qed.

Section Advice.

Context {H : Html} {T : Text} {L : Llm}.

Lemma count_failed_scored (name : string) (pages : list page_result) :
  name ∈ check_names ->
  Forall scored_page pages ->
  count_failed name pages = inr (failing name pages).
Proof.
  intros Hname. unfold failing. induction 1 as [|page pages Hpage _ IH]; [reflexivity|].
  cbn [count_failed]. rewrite IH. unfold check_passed.
  rewrite filter_cons.
  destruct (checks_get_is_some name (pr_checks page)) as [c Hc].
  { unfold scored_page in Hpage. now rewrite Hpage. }
  assert (Hf : failed_on name page = negb (passed c)) by (unfold failed_on; now rewrite Hc).
  rewrite Hc. cbn [bind ret]. f_equal.
  destruct (decide (failed_on name page = true)) as [Hd|Hd]; rewrite Hf in Hd;
    destruct (passed c); try discriminate; try (exfalso; now apply Hd);
    cbn [length]; lia.
Qed.

Lemma score_all_total (pages_data : list page_data) (acc : totals) :
  Forall (fun page => exists r, score_page page = inr r) pages_data ->
  exists acc', score_all pages_data acc = inr acc'.
Proof.
  intros Hall. revert acc. induction Hall as [|page pages [r Hr] _ IH]; intros acc; simpl.
  - eauto.
  - rewrite Hr. simpl. apply IH.
Qed.

Lemma generate_recommendations_scored (pages : list page_result)
    (avg_readability total_schemas : Z) :
  Forall scored_page pages ->
  exists recs,
    generate_recommendations pages avg_readability total_schemas = inr recs /\
    (critical recs = [] <->
     failing "robots_txt_allows_crawling" pages = 0 /\
     failing "meta_robots_allows_indexing" pages = 0 /\
     2 * failing "has_h1_tag" pages <= Z.of_nat (length pages)) /\
    (important recs = [] <->
     failing "has_meta_description" pages = 0 /\
     failing "images_have_alt_text" pages = 0) /\
    (suggested recs = [] <-> 70 <= avg_readability /\ total_schemas <> 0) /\
    (length (critical recs) <= 3)%nat /\
    (length (important recs) <= 2)%nat /\
    (length (suggested recs) <= 2)%nat.
Proof.
  intros Hpages. unfold generate_recommendations.
  rewrite !(count_failed_scored _ pages) by (assumption || (unfold check_names; set_solver)).
  cbn [bind ret]. eexists. split; [reflexivity|].
  cbn [critical important suggested]. unfold count_of, append_if.
  pose proof (failing_bounds "robots_txt_allows_crawling" pages).
  pose proof (failing_bounds "meta_robots_allows_indexing" pages).
  pose proof (failing_bounds "has_h1_tag" pages).
  pose proof (failing_bounds "has_meta_description" pages).
  pose proof (failing_bounds "images_have_alt_text" pages).
  repeat match goal with
         | |- context [if ?a <? ?b then _ else _] =>
             let Hc := fresh "Hc" in
             destruct (a <? b) eqn:Hc;
             [apply Z.ltb_lt in Hc|apply Z.ltb_ge in Hc]
         | |- context [if ?a =? ?b then _ else _] =>
             let Hc := fresh "Hc" in
             destruct (a =? b) eqn:Hc;
             [apply Z.eqb_eq in Hc|apply Z.eqb_neq in Hc]
         end;
    cbn [app length];
    (split_and!; [split; [try discriminate; intros _|intros ?; try reflexivity]; try lia..
                 | lia | lia | lia]).
Qed.

End Advice.

Lemma append_if_prefix (cond : bool) (text : string) (l : list string) :
  l `prefix_of` append_if cond text l.
Proof. unfold append_if. destruct cond; [now exists [text]|reflexivity]. Qed.

(** On page results of [score_page], [generate_recommendations]
    returns; it lists nothing as critical exactly when no page is blocked
    by robots.txt or by a noindex tag and at most half of the pages fail
    the H1 check, nothing as important exactly when no page fails the
    description or the alt text check, and nothing as suggested exactly
    when the average readability is at least 70 and some schema was
    found; the tiers hold at most 3, 2 and 2 entries. *)
Theorem recommendations_by_tier `{H : Html} `{T : Text} `{L : Llm}
    (pages : list page_result) (avg_readability total_schemas : Z) :
  Forall (fun result => exists page, score_page page = inr result) pages ->
  exists recs,
    generate_recommendations pages avg_readability total_schemas = inr recs /\
    (critical recs = [] <->
     failing "robots_txt_allows_crawling" pages = 0 /\
     failing "meta_robots_allows_indexing" pages = 0 /\
     2 * failing "has_h1_tag" pages <= Z.of_nat (length pages)) /\
    (important recs = [] <->
     failing "has_meta_description" pages = 0 /\
     failing "images_have_alt_text" pages = 0) /\
    (suggested recs = [] <-> 70 <= avg_readability /\ total_schemas <> 0) /\
    (length (critical recs) <= 3)%nat /\
    (length (important recs) <= 2)%nat /\
    (length (suggested recs) <= 2)%nat.
Proof.
  intros Hpages. apply generate_recommendations_scored.
  eapply Forall_impl; [exact Hpages|].
  intros result [page Hpage]. exact (score_page_names page result Hpage).
Qed.

(** On page results of [score_page], the AI-powered recommendations
    raise exactly when some page fails the description check while at
    most half of the pages fail the H1 check: [sample_pages] is then
    read without having been assigned. *)
Theorem ai_recommendations_raise_iff `{H : Html} `{T : Text} `{L : Llm}
    (pages : list page_result) (analysis : openai_analysis) :
  Forall (fun result => exists page, score_page page = inr result) pages ->
  (exists e, generate_ai_powered_recommendations pages analysis = inl e) <->
  0 < failing "has_meta_description" pages
  /\ 2 * failing "has_h1_tag" pages <= Z.of_nat (length pages).
Proof.
  intros Hpages.
  assert (Hscored : Forall scored_page pages).
  { eapply Forall_impl; [exact Hpages|].
    intros result [page Hpage]. exact (score_page_names page result Hpage). }
  unfold generate_ai_powered_recommendations.
  rewrite !(count_failed_scored _ pages) by (assumption || (unfold check_names; set_solver)).
  cbn [bind ret]. unfold count_of.
  destruct (0 <? failing "has_meta_description" pages) eqn:Hdesc;
    [apply Z.ltb_lt in Hdesc|apply Z.ltb_ge in Hdesc];
    (destruct (Z.of_nat (length pages) <? 2 * failing "has_h1_tag" pages) eqn:Hh1;
     [apply Z.ltb_lt in Hh1|apply Z.ltb_ge in Hh1]);
    cbn [bind ret raise]; split;
    try (intros [e He]; discriminate); try lia; eauto.
Qed.

(** Whenever the AI-powered recommendations return, none of the AI's
    own recommendations is lost: the first three open the critical tier,
    the next three open the important tier and the rest are the
    suggested tier. *)
Theorem ai_recommendations_kept `{H : Html} `{T : Text} `{L : Llm}
    (pages : list page_result) (analysis : openai_analysis) (recs : recommendations) :
  generate_ai_powered_recommendations pages analysis = inr recs ->
  (ai_insight <$> take 3 (oa_recommendations analysis)) `prefix_of` critical recs /\
  (ai_insight <$> take 3 (drop 3 (oa_recommendations analysis)))
    `prefix_of` important recs /\
  suggested recs = ai_insight <$> drop 6 (oa_recommendations analysis).
Proof.
  unfold generate_ai_powered_recommendations.
  destruct (count_failed "robots_txt_allows_crawling" pages) as [e|robots];
    [discriminate|].
  destruct (count_failed "has_h1_tag" pages) as [e|h1]; [discriminate|].
  destruct (count_failed "has_meta_description" pages) as [e|desc]; [discriminate|].
  cbn [bind].
  set (first_three := ai_insight <$> take 3 (oa_recommendations analysis)).
  set (next_three := ai_insight <$> take 3 (drop 3 (oa_recommendations analysis))).
  assert (Hcritical : forall a b t1 t2,
             first_three `prefix_of` append_if b t2 (append_if a t1 first_three)).
  { intros a b t1 t2. etransitivity; apply append_if_prefix. }
  destruct (0 <? desc).
  - destruct (count_of pages <? 2 * h1); [|discriminate]. cbn [bind ret].
    destruct (count_failed "images_have_alt_text" pages) as [e|alt]; [discriminate|].
    cbn [bind ret]. intros [= <-]. cbn [critical important suggested].
    unfold append_if at 1.
    split_and!; [apply prefix_app_r, append_if_prefix| |reflexivity].
    etransitivity; [|apply append_if_prefix]. now apply prefix_app_r.
  - cbn [bind ret].
    destruct (count_failed "images_have_alt_text" pages) as [e|alt]; [discriminate|].
    cbn [bind ret]. intros [= <-]. cbn [critical important suggested].
    split_and!; [apply Hcritical|apply append_if_prefix|reflexivity].
Qed.

(** [calculate_scores] returns for every list of pages whose markup
    the parser accepts and whose URL has an origin, when the AI analysis
    reports no success. *)
Theorem calculate_scores_returns `{H : Html} `{T : Text} `{L : Llm}
    (pages_data : list page_data) :
  Forall (fun page => exists html doc base,
                        pd_html page = Some html /\ html_parser html = inr doc /\
                        base_url_of (pd_url page) = inr base) pages_data ->
  oa_success (scrape_website_with_openai pages_data) = false ->
  exists r, calculate_scores pages_data = inr r.
Proof.
  intros Hpages Hoff. unfold calculate_scores.
  destruct (score_all_total pages_data (Totals [] 0 0 0 0 (Breakdown 0 0 0)))
    as [acc Hacc].
  { eapply Forall_impl; [exact Hpages|].
    intros page (html & doc & base & Hhtml & Hdoc & Hbase).
    exact (score_page_returns page html base doc Hhtml Hdoc Hbase). }
  rewrite Hacc. cbn [bind]. rewrite Hoff.
  destruct (score_all_results _ _ _ Hacc) as (results & Hres & Hall & _).
  cbn [t_pages app] in Hres.
  assert (Hscored : Forall scored_page (t_pages acc)).
  { rewrite Hres. apply Forall_forall. intros result Hin.
    apply list_elem_of_lookup in Hin as [i Hi].
    destruct (Forall2_lookup_r _ _ _ _ _ Hall Hi) as (page & _ & Hpage).
    exact (score_page_names page result Hpage). }
  destruct (0 <? count_of pages_data);
    match goal with
    | |- context [generate_recommendations ?p ?a ?t] =>
        destruct (generate_recommendations_scored p a t Hscored) as (recs & -> & _)
    end; cbn [bind ret]; eauto.
Qed.

End AdviceFacts.

(** ** The richness score *)

Module RichnessFacts.
Import Scoring LlmScraper.

(** The page has no description, or an empty one. *)
Definition no_description (content : scraped_content) : Prop :=
  sc_description content = None \/ sc_description content = Some "".

(** [content] with one more structured data item. *)
Definition add_structured_data (item : blob) (content : scraped_content)
    : scraped_content :=
  ScrapedContent (sc_title content) (sc_headings content) (sc_main_content content)
    (item :: sc_structured_data content) (sc_images_with_context content)
    (sc_lists_content content) (sc_description content).

Lemma count_of_zero {A} (l : list A) : count_of l = 0 <-> l = [].
Proof. unfold count_of. destruct l; simpl; [tauto|]. split; [lia|discriminate]. Qed.

Lemma count_of_nonneg {A} (l : list A) : 0 <= count_of l.
Proof. unfold count_of. lia. Qed.

(** The score before the cap. *)
Lemma richness_parts (content : scraped_content) :
  exists title headings words description,
    calculate_llm_content_richness content =
      Z.min 100 (title + headings + words
                 + count_of (sc_structured_data content) * 15
                 + count_of (sc_images_with_context content) * 2
                 + count_of (sc_lists_content content) * 3 + description) /\
    0 <= title /\ (title = 0 <-> sc_title content = "") /\
    0 <= headings /\ (headings = 0 <-> sc_headings content = []) /\
    0 <= words /\
    (words = 0 <-> Py.count_words false (sc_main_content content) <= 100) /\
    0 <= description /\ (description = 0 <-> no_description content).
Proof.
  unfold calculate_llm_content_richness, no_description.
  exists (if bool_decide (sc_title content = "") then 0
          else if 10 <? Py.len (sc_title content) then 15 else 10).
  exists (match sc_headings content with
          | [] => 0
          | _ => count_of (sc_headings content) * 3
                 + (if count_of (filter (fun h => fst h = 1) (sc_headings content)) =? 1
                    then 10 else 0)
          end).
  exists (if bool_decide (sc_main_content content = "") then 0
          else (if 100 <? Py.count_words false (sc_main_content content) then 15 else 0)
               + (if 500 <? Py.count_words false (sc_main_content content) then 10 else 0)
               + (if 1000 <? Py.count_words false (sc_main_content content) then 5 else 0)).
  exists (match sc_description content with
          | Some text => if bool_decide (text = "") then 0 else 8
          | None => 0
          end).
  split_and!.
  - f_equal.
    destruct (bool_decide (sc_title content = ""));
      destruct (10 <? Py.len (sc_title content));
      destruct (sc_headings content) as [|h hs];
      try destruct (count_of (filter _ (h :: hs)) =? 1);
      destruct (bool_decide (sc_main_content content = ""));
      destruct (100 <? Py.count_words false (sc_main_content content));
      destruct (500 <? Py.count_words false (sc_main_content content));
      destruct (1000 <? Py.count_words false (sc_main_content content));
      destruct (sc_description content) as [text|];
      try destruct (bool_decide (text = "")); lia.
  - case_bool_decide; [lia|]. destruct (10 <? _); lia.
  - case_bool_decide as Ht; [tauto|]. destruct (10 <? _); split; (lia || contradiction).
  - destruct (sc_headings content) as [|h hs]; [lia|].
    pose proof (count_of_nonneg (h :: hs)). destruct (_ =? 1); lia.
  - destruct (sc_headings content) as [|h hs]; [tauto|].
    assert (0 < count_of (h :: hs)) by (unfold count_of; simpl; lia).
    destruct (_ =? 1); split; (lia || discriminate).
  - case_bool_decide; [lia|].
    destruct (100 <? _); destruct (500 <? _); destruct (1000 <? _); lia.
  - case_bool_decide as Hm.
    + rewrite Hm. simpl. lia.
    + destruct (100 <? Py.count_words false (sc_main_content content)) eqn:H100;
        destruct (500 <? Py.count_words false (sc_main_content content)) eqn:H500;
        destruct (1000 <? Py.count_words false (sc_main_content content)) eqn:H1000;
        try (apply Z.ltb_lt in H100); try (apply Z.ltb_ge in H100);
        try (apply Z.ltb_lt in H500); try (apply Z.ltb_ge in H500);
        try (apply Z.ltb_lt in H1000); try (apply Z.ltb_ge in H1000); lia.
  - destruct (sc_description content) as [text|]; [case_bool_decide|]; lia.
  - destruct (sc_description content) as [text|]; [case_bool_decide as Ht|].
    + subst. tauto.
    + split; [lia|]. intros [?|[= ?]]; [discriminate|contradiction].
    + tauto.
Qed.

(** The richness score lies between 0 and 100; it is 0 exactly for a
    page without title, headings, structured data, images with
    context, lists and description and with at most 100 words; seven
    structured data items alone give 100. *)
Theorem richness_bounds (content : scraped_content) :
  0 <= calculate_llm_content_richness content <= 100 /\
  (calculate_llm_content_richness content = 0 <->
   sc_title content = "" /\ sc_headings content = [] /\
   Py.count_words false (sc_main_content content) <= 100 /\
   sc_structured_data content = [] /\ sc_images_with_context content = [] /\
   sc_lists_content content = [] /\ no_description content) /\
  (7 <= count_of (sc_structured_data content) ->
   calculate_llm_content_richness content = 100).
Proof.
  destruct (richness_parts content)
    as (title & headings & words & description & -> & Ht & Ht0 & Hh & Hh0 & Hw & Hw0
        & Hd & Hd0).
  pose proof (count_of_nonneg (sc_structured_data content)).
  pose proof (count_of_nonneg (sc_images_with_context content)).
  pose proof (count_of_nonneg (sc_lists_content content)).
  rewrite <- Ht0, <- Hh0, <- Hw0, <- Hd0.
  rewrite <- !count_of_zero. split_and!; lia.
Qed.

(** One more structured data item never lowers the richness score. *)
Theorem richness_grows_with_structured_data (item : blob) (content : scraped_content) :
  calculate_llm_content_richness content
  <= calculate_llm_content_richness (add_structured_data item content).
Proof.
  unfold calculate_llm_content_richness, add_structured_data.
  cbn [sc_title sc_headings sc_main_content sc_structured_data sc_images_with_context
       sc_lists_content sc_description].
  assert (Hmore : count_of (item :: sc_structured_data content)
                  = count_of (sc_structured_data content) + 1)
    by (unfold count_of; simpl; lia).
  rewrite Hmore.
  destruct (bool_decide (sc_title content = ""));
    destruct (10 <? Py.len (sc_title content));
    destruct (sc_headings content) as [|h hs];
    try destruct (count_of (filter _ (h :: hs)) =? 1);
    destruct (bool_decide (sc_main_content content = ""));
    destruct (100 <? Py.count_words false (sc_main_content content));
    destruct (500 <? Py.count_words false (sc_main_content content));
    destruct (1000 <? Py.count_words false (sc_main_content content));
    destruct (sc_description content) as [text|];
    try destruct (bool_decide (text = "")); lia.
Qed.

End RichnessFacts.

(** ** The readable content of a page *)

Module ReadableFacts.
Import Crawler Checks LlmAnalysis.

(** The weighted count of what a model reads with ease, before the cap
    at 50. *)
Definition readable_points (a : readable_analysis) : Z :=
  ra_headings a * 3 + ra_paragraphs a * 2 + ra_lists a * 2
  + ra_alt_text_images a * 2 + ra_structured_data a * 5.

(** The weighted counts of what is hard and of what is closed to a
    model, before their caps at 20 and 30. *)
Definition penalty_points (a : readable_analysis) : Z :=
  Z.min 20 (ra_tables a * 2 + ra_forms a * 1 + ra_images_without_alt a * 3)
  + Z.min 30 (ra_canvas_elements a * 5 + ra_media_elements a * 3
              + ra_javascript_dependent a * 2).

Lemma n_of_nonneg (tags : list tag) : 0 <= n_of tags.
Proof. unfold n_of. lia. Qed.

Lemma n_of_split (P : tag -> bool) (tags : list tag) :
  n_of (filter (fun t => P t = true) tags) + n_of (filter (fun t => P t = false) tags)
  = n_of tags.
Proof.
  unfold n_of. induction tags as [|t tags IH]; [reflexivity|].
  rewrite !filter_cons.
  destruct (decide (P t = true)) as [Ht|Ht]; destruct (decide (P t = false)) as [Hf|Hf];
    cbn [length]; try lia.
  - congruence.
  - destruct (P t); congruence.
Qed.

Section Readable.

Context {H : Html} {G : Document}.

Lemma analyse_soup_counts (doc : soup) :
  let a := analyse_soup doc in
  0 <= ra_headings a /\ 0 <= ra_paragraphs a /\ 0 <= ra_lists a /\
  0 <= ra_alt_text_images a /\ 0 <= ra_structured_data a /\
  0 <= ra_tables a /\ 0 <= ra_forms a /\ 0 <= ra_images_without_alt a /\
  0 <= ra_canvas_elements a /\ 0 <= ra_media_elements a /\
  0 <= ra_javascript_dependent a /\
  ra_alt_text_images a + ra_images_without_alt a = n_of (find_all "img" doc) /\
  ra_llm_readiness_score a = Z.max 0 (Z.min 50 (readable_points a) - penalty_points a).
Proof.
  unfold analyse_soup, readable_points, penalty_points.
  cbn [ra_headings ra_paragraphs ra_lists ra_alt_text_images ra_structured_data
       ra_tables ra_forms ra_images_without_alt ra_canvas_elements ra_media_elements
       ra_javascript_dependent ra_llm_readiness_score].
  split_and!; try apply n_of_nonneg.
  - apply (n_of_split alt_given).
  - f_equal. lia.
Qed.

End Readable.

(** [extract_llm_readable_content] always answers.  When the markup
    cannot be parsed the check fails and carries no analysis.  Otherwise
    it carries the analysis: every image is counted once, with or without
    alt text; the score lies between 0 and 50 and is at most the weighted
    count of headings, paragraphs, lists, described images and structured
    data, less the two capped penalties; and the check passes exactly
    when the score is at least 20. *)
Theorem readable_content_verdict `{H : Html} `{G : Document}
    (html : option string) (url : string) :
  let r := extract_llm_readable_content html url in
  match BeautifulSoup html, data r with
  | inl e, Some NoAnalysis =>
      passed r = false /\ message r = "Error analyzing LLM content: " +:+ e
  | inr doc, Some (Analysis a) =>
      a = analyse_soup doc /\
      ra_alt_text_images a + ra_images_without_alt a = n_of (find_all "img" doc) /\
      0 <= ra_llm_readiness_score a <= 50 /\
      ra_llm_readiness_score a = Z.max 0 (Z.min 50 (readable_points a) - penalty_points a) /\
      (passed r = true <-> 20 <= ra_llm_readiness_score a) /\
      (passed r = true -> 20 + penalty_points a <= readable_points a)
  | _, _ => False
  end.
Proof.
  unfold extract_llm_readable_content.
  destruct (BeautifulSoup html) as [e|doc]; [split; reflexivity|].
  destruct (analyse_soup_counts doc)
    as (Hh & Hp & Hl & Ha & Hs & Ht & Hf & Hi & Hc & Hm & Hj & Himg & Hscore).
  cbn zeta in Hh, Hp, Hl, Ha, Hs, Ht, Hf, Hi, Hc, Hm, Hj, Himg, Hscore.
  assert (Hpen : 0 <= penalty_points (analyse_soup doc)) by (unfold penalty_points; lia).
  assert (Hrange : 0 <= ra_llm_readiness_score (analyse_soup doc) <= 50) by lia.
  assert (Hneed : 20 <= ra_llm_readiness_score (analyse_soup doc) ->
                  20 + penalty_points (analyse_soup doc)
                  <= readable_points (analyse_soup doc)) by lia.
  destruct (35 <=? ra_llm_readiness_score (analyse_soup doc)) eqn:H35;
    [apply Z.leb_le in H35|apply Z.leb_gt in H35];
    [|destruct (20 <=? ra_llm_readiness_score (analyse_soup doc)) eqn:H20;
      [apply Z.leb_le in H20|apply Z.leb_gt in H20]];
    cbn [data passed]; split_and!; try assumption; try reflexivity; try lia;
    try (split; [intros _; lia|intros _; reflexivity]);
    try (split; [intros Hp; discriminate Hp|intros ?; lia]);
    try (intros _; apply Hneed; lia);
    intros Hp; discriminate Hp.
Qed.

End ReadableFacts.

(** ** The audit route of the web application *)

Module WebFacts.
Import Crawler Checks ContentAnalysis Scoring Cli WebApp.
Import CrawlerFacts ScoringFacts CrawlOrder BatchFacts.

Lemma crawl_site_count `{W : Web} (max_depth : Z) (start_url : string)
    (pages : list page_data) :
  crawl_site max_depth start_url = inr pages -> 0 <= count_of pages <= 50.
Proof.
  intros Hpages. rewrite (crawl_site_returned max_depth start_url pages Hpages).
  assert (Hcap : (length (pages_data (crawl_final max_depth start_url)) <= 50)%nat).
  { apply (crawl_reachable_invariant max_depth
             (fun st => (length (pages_data st) <= 50)%nat)).
    - simpl. lia.
    - intros st st' _ Hs. apply (crawl_step_pages_length _ _ _ Hs). }
  unfold count_of. lia.
Qed.

Lemma crawl_site_unreachable `{W : Web} (max_depth : Z) (start_url first_url : string) :
  Url.urldefrag (normalize_start start_url) = inr first_url ->
  max_depth < 0 \/ (exists e, fetch first_url = inl e) ->
  crawl_site max_depth start_url = inr [].
Proof.
  intros Hfirst Hwhy. unfold crawl_site, crawl_final.
  rewrite crawl_loop_eq, crawl_first_step, Hfirst.
  destruct (max_depth <? 0) eqn:Hd; [apply Z.ltb_lt in Hd|apply Z.ltb_ge in Hd].
  - now rewrite crawl_loop_empty_queue.
  - destruct Hwhy as [Hneg|[e He]]; [lia|]. rewrite He.
    now rewrite crawl_loop_empty_queue.
Qed.

Lemma normalize_start_twice (url : string) :
  normalize_start (normalize_start url) = normalize_start url.
Proof.
  unfold normalize_start at 1.
  assert (Hscheme : String.prefix "http://" (normalize_start url)
                    || String.prefix "https://" (normalize_start url) = true).
  { unfold normalize_start.
    destruct (String.prefix "http://" url || String.prefix "https://" url) eqn:Hp;
      [exact Hp|]. apply orb_true_iff. right. now destruct url. }
  now rewrite Hscheme.
Qed.

(** The crawler puts the scheme in front itself: doing it before the
    call changes nothing. *)
Lemma crawl_site_normalized `{W : Web} (max_depth : Z) (url : string) :
  crawl_site max_depth (normalize_start url) = crawl_site max_depth url.
Proof.
  unfold crawl_site, crawl_final, crawl_init. now rewrite normalize_start_twice.
Qed.

(** The values without a truth. *)
Lemma truth_false (v : json) :
  truth v = false <->
  v = JNull \/ v = JBool false \/ v = JInt 0 \/ (exists den, v = JFloat 0 den)
  \/ v = JString "" \/ v = JArray [] \/ v = JObject [].
Proof.
  split.
  - destruct v as [|[]|n|num den| |negative|s|[|item items]|[|field fields]];
      cbn [truth]; try discriminate; auto 8.
    + intros Hn. apply negb_false_iff, Z.eqb_eq in Hn. subst. auto.
    + intros Hn. apply negb_false_iff, Z.eqb_eq in Hn. subst. eauto 8.
    + intros Hs. apply negb_false_iff, bool_decide_eq_true in Hs. subst. auto 8.
  - intros [->|[->|[->|[[den ->]|[->|[->| ->]]]]]]; reflexivity.
Qed.

Section Route.

Context {W : Web} {H : Html} {T : Text} {L : Llm} {S : Server}.

(** [data.get('url')], app.py:39 *)
Definition url_of (fields : list (string * json)) : json :=
  default JNull (dict_get "url" fields).

(** [int(data.get('depth', 1))], app.py:40 *)
Definition depth_of (fields : list (string * json)) : result Z :=
  int (default (JInt 1) (dict_get "depth" fields)).

(** The report handed to the PDF generator, app.py:73-83. *)
Definition report_for (results : site_results) (pages_data : list page_data)
    : openai_result :=
  let openai_result :=
    generate_report results ((fun page => (pd_url page, pd_html page)) <$> pages_data) in
  if or_success openai_result then openai_result else fallback_report.

Definition report_file : string := "llm_seo_report_" +:+ new_report_id +:+ ".pdf".

(** The answer to an audit that went through, app.py:91-107. *)
Definition answer_for (results : site_results) : http_answer :=
  Answered
    (AuditSummary new_report_id (sr_site_score results)
       (count_of (sr_pages results))
       (count_of (critical (sr_recommendations results)))
       (count_of (important (sr_recommendations results)))
       (count_of (suggested (sr_recommendations results)))
       (sr_breakdown results)
       (sr_avg_readability_score results,
        sr_avg_structured_data_richness results,
        sr_total_structured_schemas results)
       true
       ("/download/" +:+ report_file)).

Lemma report_for_success (results : site_results) (pages_data : list page_data) :
  or_success (report_for results pages_data) = true.
Proof.
  unfold report_for. cbn zeta.
  destruct (or_success (generate_report _ _)) eqn:Hs; [exact Hs|reflexivity].
Qed.

(** The route on a body whose depth converts and whose URL is a string
    that is not empty. *)
Lemma audit_website_try_crawl (fields : list (string * json)) (url : string) (depth : Z) :
  url_of fields = JString url -> url <> "" -> depth_of fields = inr depth ->
  audit_website_try (inr (JObject fields)) =
    let! pages_data := crawl_site depth (normalize_start url) in
    let! results := calculate_scores pages_data in
    let! _ := generate_pdf_report results (report_for results pages_data)
                ("reports/" +:+ report_file) in
    ret (answer_for results).
Proof.
  intros Hurl Hne Hdepth. unfold audit_website_try, depth_of, url_of in *.
  cbn [bind ret]. rewrite Hdepth, Hurl. cbn [bind truth].
  rewrite bool_decide_eq_false_2 by exact Hne. cbn [negb bind ret].
  fold (normalize_start url).
  destruct (crawl_site depth (normalize_start url)) as [e|pages_data]; [reflexivity|].
  cbn [bind].
  destruct (calculate_scores pages_data) as [e|results]; [reflexivity|].
  cbn [bind]. fold (report_for results pages_data). fold report_file.
  destruct (generate_pdf_report _ _ _) as [e|[]]; [reflexivity|].
  cbn [bind ret]. unfold answer_for. now rewrite report_for_success.
Qed.

(** The route on a body whose depth converts and whose URL has no
    truth. *)
Lemma audit_website_try_no_url (fields : list (string * json)) (depth : Z) :
  truth (url_of fields) = false -> depth_of fields = inr depth ->
  audit_website_try (inr (JObject fields)) = inr (Refused 400 "URL is required").
Proof.
  intros Hurl Hdepth. unfold audit_website_try, depth_of, url_of in *.
  cbn [bind ret]. rewrite Hdepth. cbn [bind]. now rewrite Hurl.
Qed.

(** The route on a body whose depth converts and whose URL has a truth
    and is no string. *)
Lemma audit_website_try_not_str (fields : list (string * json)) (depth : Z) :
  truth (url_of fields) = true -> (forall url, url_of fields <> JString url) ->
  depth_of fields = inr depth ->
  audit_website_try (inr (JObject fields))
    = inl (no_attribute (url_of fields) "startswith").
Proof.
  intros Htruth Hurl Hdepth. unfold audit_website_try, depth_of, url_of in *.
  cbn [bind ret]. rewrite Hdepth. cbn [bind]. rewrite Htruth. cbn [negb].
  destruct (default JNull (dict_get "url" fields)); try reflexivity.
  now destruct (Hurl s).
Qed.

Lemma audit_website_try_depth (fields : list (string * json)) (e : exn) :
  depth_of fields = inl e -> audit_website_try (inr (JObject fields)) = inl e.
Proof.
  intros Hdepth. unfold audit_website_try, depth_of in *.
  cbn [bind ret]. now rewrite Hdepth.
Qed.

Lemma audit_website_try_no_dict (body : json) :
  (forall fields, body <> JObject fields) ->
  audit_website_try (inr body) = inl (no_attribute body "get").
Proof.
  intros Hbody. unfold audit_website_try. cbn [bind].
  destruct body; try reflexivity. now destruct (Hbody fields).
Qed.

(** The URL of a body: without a truth, a string that is not empty, or
    a value with a truth that is no string. *)
Lemma url_cases (fields : list (string * json)) :
  truth (url_of fields) = false
  \/ (exists url, url_of fields = JString url /\ url <> "")
  \/ (truth (url_of fields) = true /\ forall url, url_of fields <> JString url).
Proof.
  destruct (truth (url_of fields)) eqn:Htruth; [|now left]. right.
  destruct (url_of fields) as [| | | | | |s| |] eqn:Hurl;
    try (right; split; [reflexivity|discriminate]).
  left. exists s. split; [reflexivity|].
  cbn [truth] in Htruth. apply negb_true_iff, bool_decide_eq_false in Htruth. exact Htruth.
Qed.

Lemma body_cases (body : json) :
  (exists fields, body = JObject fields) \/ (forall fields, body <> JObject fields).
Proof. destruct body; try (right; discriminate). left. eauto. Qed.

(** The PDF generator raises on results without pages. *)
Lemma generate_pdf_report_no_pages (results : site_results) (report : openai_result)
    (path : string) :
  sr_pages results = [] ->
  generate_pdf_report results report path =
    inl (match pdf_cover path with
         | inl e => e
         | inr _ => "list index out of range"
         end).
Proof.
  intros Hpages. unfold generate_pdf_report. rewrite Hpages.
  now destruct (pdf_cover path).
Qed.

Lemma generate_pdf_report_pages (results : site_results) (report : openai_result)
    (path : string) (done : unit) :
  generate_pdf_report results report path = inr done -> sr_pages results <> [].
Proof.
  intros Hpdf Hpages.
  rewrite (generate_pdf_report_no_pages results report path Hpages) in Hpdf.
  discriminate.
Qed.

End Route.

(** Every answer of the route that reports a finished audit comes from
    a body that is an object with a URL that is a string and not empty
    and a depth that converts; it counts the pages that the crawl of the
    URL (with [https://] put in front when it has no scheme) returned,
    at least one and at most 50; the site score lies between 25 and 100;
    the answer says that an AI analysis is there, whatever the report
    generation gave; and the download link names the report of this
    audit. *)
Theorem audit_website_answered
    `{W : Web} `{H : Html} `{T : Text} `{L : Llm} `{S : Server}
    (request : result json) (summary : audit_summary) :
  audit_website request = Answered summary ->
  exists fields url depth pages results,
    request = inr (JObject fields) /\
    dict_get "url" fields = Some (JString url) /\ url <> "" /\
    depth_of fields = inr depth /\
    crawl_site depth (normalize_start url) = inr pages /\
    calculate_scores pages = inr results /\
    as_site_score summary = sr_site_score results /\
    as_total_pages summary = count_of pages /\
    1 <= as_total_pages summary <= 50 /\
    25 <= as_site_score summary <= 100 /\
    as_has_ai_analysis summary = true /\
    as_download_url summary
      = "/download/llm_seo_report_" +:+ as_report_id summary +:+ ".pdf".
Proof.
  unfold audit_website. intros Hanswer.
  destruct request as [e|body]; [discriminate|].
  destruct (body_cases body) as [[fields ->]|Hbody];
    [|rewrite (audit_website_try_no_dict body Hbody) in Hanswer; discriminate].
  destruct (depth_of fields) as [e|depth] eqn:Hdepth;
    [rewrite (audit_website_try_depth fields e Hdepth) in Hanswer; discriminate|].
  destruct (url_cases fields) as [Hnone|[(url & Hurl & Hne)|[Htruth Hother]]].
  { rewrite (audit_website_try_no_url fields depth Hnone Hdepth) in Hanswer.
    discriminate. }
  2: { rewrite (audit_website_try_not_str fields depth Htruth Hother Hdepth) in Hanswer.
       discriminate. }
  rewrite (audit_website_try_crawl fields url depth Hurl Hne Hdepth) in Hanswer.
  destruct (crawl_site depth (normalize_start url)) as [e|pages] eqn:Hpages;
    [discriminate|].
  cbn [bind] in Hanswer.
  destruct (calculate_scores pages) as [e|results] eqn:Hscores; [discriminate|].
  cbn [bind] in Hanswer.
  destruct (generate_pdf_report _ _ _) as [e|done] eqn:Hpdf; [discriminate|].
  cbn [bind ret] in Hanswer. injection Hanswer as <-.
  exists fields, url, depth, pages, results.
  cbn [as_site_score as_total_pages as_has_ai_analysis as_download_url as_report_id].
  pose proof (calculate_scores_length pages results Hscores) as Hlen.
  assert (Hcount : count_of (sr_pages results) = count_of pages)
    by (unfold count_of; now rewrite Hlen).
  pose proof (crawl_site_count depth (normalize_start url) pages Hpages) as Hcap.
  pose proof (generate_pdf_report_pages _ _ _ _ Hpdf) as Hsome.
  assert (Hpos : 1 <= count_of pages).
  { rewrite <- Hcount. unfold count_of. destruct (sr_pages results); [contradiction|].
    simpl. lia. }
  rewrite Hcount. split_and!; auto; try lia.
  - unfold url_of in Hurl. destruct (dict_get "url" fields) as [v|]; [|discriminate].
    simpl in Hurl. now subst.
  - destruct (site_score_between _ results Hscores) as [[Hnil _]|[_ Hrange]];
      [|apply Hrange]. subst pages. unfold count_of in Hpos. simpl in Hpos. lia.
  - destruct (site_score_between _ results Hscores) as [[Hnil _]|[_ Hrange]];
      [|apply Hrange]. subst pages. unfold count_of in Hpos. simpl in Hpos. lia.
Qed.

(** The route answers 400 exactly when the body is an object, its depth
    converts (or is left out) and its URL has no truth: it is left out
    or is [null], [false], [0], [0.0], the empty string, the empty list
    or the empty object.  The message is then that the URL is required.
    The depth is converted before the URL is looked at, so a body with a
    depth that does not convert is not answered with 400 even when it has
    no URL. *)
Theorem audit_website_url_required
    `{W : Web} `{H : Html} `{T : Text} `{L : Llm} `{S : Server}
    (request : result json) (error : string) :
  (audit_website request = Refused 400 error <->
   error = "URL is required" /\
   exists fields depth,
     request = inr (JObject fields) /\ depth_of fields = inr depth /\
     truth (url_of fields) = false) /\
  (forall v, truth v = false <->
     v = JNull \/ v = JBool false \/ v = JInt 0 \/ (exists den, v = JFloat 0 den)
     \/ v = JString "" \/ v = JArray [] \/ v = JObject []).
Proof.
  split; [|exact truth_false].
  unfold audit_website. split.
  - intros Hanswer.
    destruct request as [e|body]; [discriminate|].
    destruct (body_cases body) as [[fields ->]|Hbody];
      [|rewrite (audit_website_try_no_dict body Hbody) in Hanswer; discriminate].
    destruct (depth_of fields) as [e|depth] eqn:Hdepth;
      [rewrite (audit_website_try_depth fields e Hdepth) in Hanswer; discriminate|].
    destruct (url_cases fields) as [Hnone|[(url & Hurl & Hne)|[Htruth Hother]]].
    + rewrite (audit_website_try_no_url fields depth Hnone Hdepth) in Hanswer.
      injection Hanswer as <-. split; [reflexivity|]. now exists fields, depth.
    + rewrite (audit_website_try_crawl fields url depth Hurl Hne Hdepth) in Hanswer.
      destruct (crawl_site _ _) as [e|pages]; [discriminate|]. cbn [bind] in Hanswer.
      destruct (calculate_scores _) as [e|results]; [discriminate|].
      cbn [bind] in Hanswer.
      destruct (generate_pdf_report _ _ _) as [e|[]]; discriminate.
    + rewrite (audit_website_try_not_str fields depth Htruth Hother Hdepth) in Hanswer.
      discriminate.
  - intros (-> & fields & depth & -> & Hdepth & Hurl).
    now rewrite (audit_website_try_no_url fields depth Hurl Hdepth).
Qed.

(** The route answers 500 exactly with the text of an exception, which
    is that of reading the body; of a body that is no object ([null], a
    list, a string, a number); of the conversion of the depth, whether
    or not a URL is given; of a URL that has a truth and is no string (a
    number, [true], a list that is not empty); of [crawl_site], which
    raises on a seed that [urldefrag] rejects; of [calculate_scores] on
    the crawled pages; or of the PDF generator. *)
Theorem audit_website_failure
    `{W : Web} `{H : Html} `{T : Text} `{L : Llm} `{S : Server}
    (request : result json) (error : string) :
  audit_website request = Refused 500 error <->
  exists e,
    error = "Audit failed: " +:+ e /\
    (request = inl e
     \/ (exists body, request = inr body /\ (forall fields, body <> JObject fields) /\
                      e = no_attribute body "get")
     \/ exists fields,
          request = inr (JObject fields) /\
          (depth_of fields = inl e
           \/ exists depth,
                depth_of fields = inr depth /\
                ((truth (url_of fields) = true /\
                  (forall url, url_of fields <> JString url) /\
                  e = no_attribute (url_of fields) "startswith")
                 \/ exists url,
                      url_of fields = JString url /\ url <> "" /\
                      (crawl_site depth (normalize_start url) = inl e
                       \/ exists pages,
                            crawl_site depth (normalize_start url) = inr pages /\
                            (calculate_scores pages = inl e
                             \/ exists results,
                                  calculate_scores pages = inr results /\
                                  generate_pdf_report results (report_for results pages)
                                    ("reports/" +:+ report_file) = inl e))))).
Proof.
  unfold audit_website. split.
  - intros Hanswer.
    destruct request as [e|body].
    { injection Hanswer as <-. exists e. auto. }
    destruct (body_cases body) as [[fields ->]|Hbody].
    2: { rewrite (audit_website_try_no_dict body Hbody) in Hanswer.
         injection Hanswer as <-. eexists. split; [reflexivity|]. right. left. eauto. }
    destruct (depth_of fields) as [e|depth] eqn:Hdepth.
    { rewrite (audit_website_try_depth fields e Hdepth) in Hanswer.
      injection Hanswer as <-. exists e. split; [reflexivity|]. right. right.
      exists fields. auto. }
    destruct (url_cases fields) as [Hnone|[(url & Hurl & Hne)|[Htruth Hother]]].
    { rewrite (audit_website_try_no_url fields depth Hnone Hdepth) in Hanswer.
      discriminate. }
    2: { rewrite (audit_website_try_not_str fields depth Htruth Hother Hdepth) in Hanswer.
         injection Hanswer as <-. eexists. split; [reflexivity|]. right. right.
         exists fields. split; [reflexivity|]. right. exists depth.
         split; [exact Hdepth|]. left. auto. }
    rewrite (audit_website_try_crawl fields url depth Hurl Hne Hdepth) in Hanswer.
    destruct (crawl_site depth (normalize_start url)) as [e|pages] eqn:Hpages.
    { injection Hanswer as <-. exists e. split; [reflexivity|]. right. right.
      exists fields. split; [reflexivity|]. right. exists depth. split; [exact Hdepth|].
      right. exists url. auto. }
    cbn [bind] in Hanswer.
    destruct (calculate_scores pages) as [e|results] eqn:Hscores.
    { injection Hanswer as <-. exists e. split; [reflexivity|]. right. right.
      exists fields. split; [reflexivity|]. right. exists depth. split; [exact Hdepth|].
      right. exists url. split_and!; auto. right. exists pages. auto. }
    cbn [bind] in Hanswer.
    destruct (generate_pdf_report _ _ _) as [e|[]] eqn:Hpdf; [|discriminate].
    injection Hanswer as <-. exists e. split; [reflexivity|]. right. right.
    exists fields. split; [reflexivity|]. right. exists depth. split; [exact Hdepth|].
    right. exists url. split_and!; auto. right. exists pages. split; [exact Hpages|].
    right. exists results. auto.
  - intros (e & -> & [->|[(body & -> & Hbody & ->)|(fields & -> & Hwhy)]]).
    + reflexivity.
    + now rewrite (audit_website_try_no_dict body Hbody).
    + destruct Hwhy as [Hdepth|(depth & Hdepth & Hwhy)].
      { now rewrite (audit_website_try_depth fields e Hdepth). }
      destruct Hwhy as [(Htruth & Hother & ->)|(url & Hurl & Hne & Hwhy)].
      { now rewrite (audit_website_try_not_str fields depth Htruth Hother Hdepth). }
      rewrite (audit_website_try_crawl fields url depth Hurl Hne Hdepth).
      destruct Hwhy as [->|(pages & -> & Hwhy)]; [reflexivity|]. cbn [bind].
      destruct Hwhy as [->|(results & -> & Hpdf)]; [reflexivity|]. cbn [bind].
      now rewrite Hpdf.
Qed.

(** A site whose first page cannot be fetched makes the route fail:
    the crawl returns no page, the scores are those of no page, and the
    PDF generator, unless it raised before, reads the first page of the
    results at pdf_generator.py:274 and raises IndexError.  The answer
    has status 500. *)
Theorem audit_website_unreachable_site
    `{W : Web} `{H : Html} `{T : Text} `{L : Llm} `{S : Server}
    (fields : list (string * json)) (url first_url : string) (depth : Z) :
  url_of fields = JString url -> url <> "" -> depth_of fields = inr depth ->
  Url.urldefrag (normalize_start url) = inr first_url ->
  (depth < 0 \/ exists e, fetch first_url = inl e) ->
  crawl_site depth (normalize_start url) = inr [] /\
  audit_website (inr (JObject fields)) =
    Refused 500
      ("Audit failed: " +:+
       match pdf_cover ("reports/" +:+ report_file) with
       | inl e => e
       | inr _ => "list index out of range"
       end).
Proof.
  intros Hurl Hne Hdepth Hfirst Hwhy.
  assert (Hempty : crawl_site depth (normalize_start url) = inr []).
  { apply (crawl_site_unreachable depth (normalize_start url) first_url); [|exact Hwhy].
    now rewrite normalize_start_twice. }
  split; [exact Hempty|]. unfold audit_website.
  rewrite (audit_website_try_crawl fields url depth Hurl Hne Hdepth), Hempty.
  cbn [bind].
  destruct calculate_scores_empty as (results & Hscores & _ & Hpages).
  rewrite Hscores. cbn [bind].
  now rewrite (generate_pdf_report_no_pages results _ _ Hpages).
Qed.

End WebFacts.

(** ** The command: how a run ends *)

Module AuditFacts.
Import Crawler Checks ContentAnalysis Scoring Cli CliFacts.

Definition too_many_arguments : exn :=
  "generate_report_with_openai() takes 2 positional arguments but 3 were given".

Section Report.

Context {W : Web} {H : Html} {T : Text} {L : Llm} {S : Shell}.

(** The report step of a run without an OpenAI answer raises only when
    a file is asked for and cannot be written, and has written nothing
    then. *)
Lemma emit_raises (results : site_results) (output : option string)
    (format : output_format) (e : exn) :
  snd (emit results None output format) = inl e ->
  fst (emit results None output format) = [] /\
  exists path,
    output = Some path /\ path <> "" /\
    match format with
    | FormatReport =>
        save_report_to_file (generate_unified_report results None) path = inl e
    | FormatJson => dump_to_file path (json_dumps results None) = inl e
    end.
Proof.
  unfold emit. destruct format, output as [path|]; try discriminate.
  - cbn [truthy]. case_bool_decide as Hpath; [discriminate|]. cbn [negb].
    destruct (save_report_to_file _ _) as [e'|] eqn:Hsave; [|discriminate].
    cbn [fst snd]. intros [= <-]. split; [reflexivity|]. now exists path.
  - cbn [truthy]. case_bool_decide as Hpath; [discriminate|]. cbn [negb].
    destruct (dump_to_file _ _) as [e'|] eqn:Hdump; [|discriminate].
    cbn [fst snd]. intros [= <-]. split; [reflexivity|]. now exists path.
Qed.

End Report.

(** With the flag set and a key at hand, as an option or in the
    environment, a run whose crawl was scored writes the line that
    announces the OpenAI report and then raises TypeError: cli.py:46
    calls [generate_report_with_openai] with three arguments and the
    function takes two.  No report is printed or saved. *)
Theorem audit_openai_call_raises
    `{W : Web} `{H : Html} `{T : Text} `{L : Llm} `{S : Shell}
    (url : string) (depth : Z) (output : option string) (openai_key : option string)
    (format : output_format) (pages : list page_data) (results : site_results) :
  crawl_site depth url = inr pages ->
  calculate_scores pages = inr results ->
  truthy openai_key = true \/ truthy (getenv "OPENAI_API_KEY") = true ->
  audit url depth output true openai_key format
    = ([ Echo ("Auditing " +:+ url +:+ " with depth " +:+ Py.str depth +:+ "...");
         Echo "Generating polished report with OpenAI..." ],
       raise "generate_report_with_openai() takes 2 positional arguments but 3 were given").
Proof.
  intros Hpages Hscores Hkey.
  rewrite (audit_scored _ _ _ _ _ _ pages results Hpages Hscores). cbn zeta.
  assert (Hguard : negb (truthy openai_key) && negb (truthy (getenv "OPENAI_API_KEY"))
                   = false).
  { destruct Hkey as [-> | ->]; [reflexivity|apply andb_false_r]. }
  rewrite Hguard. reflexivity.
Qed.

(** How a run of the command can end.  It always starts with the line
    about the audit.  It raises with the exception of [crawl_site] or
    of [calculate_scores], having written nothing else; with the
    TypeError of the OpenAI call, when the flag is set and a key is at
    hand, having written the line that announces the report; or, without
    the flag, with the exception of writing the report file, having
    written nothing else.  A run that returns has scored the crawl, and
    either stopped at the missing key or, without the flag, ended with
    the events of the report step: no run with the flag set prints or
    saves a report. *)
Theorem audit_outcomes `{W : Web} `{H : Html} `{T : Text} `{L : Llm} `{S : Shell}
    (url : string) (depth : Z) (output : option string) (openai_report : bool)
    (openai_key : option string) (format : output_format) :
  let run := audit url depth output openai_report openai_key format in
  let first := Echo ("Auditing " +:+ url +:+ " with depth " +:+ Py.str depth +:+ "...") in
  head (fst run) = Some first /\
  match snd run with
  | inl e =>
      (crawl_site depth url = inl e /\ fst run = [first])
      \/ exists pages,
           crawl_site depth url = inr pages /\
           ((calculate_scores pages = inl e /\ fst run = [first])
            \/ exists results,
                 calculate_scores pages = inr results /\
                 ((openai_report = true /\
                   (truthy openai_key = true \/ truthy (getenv "OPENAI_API_KEY") = true) /\
                   e = too_many_arguments /\
                   fst run = [first; Echo "Generating polished report with OpenAI..."])
                  \/ (openai_report = false /\ fst run = [first] /\
                      exists path,
                        output = Some path /\ path <> "" /\
                        match format with
                        | FormatReport =>
                            save_report_to_file (generate_unified_report results None) path
                              = inl e
                        | FormatJson =>
                            dump_to_file path (json_dumps results None) = inl e
                        end)))
  | inr _ =>
      exists pages results,
        crawl_site depth url = inr pages /\
        calculate_scores pages = inr results /\
        ((openai_report = true /\ truthy openai_key = false /\
          truthy (getenv "OPENAI_API_KEY") = false /\
          fst run = [first; Echo missing_key_message])
         \/ (openai_report = false /\
             fst run = first :: fst (emit results None output format) /\
             snd (emit results None output format) = inr tt))
  end.
Proof.
  cbn zeta.
  destruct (crawl_site depth url) as [e|pages] eqn:Hpages.
  { unfold audit. rewrite Hpages. cbn [fst snd head]; unfold ret, raise. split; [reflexivity || assumption|]. now left. }
  destruct (calculate_scores pages) as [e|results] eqn:Hscores.
  { unfold audit. rewrite Hpages, Hscores. cbn [fst snd head]; unfold ret, raise.
    split; [reflexivity || assumption|]. right. exists pages. split; [reflexivity || assumption|]. now left. }
  rewrite (audit_scored _ _ _ _ _ _ pages results Hpages Hscores). cbn zeta.
  destruct openai_report.
  - destruct (negb (truthy openai_key) && negb (truthy (getenv "OPENAI_API_KEY")))
      eqn:Hguard.
    + apply andb_true_iff in Hguard as [Hk He].
      apply negb_true_iff in Hk, He.
      cbn [fst snd head app]; unfold ret, raise. split; [reflexivity || assumption|].
      exists pages, results. split_and!; try reflexivity; try assumption. left. auto.
    + rewrite openai_step_raises. cbn [fst snd head app]; unfold ret, raise. split; [reflexivity || assumption|].
      right. exists pages. split; [reflexivity || assumption|]. right. exists results.
      split; [reflexivity || assumption|]. left. split_and!; try reflexivity; try assumption.
      apply andb_false_iff in Hguard as [Hk|He]; [left|right];
        now apply negb_false_iff.
  - cbn [fst snd head app]; unfold ret, raise. split; [reflexivity || assumption|].
    destruct (snd (emit results None output format)) as [e|[]] eqn:Hemit.
    + destruct (emit_raises results output format e Hemit) as [Hnone Hwhy].
      right. exists pages. split; [reflexivity || assumption|]. right. exists results.
      split; [reflexivity || assumption|]. right. rewrite Hnone. auto.
    + exists pages, results. split_and!; try reflexivity; try assumption. right. auto.
Qed.

End AuditFacts.

(** ** The further properties on the small site *)

Module SiteFacts.
Import Crawler Checks ContentAnalysis Scoring Cli WebApp Site.
Import CrawlOrder MarkupFacts ContentFacts BatchFacts AdviceFacts WebFacts AuditFacts.

Definition site_pages : list page_data := [home_page; inner_page; query_page].

Lemma site_crawled : crawl_site 1 "example.com" = inr site_pages.
Proof. exact (proj2 SiteCrawl.site_crawl_final). Qed.


Lemma crawl_site_depths_witness :
  crawl_site 1 "example.com" = inr site_pages /\
  Forall (fun p => 0 <= pd_depth p <= 1) site_pages.
Proof.
  split; [exact site_crawled|].
  exact (crawl_site_depths 1 "example.com" site_pages site_crawled).
Defined.

(** The depths of the three records are 0, 1 and 1. *)
Lemma crawl_site_breadth_first_witness :
  crawl_site 1 "example.com" = inr site_pages /\
  pd_depth <$> site_pages = [0; 1; 1] /\
  StronglySorted Z.le (pd_depth <$> site_pages).
Proof.
  split; [exact site_crawled|]. split; [reflexivity|].
  exact (crawl_site_breadth_first 1 "example.com" site_pages site_crawled).
Defined.

Lemma crawl_site_distinct_urls_witness :
  crawl_site 1 "example.com" = inr site_pages /\
  NoDup (pd_url <$> site_pages).
Proof.
  split; [exact site_crawled|].
  exact (crawl_site_distinct_urls 1 "example.com" site_pages site_crawled).
Defined.

(** The home page answers, so its record opens the crawl. *)
Lemma crawl_site_seed_first_witness :
  0 <= 1 /\
  Url.urldefrag (normalize_start "example.com") = inr "https://example.com" /\
  fetch "https://example.com" = inr (Response home_html 200) /\
  exists rest, crawl_site 1 "example.com" = inr (home_page :: rest).
Proof.
  assert (Hfirst : Url.urldefrag (normalize_start "example.com")
                   = inr "https://example.com") by reflexivity.
  assert (Hfetch : fetch "https://example.com" = inr (Response home_html 200))
    by reflexivity.
  split; [lia|]. split; [exact Hfirst|]. split; [exact Hfetch|].
  exact (proj1 (crawl_site_seed_first 1 "example.com" "https://example.com"
                  (Response home_html 200) ltac:(lia) Hfirst Hfetch)).
Defined.


(** The inner page carries [<meta name='ROBOTS' content='NoIndex, follow'>]. *)
Lemma meta_robots_fails_iff_witness :
  BeautifulSoup (pd_html inner_page) = inr page_doc /\
  exists r : check_result unit,
    check_meta_robots_allows_indexing inner_page = inr r /\
    (passed r = false <->
     exists meta, first_named_meta "robots" page_doc meta
                  /\ Py.contains "noindex" (Py.lower (content_of meta)) = true).
Proof.
  assert (Hdoc : BeautifulSoup (pd_html inner_page) = inr page_doc) by reflexivity.
  split; [exact Hdoc|].
  exact (meta_robots_fails_iff (D := unit) inner_page page_doc Hdoc).
Defined.

Lemma meta_description_passes_iff_witness :
  BeautifulSoup (pd_html home_page) = inr home_doc /\
  exists r : check_result unit,
    check_has_meta_description home_page = inr r /\
    (passed r = true <->
     exists meta, first_named_meta "description" home_doc meta
                  /\ 120 <= Py.len (Py.strip (content_of meta)) <= 160).
Proof.
  assert (Hdoc : BeautifulSoup (pd_html home_page) = inr home_doc) by reflexivity.
  split; [exact Hdoc|].
  exact (meta_description_passes_iff (D := unit) home_page home_doc Hdoc).
Defined.

(** The query page has two [h1] elements. *)
Lemma h1_passes_iff_witness :
  BeautifulSoup (pd_html query_page) = inr query_doc /\
  exists r : check_result unit,
    check_has_h1_tag query_page = inr r /\
    (passed r = true <->
     exists h1, find_all "h1" query_doc = [h1] /\ get_text_strip h1 <> "").
Proof.
  assert (Hdoc : BeautifulSoup (pd_html query_page) = inr query_doc) by reflexivity.
  split; [exact Hdoc|].
  exact (h1_passes_iff (D := unit) query_page query_doc Hdoc).
Defined.

(** The image of the inner page has no [alt] attribute. *)
Lemma images_pass_iff_witness :
  BeautifulSoup (pd_html inner_page) = inr page_doc /\
  exists r : check_result unit,
    check_images_have_alt_text inner_page = inr r /\
    (passed r = true <-> Forall has_alt_text (find_all "img" page_doc)).
Proof.
  assert (Hdoc : BeautifulSoup (pd_html inner_page) = inr page_doc) by reflexivity.
  split; [exact Hdoc|].
  exact (images_pass_iff (D := unit) inner_page page_doc Hdoc).
Defined.

Lemma readability_buckets_witness :
  BeautifulSoup (pd_html home_page) = inr home_doc /\
  exists score,
    analyze_content_readability home_page = inr score /\
    score ∈ [0; 30; 50; 60; 70; 80; 90; 100].
Proof.
  assert (Hdoc : BeautifulSoup (pd_html home_page) = inr home_doc) by reflexivity.
  split; [exact Hdoc|].
  destruct (readability_buckets home_page home_doc Hdoc) as (score & Hscore & Hin & _).
  exists score. split; [exact Hscore|exact Hin].
Defined.

Lemma structured_data_bounds_witness :
  BeautifulSoup (pd_html home_page) = inr home_doc /\
  exists summary,
    analyze_structured_data home_page = inr summary /\
    0 <= richness_score summary <= 100.
Proof.
  assert (Hdoc : BeautifulSoup (pd_html home_page) = inr home_doc) by reflexivity.
  split; [exact Hdoc|].
  destruct (structured_data_bounds home_page home_doc Hdoc)
    as (summary & Hsummary & _ & Hrange & _).
  exists summary. split; [exact Hsummary|exact Hrange].
Defined.

Lemma inner_page_scored : exists r, score_page inner_page = inr r.
Proof. eexists. vm_compute. reflexivity. Qed.

Lemma site_pages_scored :
  exists r, calculate_scores [home_page; inner_page; query_page] = inr r.
Proof. eexists. vm_compute. reflexivity. Qed.

Lemma calculate_scores_keeps_order_witness :
  exists r,
    calculate_scores [home_page; inner_page; query_page] = inr r /\
    pr_url <$> sr_pages r =
      [ "https://example.com"; "https://example.com/page";
        "https://example.com/page?x=1" ].
Proof.
  destruct site_pages_scored as [r Hr]. exists r. split; [exact Hr|].
  exact (calculate_scores_keeps_order [home_page; inner_page; query_page] r Hr).
Defined.

Lemma breakdown_partitions_witness :
  exists r,
    calculate_scores [home_page; inner_page; query_page] = inr r /\
    high_accessibility (sr_breakdown r) + medium_accessibility (sr_breakdown r)
      + low_accessibility (sr_breakdown r) = 3.
Proof.
  destruct site_pages_scored as [r Hr]. exists r. split; [exact Hr|].
  destruct (breakdown_partitions [home_page; inner_page; query_page] r Hr)
    as (_ & _ & _ & Hsum).
  exact Hsum.
Defined.

Lemma site_score_range_witness :
  [home_page; inner_page; query_page] <> [] /\
  exists r,
    calculate_scores [home_page; inner_page; query_page] = inr r /\
    25 <= sr_site_score r <= 100.
Proof.
  split; [discriminate|].
  destruct site_pages_scored as [r Hr]. exists r. split; [exact Hr|].
  exact (site_score_range [home_page; inner_page; query_page] r
           ltac:(discriminate) Hr).
Defined.

Lemma recommendations_by_tier_witness :
  exists r,
    score_page inner_page = inr r /\
    exists recs,
      generate_recommendations [r] 0 0 = inr recs /\
      (suggested recs = [] <-> 70 <= 0 /\ 0 <> 0) /\
      (length (critical recs) <= 3)%nat.
Proof.
  destruct inner_page_scored as [r Hr]. exists r. split; [exact Hr|].
  destruct (recommendations_by_tier [r] 0 0)
    as (recs & Hrecs & _ & _ & Hsuggested & Hcritical & _).
  { constructor; [|constructor]. exists inner_page. exact Hr. }
  exists recs. split; [exact Hrecs|]. split; [exact Hsuggested|exact Hcritical].
Defined.

Lemma ai_recommendations_raise_iff_witness :
  exists r,
    score_page inner_page = inr r /\
    ((exists e, generate_ai_powered_recommendations [r] (OpenaiAnalysis true [] "" [])
                = inl e) <->
     0 < failing "has_meta_description" [r]
     /\ 2 * failing "has_h1_tag" [r] <= Z.of_nat (length [r])).
Proof.
  destruct inner_page_scored as [r Hr]. exists r. split; [exact Hr|].
  apply (ai_recommendations_raise_iff [r] (OpenaiAnalysis true [] "" [])).
  constructor; [|constructor]. exists inner_page. exact Hr.
Defined.

(** Seven recommendations of the AI on an empty batch: three, three and
    one. *)
Lemma seven_insights_kept :
  exists recs, generate_ai_powered_recommendations [] seven_insights = inr recs.
Proof. eexists. vm_compute. reflexivity. Qed.

Lemma ai_recommendations_kept_witness :
  exists recs,
    generate_ai_powered_recommendations [] seven_insights = inr recs /\
    suggested recs = [ai_insight "g"].
Proof.
  destruct seven_insights_kept as [recs Hrecs]. exists recs. split; [exact Hrecs|].
  destruct (ai_recommendations_kept [] seven_insights recs Hrecs) as (_ & _ & Hsuggested).
  exact Hsuggested.
Defined.

Lemma calculate_scores_returns_witness :
  Forall (fun page => exists html doc base,
                        pd_html page = Some html /\ html_parser html = inr doc /\
                        base_url_of (pd_url page) = inr base)
         [home_page; inner_page; query_page] /\
  oa_success (scrape_website_with_openai [home_page; inner_page; query_page]) = false /\
  exists r, calculate_scores [home_page; inner_page; query_page] = inr r.
Proof.
  assert (Hpages : Forall (fun page => exists html doc base,
                             pd_html page = Some html /\ html_parser html = inr doc /\
                             base_url_of (pd_url page) = inr base)
                          [home_page; inner_page; query_page]).
  { repeat constructor.
    - exists home_html, home_doc, "https://example.com". repeat split.
    - exists page_html, page_doc, "https://example.com". repeat split.
    - exists query_html, query_doc, "https://example.com". repeat split. }
  split; [exact Hpages|]. split; [reflexivity|].
  exact (calculate_scores_returns [home_page; inner_page; query_page] Hpages eq_refl).
Defined.

(** *** The route *)

Lemma site_route_answer : exists summary, audit_website site_request = Answered summary.
Proof.
  unfold audit_website, site_request.
  rewrite (audit_website_try_crawl [("url", JString "example.com")]
             "example.com" 1 eq_refl ltac:(discriminate) eq_refl).
  rewrite crawl_site_normalized, site_crawled. cbn [bind].
  destruct SiteAudit.site_calculate_scores as (r & Hr & Hscores & _).
  unfold site_pages. rewrite Hr. cbn [bind]. unfold generate_pdf_report.
  cbn [pdf_cover site_server bind].
  destruct (sr_pages r); [discriminate|]. cbn [pdf_body site_server bind ret].
  eexists. reflexivity.
Qed.

Lemma audit_website_answered_witness :
  exists summary,
    audit_website site_request = Answered summary /\
    1 <= as_total_pages summary <= 50 /\
    25 <= as_site_score summary <= 100 /\
    as_has_ai_analysis summary = true.
Proof.
  destruct site_route_answer as [summary Hanswer]. exists summary.
  split; [exact Hanswer|].
  destruct (audit_website_answered site_request summary Hanswer)
    as (fields & url & depth & pages & results
        & _ & _ & _ & _ & _ & _ & _ & _ & Hcap & Hrange & Hai & _).
  split; [exact Hcap|]. split; [exact Hrange|exact Hai].
Defined.

(** A depth that is no numeral, in a body without URL; a URL that is a
    number; a seed that [urldefrag] rejects. *)
Example audit_website_failures :
  audit_website bad_depth_request
    = Refused 500 "Audit failed: invalid literal for int() with base 10: 'deep'" /\
  audit_website number_request
    = Refused 500 "Audit failed: 'int' object has no attribute 'startswith'" /\
  audit_website zero_request = Refused 400 "URL is required" /\
  audit_website (inr (JArray []))
    = Refused 500 "Audit failed: 'list' object has no attribute 'get'".
Proof. repeat split. Qed.

Example audit_website_bracket_seed :
  audit_website bracket_request = Refused 500 "Audit failed: Invalid IPv6 URL".
Proof.
  unfold audit_website, bracket_request.
  rewrite (audit_website_try_crawl [("url", JString "https://[#a")]
             "https://[#a" 1 eq_refl ltac:(discriminate) eq_refl).
  assert (Hcrawl : crawl_site 1 (normalize_start "https://[#a") = inl "Invalid IPv6 URL").
  { destruct (crawl_run 1 5 (crawl_init (normalize_start "https://[#a")))
      as [st'|] eqn:Hst; [|vm_compute in Hst; discriminate].
    rewrite (proj2 (SiteCrawl.crawl_run_site 1 5 _ _ Hst)).
    vm_compute in Hst. injection Hst as <-. reflexivity. }
  now rewrite Hcrawl.
Qed.

(** [/down] is not answered: the crawl returns no page and the route
    answers 500. *)
Lemma audit_website_unreachable_site_witness :
  Url.urldefrag (normalize_start "example.com/down") = inr "https://example.com/down" /\
  fetch "https://example.com/down" = inl "ConnectionError" /\
  crawl_site 2 (normalize_start "example.com/down") = inr [] /\
  audit_website down_request = Refused 500 "Audit failed: list index out of range".
Proof.
  assert (Hfirst : Url.urldefrag (normalize_start "example.com/down")
                   = inr "https://example.com/down") by reflexivity.
  assert (Hfetch : fetch "https://example.com/down" = inl "ConnectionError")
    by reflexivity.
  split; [exact Hfirst|]. split; [exact Hfetch|].
  exact (audit_website_unreachable_site
           [("url", JString "example.com/down"); ("depth", JInt 2)]
           "example.com/down" "https://example.com/down" 2
           eq_refl ltac:(discriminate) eq_refl Hfirst
           (or_intror (ex_intro _ "ConnectionError" Hfetch))).
Defined.

(** *** The command *)

(** A key is given: the run ends with the TypeError of the call. *)
Lemma audit_openai_call_raises_witness :
  truthy (Some "sk-test") = true /\
  (exists pages results,
     crawl_site 1 "example.com" = inr pages /\ calculate_scores pages = inr results) /\
  audit "example.com" 1 None true (Some "sk-test") FormatReport
    = ([ Echo "Auditing example.com with depth 1...";
         Echo "Generating polished report with OpenAI..." ],
       raise "generate_report_with_openai() takes 2 positional arguments but 3 were given").
Proof.
  split; [reflexivity|]. split; [exact SiteAudit.site_scored|].
  destruct SiteAudit.site_scored as (pages & results & Hpages & Hscores).
  exact (audit_openai_call_raises "example.com" 1 None (Some "sk-test") FormatReport
           pages results Hpages Hscores (or_introl eq_refl)).
Defined.

(** The report of the site, printed; and a report that cannot be
    saved. *)
Example site_report_printed :
  audit "example.com" 1 None false None FormatReport
    = ([ Echo "Auditing example.com with depth 1...";
         Echo "LLM READINESS AUDIT REPORT 50/100" ], ret tt) /\
  audit "example.com" 1 (Some "/") false None FormatReport
    = ([ Echo "Auditing example.com with depth 1..." ],
       raise "[Errno 21] Is a directory: '/'").
Proof.
  destruct SiteAudit.site_calculate_scores as (r & Hr & _ & Hscore).
  rewrite !(CliFacts.audit_scored _ _ _ _ _ _ site_pages r site_crawled Hr).
  cbn zeta. unfold emit. cbn [truthy generate_unified_report save_report_to_file
    site_shell site_write fst snd app]. rewrite Hscore. split; reflexivity.
Qed.

End SiteFacts.
